(** * H200 price pipeline: validation gate, publishers and normalizers

    A shallow embedding of the two publication scripts and of three
    provider scrapers of the repository, and the properties claimed
    for them.

    - [Py]: the fragments of the Python runtime the sources rely on:
      exceptions, binary64 floats (the primitive floats of Rocq, with
      [int()], [float()], [round()], [sum()], ['{:.2f}'] and the
      division that raises on zero written out), the substring test,
      [str.upper] and the two regular expressions that read a number
      in a price string.
    - [Run]: the state, exception and output monad the scripts run in.
    - [PushToSupabase]: [src/push_to_supabase.py], against any
      datastore client, and an in-memory datastore.
    - [Web3]: the node and account surface of web3, and a simulated
      chain with a clock in seconds.
    - [PushToContract]: [src/push_to_contract.py].
    - [ProviderMarkets]: [src/Push_h200_provider_specific_markets.py].
    - [GCP], [Hyperbolic]: [_validate_prices] and the method loop of
      [src/gcp_h200_scraper.py] and [src/hyperbolic_h200_scraper.py].
    - [AceCloud]: the rate lookup, the table rows and the monthly
      normalisation of [src/acecloud_h200_scraper.py].

    A decimal literal such as [4.2] or [0.25] stands for the nearest
    double, here as in Python.  A number read from JSON is carried at
    its float value.  The external services (datastore, node, web
    pages, rate endpoints) are inputs: what each request returns or
    raises is given, and the scripts are followed from there. *)

From Stdlib Require Import Floats.PrimFloat Floats.SpecFloat Floats.FloatOps.
From Stdlib Require Import Floats.FloatAxioms.
From Stdlib Require Import ZArith List String Ascii Bool Lia DecimalString.
Import ListNotations.

Set Implicit Arguments.
Set Warnings "-inexact-float".
Local Open Scope Z_scope.

(* ================================================================== *)
(** * Python runtime fragments *)
(* ================================================================== *)

Module Py.

(** Exceptions raised by the modelled code.  All of them derive from
    [Exception], hence every [except Exception] and bare [except]
    handler of the sources catches each of them. *)
Inductive exn : Type :=
| TypeError
| ValueError
| KeyError
| ZeroDivisionError
| OverflowError
| ConnectionError
| TimeExhausted          (* web3.exceptions.TimeExhausted *)
| LibraryError (name : string).

Inductive res (A : Type) : Type :=
| Ok (a : A)
| Raise (e : exn).
Arguments Ok {A} a.
Arguments Raise {A} e.

(** ** Results of computations that may raise *)

Definition rbind {A B} (r : res A) (f : A -> res B) : res B :=
  match r with
  | Ok a => f a
  | Raise e => Raise e
  end.

(** A list comprehension whose element expression may raise. *)
Fixpoint map_res {A B} (f : A -> res B) (l : list A) : res (list B) :=
  match l with
  | [] => Ok []
  | a :: l' =>
      rbind (f a) (fun b => rbind (map_res f l') (fun bs => Ok (b :: bs)))
  end.

(** ** binary64 floats *)

(** [float(n)] for an [int] that fits: correctly rounded. *)
Definition float_of_Z (z : Z) : float :=
  SF2Prim (binary_normalize prec emax z 0 false).

(** The double nearest to [p / q] for [0 <= p] and [0 < q], ties to
    even: the quotient is taken with more than 64 significant bits, the
    remainder tells on which side of the midpoint the exact value
    lies. *)
Definition float_of_ratio (p q : Z) : float :=
  if p <=? 0 then 0%float
  else
    let s := 64 + Z.log2_up q in
    let n := p * 2 ^ s in
    let r := n mod q in
    let loc := if r =? 0 then loc_Exact
               else loc_Inexact (Z.compare (2 * r) q) in
    SF2Prim (binary_round_aux prec emax false (n / q) (- s) loc).

(** The double nearest to [m / 10^k]: the value Python's [float] gives
    to a digit string whose digits read [m] and that has [k] digits
    after the point. *)
Definition float_of_decimal (m : Z) (k : Z) : float :=
  float_of_ratio m (10 ^ k).

(** [float(n)] where Python converts an [int] operand: the conversion
    raises when the nearest double would be an infinity. *)
Definition float_of_int (z : Z) : res float :=
  let x := float_of_Z z in
  if PrimFloat.is_infinity x then Raise OverflowError else Ok x.

(** [a / b] on two non-negative ints, [b] not zero: correctly rounded. *)
Definition int_truediv (a b : Z) : res float :=
  if b =? 0 then Raise ZeroDivisionError
  else
    let x := float_of_ratio a b in
    if PrimFloat.is_infinity x then Raise OverflowError else Ok x.

(** [x / y] on floats: Python raises where IEEE would give an
    infinity or a NaN for a zero divisor. *)
Definition truediv (x y : float) : res float :=
  if PrimFloat.eqb y 0 then Raise ZeroDivisionError
  else Ok (x / y)%float.

(** [int(x)]: truncation toward zero; NaN and the infinities raise. *)
Definition int_of_float (x : float) : res Z :=
  match Prim2SF x with
  | S754_nan => Raise ValueError
  | S754_infinity _ => Raise OverflowError
  | S754_zero _ => Ok 0
  | S754_finite s m e =>
      let a := if 0 <=? e then Zpos m * 2 ^ e else Zpos m / 2 ^ (- e) in
      Ok (if s then - a else a)
  end.

(** [num / den] rounded to the nearest integer, ties to even. *)
Definition round_half_even (num den : Z) : Z :=
  let q := num / den in
  let r := num mod den in
  match Z.compare (2 * r) den with
  | Lt => q
  | Gt => q + 1
  | Eq => if Z.even q then q else q + 1
  end.

(** [round(x, ndigits)] for a float and [0 <= ndigits]: the exact value
    of [x] is rounded half-even to [ndigits] decimals and the decimal is
    read back as a double.  Integral values, the infinities and NaN are
    returned as they are. *)
Definition round_ndigits (x : float) (ndigits : Z) : float :=
  match Prim2SF x with
  | S754_finite s m e =>
      if 0 <=? e then x
      else
        let n := round_half_even (Zpos m * 10 ^ ndigits) (2 ^ (- e)) in
        let y := float_of_decimal n ndigits in
        if s then (- y)%float else y
  | _ => x
  end.

(** Truth value of a float: only the two zeros are false. *)
Definition truthy (x : float) : bool := negb (PrimFloat.eqb x 0).

(** [sum(xs)]: the running total starts from the int [0] and the
    floats are added from left to right (CPython up to 3.11; later
    versions also carry the rounding error along, which changes
    nothing for one or two finite terms). *)
Definition sum (xs : list float) : float :=
  fold_left PrimFloat.add xs 0%float.

(** ** Strings *)

Fixpoint prefix (p s : string) : bool :=
  match p, s with
  | EmptyString, _ => true
  | String a p', String b s' => Ascii.eqb a b && prefix p' s'
  | String _ _, EmptyString => false
  end.

(** [p in s] *)
Fixpoint contains (p s : string) : bool :=
  prefix p s ||
  match s with
  | EmptyString => false
  | String _ s' => contains p s'
  end.

Definition upper_ascii (c : ascii) : ascii :=
  let n := nat_of_ascii c in
  if ((97 <=? n) && (n <=? 122))%nat then ascii_of_nat (n - 32) else c.

(** [s.upper()] on ASCII text. *)
Fixpoint upper (s : string) : string :=
  match s with
  | EmptyString => EmptyString
  | String c s' => String (upper_ascii c) (upper s')
  end.

(** ** Numbers in text *)

Definition is_digit (c : ascii) : bool :=
  let n := nat_of_ascii c in ((48 <=? n) && (n <=? 57))%nat.

(** A character of the class [[0-9.]]. *)
Definition is_number_char (c : ascii) : bool :=
  is_digit c || Ascii.eqb c ".".

Fixpoint take_while (p : ascii -> bool) (s : string) : string :=
  match s with
  | EmptyString => EmptyString
  | String c s' => if p c then String c (take_while p s') else EmptyString
  end.

Fixpoint drop_while (p : ascii -> bool) (s : string) : string :=
  match s with
  | EmptyString => EmptyString
  | String c s' => if p c then drop_while p s' else s
  end.

(** [re.search(r'\$?([0-9.]+)', s)] and its group 1: the leftmost
    match starts at the first character of the class, or at the [$]
    just before it, and the group is the whole run that starts
    there. *)
Fixpoint search_number (s : string) : option string :=
  match s with
  | EmptyString => None
  | String c s' =>
      if is_number_char c then Some (take_while is_number_char s)
      else search_number s'
  end.

(** [re.search(r'\$([0-9.]+)', s)] and its group 1: the first [$]
    that a character of the class follows. *)
Fixpoint search_dollar_number (s : string) : option string :=
  match s with
  | EmptyString => None
  | String c s' =>
      if Ascii.eqb c "$" then
        match s' with
        | String d _ =>
            if is_number_char d then Some (take_while is_number_char s')
            else search_dollar_number s'
        | EmptyString => None
        end
      else search_dollar_number s'
  end.

(** The number a string of digits reads, after the digits [acc]. *)
Fixpoint digits_value (s : string) (acc : Z) : Z :=
  match s with
  | EmptyString => acc
  | String c s' => digits_value s' (10 * acc + Z.of_nat (nat_of_ascii c - 48))
  end.

Fixpoint all_digits (s : string) : bool :=
  match s with
  | EmptyString => true
  | String c s' => is_digit c && all_digits s'
  end.

(** [float(s)] for a string [s] over [[0-9.]]: digits with at most one
    point and at least one digit; anything else is a [ValueError]. *)
Definition float_of_digits (s : string) : res float :=
  let whole := take_while is_digit s in
  let rest := drop_while is_digit s in
  match rest with
  | EmptyString =>
      if (String.length whole =? 0)%nat then Raise ValueError
      else Ok (float_of_decimal (digits_value whole 0) 0)
  | String c fraction =>
      if Ascii.eqb c "." && all_digits fraction
         && negb (String.length whole + String.length fraction =? 0)%nat
      then Ok (float_of_decimal (digits_value fraction (digits_value whole 0))
                                (Z.of_nat (String.length fraction)))
      else Raise ValueError
  end.

(** [f"{x:.2f}"]: the exact value of [x] rounded half-even to two
    decimals. *)
Definition format_2f (x : float) : string :=
  let show (negative : bool) (hundredths : Z) : string :=
    let units := NilZero.string_of_uint (N.to_uint (Z.to_N (hundredths / 100))) in
    let cents := hundredths mod 100 in
    let pad := if cents <? 10 then "0"%string else ""%string in
    let sign := if negative then "-"%string else ""%string in
    (sign ++ units ++ "." ++ pad
     ++ NilZero.string_of_uint (N.to_uint (Z.to_N cents)))%string in
  match Prim2SF x with
  | S754_nan => "nan"
  | S754_infinity s => if s then "-inf" else "inf"
  | S754_zero s => show s 0
  | S754_finite s m e =>
      show s (if 0 <=? e then Zpos m * 2 ^ e * 100
              else round_half_even (Zpos m * 100) (2 ^ (- e)))
  end.


(** ** More of [str] *)

Definition lower_ascii (c : ascii) : ascii :=
  let n := nat_of_ascii c in
  if ((65 <=? n) && (n <=? 90))%nat then ascii_of_nat (n + 32) else c.

(** [s.lower()] on ASCII text. *)
Fixpoint lower (s : string) : string :=
  match s with
  | EmptyString => EmptyString
  | String c s' => String (lower_ascii c) (lower s')
  end.

(** [c.isspace()] for an ASCII character: tab to carriage return, the
    four separators 28 to 31 and the space. *)
Definition is_space (c : ascii) : bool :=
  let n := nat_of_ascii c in
  ((9 <=? n) && (n <=? 13) || (28 <=? n) && (n <=? 32))%nat.

(** The whitespace [float] skips around an ASCII literal: tab to
    carriage return and the space, without the separators 28 to 31. *)
Definition is_c_space (c : ascii) : bool :=
  let n := nat_of_ascii c in
  ((9 <=? n) && (n <=? 13) || (n =? 32))%nat.

Fixpoint rstrip_with (p : ascii -> bool) (s : string) : string :=
  match s with
  | EmptyString => EmptyString
  | String c s' =>
      match rstrip_with p s' with
      | EmptyString => if p c then EmptyString else String c EmptyString
      | kept => String c kept
      end
  end.

Definition strip_with (p : ascii -> bool) (s : string) : string :=
  rstrip_with p (drop_while p s).

(** [s.strip()] on ASCII text. *)
Definition strip (s : string) : string := strip_with is_space s.

(** ** [float(s)] for a [str] *)

(** The digits that follow a digit of a [digitpart]: digits, each
    optionally preceded by one underscore.  Returns the digits read and
    the text left. *)
Fixpoint digits_tail (s : string) : string * string :=
  match s with
  | EmptyString => (EmptyString, EmptyString)
  | String c s' =>
      if is_digit c then
        let '(ds, rest) := digits_tail s' in (String c ds, rest)
      else if Ascii.eqb c "_" then
        match s' with
        | String d s'' =>
            if is_digit d then
              let '(ds, rest) := digits_tail s'' in (String d ds, rest)
            else (EmptyString, s)
        | EmptyString => (EmptyString, s)
        end
      else (EmptyString, s)
  end.

(** The longest [digitpart] at the head of [s], without its
    underscores, and the text left; no digit is read when [s] does not
    start with one. *)
Definition digitpart (s : string) : string * string :=
  match s with
  | String c s' =>
      if is_digit c then
        let '(ds, rest) := digits_tail s' in (String c ds, rest)
      else (EmptyString, s)
  | EmptyString => (EmptyString, EmptyString)
  end.

(** An optional sign: whether it is a minus, and the text left. *)
Definition sign_of (s : string) : bool * string :=
  match s with
  | String c s' =>
      if Ascii.eqb c "-" then (true, s')
      else if Ascii.eqb c "+" then (false, s')
      else (false, s)
  | EmptyString => (false, s)
  end.

(** The double nearest to [m * 10^e] for [0 <= m]. *)
Definition float_of_scientific (m e : Z) : float :=
  if 0 <=? e then float_of_ratio (m * 10 ^ e) 1
  else float_of_ratio m (10 ^ (- e)).

(** [floatnumber]: digits with an optional point and an optional
    exponent, at least one digit before the exponent, nothing left
    over. *)
Definition floatnumber (s : string) : res float :=
  let '(whole, after_whole) := digitpart s in
  let '(fraction, after_number) :=
    match after_whole with
    | String c after_point =>
        if Ascii.eqb c "." then digitpart after_point
        else (EmptyString, after_whole)
    | EmptyString => (EmptyString, EmptyString)
    end in
  if (String.length whole + String.length fraction =? 0)%nat
  then Raise ValueError
  else
    let mantissa := digits_value fraction (digits_value whole 0) in
    let scale := Z.of_nat (String.length fraction) in
    match after_number with
    | EmptyString => Ok (float_of_scientific mantissa (- scale))
    | String c after_e =>
        if Ascii.eqb c "e" || Ascii.eqb c "E" then
          let '(negative, after_sign) := sign_of after_e in
          match digitpart after_sign with
          | (String d ds, EmptyString) =>
              let exponent := digits_value (String d ds) 0 in
              Ok (float_of_scientific
                    mantissa
                    ((if negative then - exponent else exponent) - scale))
          | _ => Raise ValueError
          end
        else Raise ValueError
    end.

(** [float(s)] for an ASCII [str]: surrounding whitespace is skipped,
    then an optional sign and [inf], [infinity], [nan] in any case, or
    a [floatnumber]. *)
Definition float_of_str (s : string) : res float :=
  let '(negative, body) := sign_of (strip_with is_c_space s) in
  let signed (x : float) : float := if negative then (- x)%float else x in
  let word := lower body in
  if String.eqb word "inf" || String.eqb word "infinity"
  then Ok (signed infinity)
  else if String.eqb word "nan" then Ok nan
  else rbind (floatnumber body) (fun x => Ok (signed x)).

(** ** Slices *)

(** [l[-n:]] for [0 < n]: the last [n] items, all of them when there
    are fewer. *)
Definition last_items {A} (n : nat) (l : list A) : list A :=
  skipn (List.length l - n) l.

(** ** Dicts with [str] keys, in insertion order *)

(** [d[key] = value] *)
Fixpoint dict_setitem {A} (d : list (string * A)) (key : string) (value : A)
  : list (string * A) :=
  match d with
  | [] => [(key, value)]
  | (k, v) :: d' =>
      if String.eqb k key then (k, value) :: d'
      else (k, v) :: dict_setitem d' key value
  end.

(** [d.get(key)] *)
Fixpoint dict_get {A} (d : list (string * A)) (key : string) : option A :=
  match d with
  | [] => None
  | (k, v) :: d' => if String.eqb k key then Some v else dict_get d' key
  end.

(** ** Floats that are no numbers *)

(** A NaN or an infinity. *)
Definition not_finite (x : float) : Prop :=
  Prim2SF x = S754_nan \/ exists s, Prim2SF x = S754_infinity s.

(** ** [datetime.fromtimestamp] *)

(** What [datetime.fromtimestamp(t, tz=timezone.utc)] does with an
    int [t] depends on the platform, on its [time_t] and its
    [gmtime]: the exception it raises for [t], if any. *)
Class Calendar : Type := {
  fromtimestamp_utc : Z -> option exn
}.

(** A platform whose calendar has the years 1 to 9999 and raises
    [ValueError] for every other moment, as CPython does on Linux
    for the years next to that range. *)
Definition four_digit_years : Calendar := {|
  fromtimestamp_utc t :=
    if (-62135596800 <=? t) && (t <=? 253402300799) then None
    else Some ValueError
|}.
End Py.

Import Py.

(* ================================================================== *)
(** * The effect monad of the scripts *)
(* ================================================================== *)

(** A script runs against an external world [W] (the datastore, the
  chain), may raise, and leaves a trace of events [E] (the calls it
  made to the world and the lines it printed). *)
Module Run.
Section Monad.
Context {W E : Type}.

Definition M (A : Type) : Type := W -> res A * W * list E.

Definition ret {A} (a : A) : M A := fun w => (Ok a, w, []).

Definition bind {A B} (m : M A) (f : A -> M B) : M B :=
  fun w =>
    match m w with
    | (Ok a, w1, t1) =>
        let '(r, w2, t2) := f a w1 in (r, w2, t1 ++ t2)
    | (Raise e, w1, t1) => (Raise e, w1, t1)
    end.

Definition raise {A} (e : exn) : M A := fun w => (Raise e, w, []).

(** [try: m  except Exception as e: h e] *)
Definition try_except {A} (m : M A) (h : exn -> M A) : M A :=
  fun w =>
    match m w with
    | (Ok a, w1, t1) => (Ok a, w1, t1)
    | (Raise e, w1, t1) =>
        let '(r, w2, t2) := h e w1 in (r, w2, t1 ++ t2)
    end.

(** A print, or the record of a call. *)
Definition emit (ev : E) : M unit := fun w => (Ok tt, w, [ev]).

(** A pure computation that may raise. *)
Definition lift {A} (r : res A) : M A := fun w => (r, w, []).

(** A call into the world. *)
Definition call {A} (f : W -> res A * W) : M A :=
  fun w => let '(r, w') := f w in (r, w', []).

End Monad.

(** A script run inside another one, its events seen through [f]. *)
Definition relabel {W E E' A : Type} (f : E -> E') (m : @M W E A)
  : @M W E' A :=
  fun w => let '(r, w', t) := m w in (r, w', List.map f t).

(** A call into the world whose answer is kept in the trace. *)
Definition ask {W E A : Type} (f : W -> res A * W) (ev : res A -> E)
  : @M W E A :=
  fun w => let '(r, w') := f w in (r, w', [ev r]).

(** Several prints at once. *)
Definition tell {W E : Type} (t : list E) : @M W E unit :=
  fun w => (Ok tt, w, t).

End Run.

Declare Scope run_scope.
Delimit Scope run_scope with run.
Notation "x <- m ;; k" := (Run.bind m (fun x => k))
(at level 100, m at next level, right associativity) : run_scope.
Notation "m ;;; k" := (Run.bind m (fun _ => k))
(at level 100, right associativity) : run_scope.

(* ================================================================== *)
(** * src/push_to_supabase.py *)
(* ================================================================== *)

Module PushToSupabase.

Local Open Scope run_scope.

(** ** Values read from JSON *)

(** What [json.load] and the datastore hand to the script: [None], a
    number, or a container (a list or a dict).  Numbers are carried at
    their float value. *)
Inductive pyval : Type :=
| VNone
| VNum (x : float)
| VObj.

(** [float(v)] *)
Definition py_float (v : pyval) : res float :=
  match v with
  | VNum x => Ok x
  | VNone | VObj => Raise TypeError
  end.

(** [a <= v] and [v <= b] with a float on one side: ordering a float
    against [None] or a container is a [TypeError]. *)
Definition float_le_val (a : float) (v : pyval) : res bool :=
  match v with
  | VNum x => Ok (PrimFloat.leb a x)
  | VNone | VObj => Raise TypeError
  end.

Definition val_le_float (v : pyval) (b : float) : res bool :=
  match v with
  | VNum x => Ok (PrimFloat.leb x b)
  | VNone | VObj => Raise TypeError
  end.

(** [a <= v <= b]: the second comparison is evaluated only when the
    first holds. *)
Definition chained_le (a : float) (v : pyval) (b : float) : res bool :=
  rbind (float_le_val a v)
        (fun first => if first then val_le_float v b else Ok false).

(** [v - a] *)
Definition val_sub_float (v : pyval) (a : float) : res float :=
  match v with
  | VNum x => Ok (x - a)%float
  | VNone | VObj => Raise TypeError
  end.

(** [f"{v:.2f}"] and [f"{v:.4f}"]: only a number takes a fixed-point
    format spec; the result stands for the text printed. *)
Definition format_fixed (v : pyval) : res float :=
  match v with
  | VNum x => Ok x
  | VNone | VObj => Raise TypeError
  end.

(** [round(d.get(key, 0), 4)], the field being [None] here when the
    key is absent from the dict. *)
Definition round_field (field : option pyval) : res float :=
  match field with
  | None => Ok 0%float
  | Some (VNum x) => Ok (round_ndigits x 4)
  | Some VNone | Some VObj => Raise TypeError
  end.

(** ** The index file and the rows *)

(** One entry of [hyperscaler_details]. *)
Record detail : Type := {
  provider : pyval;
  d_original_price : option pyval;
  d_effective_price : option pyval;
  d_discount_rate : option pyval;
  d_relative_weight : option pyval;
  d_absolute_weight : option pyval;
  d_weighted_contribution : option pyval
}.

(** The loaded [h200_weighted_index.json].  A scalar field holds what
    [index_data.get(key)] returns, [VNone] when the key is absent. *)
Record index_data : Type := {
  timestamp : pyval;
  final_index_price : pyval;
  hyperscaler_component : pyval;
  neocloud_component : pyval;
  hyperscaler_count : pyval;
  neocloud_count : pyval;
  weights : pyval;
  hyperscaler_details : list detail;
  neocloud_details : pyval;
  base_config : pyval
}.

(** The dict passed to the insert on [h200_index_prices]. *)
Record insert_data : Type := {
  i_timestamp : pyval;
  i_index_price : pyval;
  i_hyperscaler_component : pyval;
  i_neocloud_component : pyval;
  i_hyperscaler_count : pyval;
  i_neocloud_count : pyval;
  i_metadata : pyval * list detail * pyval * pyval
}.

(** A row of [h200_index_prices] as the store returns it. *)
Record index_row : Type := {
  id : Z;
  row : insert_data
}.

(** A row of [h200_provider_prices]. *)
Record provider_record : Type := {
  index_id : Z;
  p_timestamp : pyval;
  provider_name : pyval;
  provider_type : string;
  original_price : float;
  effective_price : float;
  discount_rate : float;
  relative_weight : float;
  absolute_weight : float;
  weighted_contribution : float
}.

(** A record of a [select]: a dict from column names to values. *)
Definition record : Type := list (string * pyval).

(** [record[key]] *)
Fixpoint getitem (r : record) (key : string) : res pyval :=
  match r with
  | [] => Raise KeyError
  | (k, v) :: r' => if String.eqb k key then Ok v else getitem r' key
  end.

(** ** The datastore client *)

(** The three requests the script sends; each returns [response.data]
    or raises, and may change the store. *)
Class Client (W : Type) : Type := {
  (** [table('h200_index_prices').select('index_price')
       .order('created_at', desc=True).limit(2).execute()] *)
  select_last_prices : W -> res (list record) * W;
  (** [table('h200_index_prices').insert(insert_data).execute()] *)
  insert_index : insert_data -> W -> res (list index_row) * W;
  (** [table('h200_provider_prices').insert(provider_records).execute()] *)
  insert_provider_prices :
    list provider_record -> W -> res (list provider_record) * W
}.

(** ** What the script prints and sends *)

Inductive message : Type :=
| MsgNotEnoughHistory (found : nat)
| MsgValidationCheck
    (last0 last1 avg_price lower_bound upper_bound tolerance new_price : float)
| MsgValid (deviation_pct : float)
| MsgInvalid (deviation_pct tolerance : float)
| MsgValidationError (e : exn)
| MsgNoCredentials
| MsgNoLibrary
| MsgValidationFailed
| MsgPushing
| MsgIndexPrice (x : float)
| MsgHyperscalerComponent (x : float)
| MsgNeocloudComponent (x : float)
| MsgTimestamp (v : pyval)
| MsgPushed (index_id : Z)
| MsgNoData
| MsgPushError (e : exn)
| MsgPushingProviders
| MsgProviderLine (name : pyval) (effective original : float)
| MsgProvidersPushed (n : nat)
| MsgProvidersNoData
| MsgNoProviderRecords
| MsgProviderError (e : exn).

Inductive level : Type := PLAIN | OK | FAIL | WARNING | ERROR.

(** The bracketed tag the printed line starts with. *)
Definition level_of (m : message) : level :=
  match m with
  | MsgNotEnoughHistory _ | MsgValidationError _
  | MsgProvidersNoData | MsgNoProviderRecords | MsgProviderError _ => WARNING
  | MsgNoCredentials | MsgNoLibrary | MsgValidationFailed
  | MsgNoData | MsgPushError _ => ERROR
  | MsgValid _ | MsgProvidersPushed _ => OK
  | MsgInvalid _ _ => FAIL
  | _ => PLAIN
  end.

Inductive event : Type :=
| SelectLastPrices
| InsertIndex (d : insert_data)
| InsertProviderPrices (rs : list provider_record)
| Print (m : message).

Definition is_insert_index (ev : event) : bool :=
  match ev with InsertIndex _ => true | _ => false end.

Definition is_insert_providers (ev : event) : bool :=
  match ev with InsertProviderPrices _ => true | _ => false end.

Definition is_insert (ev : event) : bool :=
  is_insert_index ev || is_insert_providers ev.

(** ** The process environment *)

Record environ : Type := {
  SUPABASE_URL : option string;
  SUPABASE_SERVICE_KEY : option string;
  (** whether [from supabase import create_client] succeeds *)
  supabase_installed : bool;
  (** what [create_client(url, key)] raises, if anything *)
  create_client_error : option exn
}.

(** [not os.getenv(name)]: unset or empty. *)
Definition unset (v : option string) : bool :=
  match v with
  | None => true
  | Some s => String.eqb s ""
  end.

Section Script.
Context {W : Type} {client : Client W}.

Local Abbreviation M := (@Run.M W event).

(** The body of the [try] of [validate_price]. *)
Definition validate_price_try (new_price : pyval) (tolerance : float)
  : M bool :=
  Run.emit SelectLastPrices ;;;
  data <- Run.call select_last_prices ;;
  if (List.length data <? 2)%nat then
    Run.emit (Print (MsgNotEnoughHistory (List.length data))) ;;;
    Run.ret true
  else
    last_prices <-
      Run.lift (map_res (fun record =>
                           rbind (getitem record "index_price") py_float)
                        data) ;;
    avg_price <-
      Run.lift (truediv (Py.sum last_prices)
                        (float_of_Z (Z.of_nat (List.length last_prices)))) ;;
    let lower_bound := (avg_price * (1 - tolerance))%float in
    let upper_bound := (avg_price * (1 + tolerance))%float in
    is_valid <- Run.lift (chained_le lower_bound new_price upper_bound) ;;
    shown <- Run.lift (format_fixed new_price) ;;
    Run.emit (Print (MsgValidationCheck
                       (nth 0 last_prices 0%float) (nth 1 last_prices 0%float)
                       avg_price lower_bound upper_bound tolerance shown)) ;;;
    deviation_pct <-
      Run.lift (rbind (val_sub_float new_price avg_price) (fun delta =>
                rbind (truediv delta avg_price) (fun ratio =>
                Ok (ratio * 100)%float))) ;;
    Run.emit (Print (if is_valid then MsgValid deviation_pct
                     else MsgInvalid deviation_pct tolerance)) ;;;
    Run.ret is_valid.

(** [validate_price(supabase, new_price, tolerance)] *)
Definition validate_price (new_price : pyval) (tolerance : float) : M bool :=
  Run.try_except
    (validate_price_try new_price tolerance)
    (fun e => Run.emit (Print (MsgValidationError e)) ;;; Run.ret true).

(** One turn of the [for detail in hyperscaler_details] loop. *)
Definition provider_record_of (index_id : Z) (timestamp : pyval) (d : detail)
  : res provider_record :=
  rbind (round_field (d_original_price d)) (fun original =>
  rbind (round_field (d_effective_price d)) (fun effective =>
  rbind (round_field (d_discount_rate d)) (fun discount =>
  rbind (round_field (d_relative_weight d)) (fun relative =>
  rbind (round_field (d_absolute_weight d)) (fun absolute =>
  rbind (round_field (d_weighted_contribution d)) (fun contribution =>
  Ok {| index_id := index_id;
        p_timestamp := timestamp;
        provider_name := provider d;
        provider_type := "hyperscaler";
        original_price := original;
        effective_price := effective;
        discount_rate := discount;
        relative_weight := relative;
        absolute_weight := absolute;
        weighted_contribution := contribution |})))))).

Fixpoint provider_records_loop (index_id : Z) (timestamp : pyval)
  (details : list detail) (provider_records : list provider_record)
  : M (list provider_record) :=
  match details with
  | [] => Run.ret provider_records
  | d :: rest =>
      r <- Run.lift (provider_record_of index_id timestamp d) ;;
      Run.emit (Print (MsgProviderLine (provider_name r)
                         (effective_price r) (original_price r))) ;;;
      provider_records_loop index_id timestamp rest (provider_records ++ [r])
  end.

(** [push_hyperscaler_prices(supabase, index_data, index_id)] *)
Definition push_hyperscaler_prices (data : index_data) (index_id : Z)
  : M bool :=
  Run.try_except
    (Run.emit (Print MsgPushingProviders) ;;;
     provider_records <-
       provider_records_loop index_id (timestamp data)
                             (hyperscaler_details data) [] ;;
     match provider_records with
     | _ :: _ =>
         Run.emit (InsertProviderPrices provider_records) ;;;
         returned <- Run.call (insert_provider_prices provider_records) ;;
         match returned with
         | _ :: _ =>
             Run.emit (Print (MsgProvidersPushed (List.length returned))) ;;;
             Run.ret true
         | [] => Run.emit (Print MsgProvidersNoData) ;;; Run.ret false
         end
     | [] => Run.emit (Print MsgNoProviderRecords) ;;; Run.ret false
     end)
    (fun e => Run.emit (Print (MsgProviderError e)) ;;; Run.ret false).

Definition insert_data_of (data : index_data) (new_price : pyval)
  : insert_data :=
  {| i_timestamp := timestamp data;
     i_index_price := new_price;
     i_hyperscaler_component := hyperscaler_component data;
     i_neocloud_component := neocloud_component data;
     i_hyperscaler_count := hyperscaler_count data;
     i_neocloud_count := neocloud_count data;
     i_metadata := (weights data, hyperscaler_details data,
                    neocloud_details data, base_config data) |}.

(** The part of [push_to_supabase] that follows a passed validation. *)
Definition publish (data : index_data) (new_price : pyval) : M bool :=
  let insert_data := insert_data_of data new_price in
  Run.emit (Print MsgPushing) ;;;
  shown <- Run.lift (format_fixed (i_index_price insert_data)) ;;
  Run.emit (Print (MsgIndexPrice shown)) ;;;
  shown <- Run.lift (format_fixed (i_hyperscaler_component insert_data)) ;;
  Run.emit (Print (MsgHyperscalerComponent shown)) ;;;
  shown <- Run.lift (format_fixed (i_neocloud_component insert_data)) ;;
  Run.emit (Print (MsgNeocloudComponent shown)) ;;;
  Run.emit (Print (MsgTimestamp (i_timestamp insert_data))) ;;;
  Run.emit (InsertIndex insert_data) ;;;
  returned <- Run.call (insert_index insert_data) ;;
  match returned with
  | first :: _ =>
      let index_id := id first in
      Run.emit (Print (MsgPushed index_id)) ;;;
      push_hyperscaler_prices data index_id ;;;
      Run.ret true
  | [] => Run.emit (Print MsgNoData) ;;; Run.ret false
  end.

(** [push_to_supabase(index_data)] *)
Definition push_to_supabase (env : environ) (data : index_data) : M bool :=
  if unset (SUPABASE_URL env) || unset (SUPABASE_SERVICE_KEY env) then
    Run.emit (Print MsgNoCredentials) ;;; Run.ret false
  else if negb (supabase_installed env) then
    Run.emit (Print MsgNoLibrary) ;;; Run.ret false
  else
    Run.try_except
      (match create_client_error env with
       | Some e => Run.raise e
       | None => Run.ret tt
       end ;;;
       let new_price := final_index_price data in
       valid <- validate_price new_price 0.25 ;;
       if negb valid then
         Run.emit (Print MsgValidationFailed) ;;; Run.ret false
       else publish data new_price)
      (fun e => Run.emit (Print (MsgPushError e)) ;;; Run.ret false).

(** ** Vocabulary for the statements *)

(** The run reaches [validate_price]: credentials set, library
    installed, client created. *)
Definition ready (env : environ) : bool :=
  negb (unset (SUPABASE_URL env) || unset (SUPABASE_SERVICE_KEY env))
  && supabase_installed env
  && match create_client_error env with None => true | Some _ => false end.

(** A trace without a write request. *)
Definition quiet (t : list event) : Prop :=
  Forall (fun ev => is_insert ev = false) t.

(** A trace of printed lines only. *)
Definition printed (t : list event) : Prop :=
  Forall (fun ev => exists m, ev = Print m) t.

(** What [publish] prints and sends up to the snapshot insert, when its
    three formatted fields are numbers. *)
Definition publish_header (data : index_data) (x hc nc : float) : list event :=
  [Print MsgPushing; Print (MsgIndexPrice x);
   Print (MsgHyperscalerComponent hc); Print (MsgNeocloudComponent nc);
   Print (MsgTimestamp (timestamp data));
   InsertIndex (insert_data_of data (VNum x))].

(** The five ways [push_hyperscaler_prices index_id] can go from the
    store [w1]: its return value, the store it leaves and its trace. *)
Inductive providers_outcome (index_id : Z) (w1 : W)
  : bool -> W -> list event -> Prop :=
| RecordsRaise e tl :
    printed tl ->
    providers_outcome index_id w1 false w1
      (Print MsgPushingProviders :: tl ++ [Print (MsgProviderError e)])
| NoRecords tl :
    printed tl ->
    providers_outcome index_id w1 false w1
      (Print MsgPushingProviders :: tl ++ [Print MsgNoProviderRecords])
| InsertRaises rs e w2 tl :
    printed tl ->
    Forall (fun p => PushToSupabase.index_id p = index_id) rs ->
    insert_provider_prices rs w1 = (Raise e, w2) ->
    providers_outcome index_id w1 false w2
      (Print MsgPushingProviders :: tl
         ++ [InsertProviderPrices rs; Print (MsgProviderError e)])
| InsertNoData rs w2 tl :
    printed tl ->
    Forall (fun p => PushToSupabase.index_id p = index_id) rs ->
    insert_provider_prices rs w1 = (Ok [], w2) ->
    providers_outcome index_id w1 false w2
      (Print MsgPushingProviders :: tl
         ++ [InsertProviderPrices rs; Print MsgProvidersNoData])
| Inserted rs returned w2 tl :
    printed tl ->
    Forall (fun p => PushToSupabase.index_id p = index_id) rs ->
    returned <> [] ->
    insert_provider_prices rs w1 = (Ok returned, w2) ->
    providers_outcome index_id w1 true w2
      (Print MsgPushingProviders :: tl
         ++ [InsertProviderPrices rs;
             Print (MsgProvidersPushed (List.length returned))]).

(** An error while retrieving or processing the price history: the
    query raises, or one of at least two records has no usable
    [index_price]. *)
Inductive history_error (w : W) : exn -> W -> Prop :=
| StoreUnreachable e w1 :
    select_last_prices w = (Raise e, w1) -> history_error w e w1
| MalformedRecords data e w1 :
    select_last_prices w = (Ok data, w1) ->
    (2 <= List.length data)%nat ->
    map_res (fun record => rbind (getitem record "index_price") py_float) data
      = Raise e ->
    history_error w e w1.

End Script.

(** ** An in-memory datastore *)

(** The two tables, newest row first, and the requests that are to fail
    (an outage, a rejected write). *)
Record store : Type := {
  h200_index_prices : list index_row;
  h200_provider_prices : list provider_record;
  select_fails : option exn;
  insert_index_fails : option exn;
  insert_providers_fails : option exn
}.

Definition next_id (s : store) : Z :=
  1 + fold_right (fun r acc => Z.max (id r) acc) 0 (h200_index_prices s).

Definition store_select (s : store) : res (list record) * store :=
  match select_fails s with
  | Some e => (Raise e, s)
  | None =>
      (Ok (map (fun r => [("index_price"%string, i_index_price (row r))])
               (firstn 2 (h200_index_prices s))), s)
  end.

Definition store_insert_index (d : insert_data) (s : store)
  : res (list index_row) * store :=
  match insert_index_fails s with
  | Some e => (Raise e, s)
  | None =>
      let r := {| id := next_id s; row := d |} in
      (Ok [r],
       {| h200_index_prices := r :: h200_index_prices s;
          h200_provider_prices := h200_provider_prices s;
          select_fails := select_fails s;
          insert_index_fails := insert_index_fails s;
          insert_providers_fails := insert_providers_fails s |})
  end.

Definition store_insert_providers (rs : list provider_record) (s : store)
  : res (list provider_record) * store :=
  match insert_providers_fails s with
  | Some e => (Raise e, s)
  | None =>
      (Ok rs,
       {| h200_index_prices := h200_index_prices s;
          h200_provider_prices := rev rs ++ h200_provider_prices s;
          select_fails := select_fails s;
          insert_index_fails := insert_index_fails s;
          insert_providers_fails := insert_providers_fails s |})
  end.

#[export] Instance store_client : Client store := {
  select_last_prices := store_select;
  insert_index := store_insert_index;
  insert_provider_prices := store_insert_providers
}.

(** A snapshot row that carries nothing but its price. *)
Definition bare_row (n : Z) (price : pyval) : index_row :=
  {| id := n;
     row := {| i_timestamp := VNone; i_index_price := price;
               i_hyperscaler_component := VNone;
               i_neocloud_component := VNone;
               i_hyperscaler_count := VNone; i_neocloud_count := VNone;
               i_metadata := (VNone, [], VNone, VNone) |} |}.

Fixpoint rows_of (prices : list pyval) : list index_row :=
  match prices with
  | [] => []
  | p :: rest => bare_row (Z.of_nat (S (List.length rest))) p :: rows_of rest
  end.

(** A healthy store whose published prices are [prices], newest
    first. *)
Definition store_of (prices : list pyval) : store :=
  {| h200_index_prices := rows_of prices;
     h200_provider_prices := [];
     select_fails := None;
     insert_index_fails := None;
     insert_providers_fails := None |}.

(** Every observation row refers to a snapshot row of the store. *)
Definition referential_integrity (s : store) : Prop :=
  forall r, In r (h200_provider_prices s) ->
  exists i, In i (h200_index_prices s) /\ id i = index_id r.

(** ** The acceptance rule in the words of the specification *)

(** The mean of the two most recent prices [a] and [b], and whether
    [new_price] lies in [[avg*(1-tolerance), avg*(1+tolerance)]]. *)
Definition spec_within_bounds (a b tolerance new_price : float) : bool :=
  let avg := (Py.sum [a; b] / 2)%float in
  PrimFloat.leb (avg * (1 - tolerance)) new_price
  && PrimFloat.leb new_price (avg * (1 + tolerance)).

(** ** Sample inputs *)

Definition sample_env : environ :=
  {| SUPABASE_URL := Some "https://h200.supabase.co"%string;
     SUPABASE_SERVICE_KEY := Some "service-role-key"%string;
     supabase_installed := true;
     create_client_error := None |}.

Definition sample_detail : detail :=
  {| provider := VObj;
     d_original_price := Some (VNum 2.92);
     d_effective_price := Some (VNum 2.5112);
     d_discount_rate := Some (VNum 0.14);
     d_relative_weight := None;
     d_absolute_weight := None;
     d_weighted_contribution := None |}.

(** An index file whose [final_index_price] is [price]. *)
Definition sample_index (price : pyval) : index_data :=
  {| timestamp := VObj;
     final_index_price := price;
     hyperscaler_component := VNum 2.5;
     neocloud_component := VNum 1.6;
     hyperscaler_count := VNum 5;
     neocloud_count := VNum 10;
     weights := VObj;
     hyperscaler_details := [sample_detail];
     neocloud_details := VObj;
     base_config := VObj |}.

(** The history [4.00, 4.20] of the specification's example. *)
Definition sample_store : store := store_of [VNum 4.00; VNum 4.20].

(** The same store during an outage of the history query. *)
Definition outage : store :=
  {| h200_index_prices := h200_index_prices sample_store;
     h200_provider_prices := [];
     select_fails := Some ConnectionError;
     insert_index_fails := None;
     insert_providers_fails := None |}.

(** The same store, rejecting the snapshot insert. *)
Definition index_insert_down : store :=
  {| h200_index_prices := h200_index_prices sample_store;
     h200_provider_prices := [];
     select_fails := None;
     insert_index_fails := Some (LibraryError "APIError");
     insert_providers_fails := None |}.

(** The same store, rejecting the observation insert. *)
Definition provider_insert_down : store :=
  {| h200_index_prices := h200_index_prices sample_store;
     h200_provider_prices := [];
     select_fails := None;
     insert_index_fails := None;
     insert_providers_fails := Some (LibraryError "APIError") |}.


(** ** [load_index_data], [verify_push] and [main] *)

(** What [json.load] returns for the index file, as [main] uses it:
    a value that is false ([null], [false], [0], an empty string, list
    or object), another value that is no object, or an object, given by
    what [.get] returns for each key and by whether it has the key
    ['final_index_price']. *)
Inductive document : Type :=
| Falsy
| NotAnObject
| Object (has_final_index_price : bool) (data : index_data).

(** What opening and reading [h200_weighted_index.json] comes to. *)
Inductive index_file : Type :=
| FileNotFound
| NotJson
| ReadRaises (e : exn)
| Holds (d : document).

(** [table('h200_index_prices').select('*')
     .order('created_at', desc=True).limit(1).execute()] *)
Class Reader (W : Type) : Type := {
  select_latest : W -> res (list record) * W
}.

Inductive main_message : Type :=
| MsgBanner
| MsgLoading
| MsgFileNotFound
| MsgJsonError
| MsgLoadedIndex (x : float)
| MsgCounts
| MsgLatestEntry
| MsgLatestId (v : pyval)
| MsgLatestIndexPrice (v : pyval)
| MsgLatestTimestamp (v : pyval)
| MsgLatestCreatedAt (v : pyval)
| MsgNoEntries
| MsgCouldNotVerify (e : exn)
| MsgDone.

Inductive main_event : Type :=
(** an event of [push_to_supabase] *)
| Pushing (ev : event)
| SelectLatest
| Say (m : main_message).

Definition is_request (ev : main_event) : bool :=
  match ev with
  | Pushing (Print _) | Say _ => false
  | _ => true
  end.

Section Entry.
Context {W : Type} {client : Client W} {reader : Reader W}.

Local Abbreviation M := (@Run.M W main_event).

(** [load_index_data(filepath)] *)
Definition load_index_data (file : index_file) : M (option document) :=
  match file with
  | FileNotFound => Run.emit (Say MsgFileNotFound) ;;; Run.ret None
  | NotJson => Run.emit (Say MsgJsonError) ;;; Run.ret None
  | ReadRaises e => Run.raise e
  | Holds d => Run.ret (Some d)
  end.

(** [verify_push(supabase_url, supabase_key)], the two arguments being
    those of the environment. *)
Definition verify_push (env : environ) : M bool :=
  Run.try_except
    ((if supabase_installed env then Run.ret tt
      else Run.raise (LibraryError "ImportError")) ;;;
     match create_client_error env with
     | Some e => Run.raise e
     | None => Run.ret tt
     end ;;;
     Run.emit SelectLatest ;;;
     data <- Run.call select_latest ;;
     match data with
     | latest :: _ =>
         Run.emit (Say MsgLatestEntry) ;;;
         v <- Run.lift (getitem latest "id") ;;
         Run.emit (Say (MsgLatestId v)) ;;;
         v <- Run.lift (getitem latest "index_price") ;;
         Run.emit (Say (MsgLatestIndexPrice v)) ;;;
         v <- Run.lift (getitem latest "timestamp") ;;
         Run.emit (Say (MsgLatestTimestamp v)) ;;;
         v <- Run.lift (getitem latest "created_at") ;;
         Run.emit (Say (MsgLatestCreatedAt v)) ;;;
         Run.ret true
     | [] => Run.emit (Say MsgNoEntries) ;;; Run.ret false
     end)
    (fun e => Run.emit (Say (MsgCouldNotVerify e)) ;;; Run.ret false).

(** [main()]: the value is the status of a [sys.exit] or [0] when
    [main] returns; an exception that leaves [main] ends the process
    with a traceback. *)
Definition main (env : environ) (file : index_file) : M Z :=
  Run.emit (Say MsgBanner) ;;;
  Run.emit (Say MsgLoading) ;;;
  index_data <- load_index_data file ;;
  match index_data with
  | None | Some Falsy => Run.ret 1
  | Some NotAnObject => Run.raise TypeError
  | Some (Object has_final_index_price data) =>
      (if has_final_index_price then Run.ret tt else Run.raise KeyError) ;;;
      shown <- Run.lift (format_fixed (final_index_price data)) ;;
      Run.emit (Say (MsgLoadedIndex shown)) ;;;
      Run.emit (Say MsgCounts) ;;;
      success <- Run.relabel Pushing (push_to_supabase env data) ;;
      if negb success then Run.ret 1
      else
        (if negb (unset (SUPABASE_URL env))
            && negb (unset (SUPABASE_SERVICE_KEY env))
         then verify_push env ;;; Run.ret tt
         else Run.ret tt) ;;;
        Run.emit (Say MsgDone) ;;;
        Run.ret 0
  end.

End Entry.

(** The line printed for a record of the observation table. *)
Definition provider_line (r : provider_record) : event :=
  Print (MsgProviderLine (provider_name r) (effective_price r)
                         (original_price r)).

(** A trace in which nothing of [push_to_supabase] occurs. *)
Definition reads_only (t : list main_event) : Prop :=
  Forall (fun ev => match ev with Pushing _ => False | _ => True end) t.

(** The index file holds an object whose [final_index_price] is a
    number. *)
Definition priced (file : index_file) : bool :=
  match file with
  | Holds (Object true data) =>
      match final_index_price data with
      | VNum _ => true
      | _ => false
      end
  | _ => false
  end.

(** The columns [verify_push] prints. *)
Definition printable (latest : record) : bool :=
  match getitem latest "id", getitem latest "index_price",
        getitem latest "timestamp", getitem latest "created_at" with
  | Ok _, Ok _, Ok _, Ok _ => true
  | _, _, _, _ => false
  end.

(** The in-memory store answers the query of [verify_push] with its
    newest snapshot row; text columns are carried as [VObj]. *)
#[export] Instance store_reader : Reader store := {
  select_latest s :=
    match select_fails s with
    | Some e => (Raise e, s)
    | None =>
        (Ok (map (fun r => [("id"%string, VNum (float_of_Z (id r)));
                            ("timestamp"%string, i_timestamp (row r));
                            ("index_price"%string, i_index_price (row r));
                            ("created_at"%string, VObj)])
                 (firstn 1 (h200_index_prices s))), s)
    end
}.

(** An index file with the numbers of [sample_index]. *)
Definition sample_file (price : pyval) : index_file :=
  Holds (Object true (sample_index price)).

End PushToSupabase.

(* ================================================================== *)
(** * The chain, as web3 and eth_account present it *)
(* ================================================================== *)

Module Web3.

(** A bound contract function of the oracle:
    [contract.functions.updatePrice(assetId, newPrice)] or
    [contract.functions.batchUpdatePrices(assetIds, newPrices)]. *)
Inductive contract_call : Type :=
| updatePrice (assetId : string) (newPrice : Z)
| batchUpdatePrices (assetIds : list string) (newPrices : list Z).

(** The dict given to [build_transaction]. *)
Record tx_params : Type := {
  from_ : string;
  nonce : Z;
  gas : Z;
  maxFeePerGas : Z;
  maxPriorityFeePerGas : Z;
  chainId : Z
}.

Record transaction : Type := {
  tx_call : contract_call;
  tx_fields : tx_params
}.

Record receipt : Type := {
  status : Z;
  gasUsed : Z
}.

(** The node and the local account: each request returns or raises,
    and may change the world. *)
Class Node (W : Type) : Type := {
  eth_gas_price : W -> res Z * W;
  eth_get_transaction_count : string -> W -> res Z * W;
  eth_chain_id : W -> res Z * W;
  eth_block_number : W -> res Z * W;
  build_transaction : contract_call -> tx_params -> W -> res transaction * W;
  sign_transaction : transaction -> W -> res transaction * W;
  eth_send_raw_transaction : transaction -> W -> res string * W;
  (** [wait_for_transaction_receipt(tx_hash, timeout)], the timeout in
      seconds *)
  eth_wait_for_transaction_receipt : string -> Z -> W -> res receipt * W;
  (** [contract.functions.getPrice(assetId).call()] *)
  call_getPrice : string -> W -> res Z * W
}.

Inductive request : Type :=
| GasPrice
| GetTransactionCount (address : string)
| ChainId
| BlockNumber
| BuildTransaction (c : contract_call) (p : tx_params)
| SignTransaction (tx : transaction)
| SendRawTransaction (tx : transaction)
| WaitForTransactionReceipt (tx_hash : string) (timeout : Z)
| GetPrice (assetId : string).

(** ** A simulated chain *)

(** One account, one oracle contract, and the fate of the next
    transaction: after how many seconds it is mined ([None]: never) and
    with which status. *)
Record chain : Type := {
  base_fee : Z;
  account_nonce : Z;
  network : Z;
  head : Z;
  clock : Z;
  mined_after : option Z;
  mined_status : Z;
  oracle : list (string * Z);
  mempool : list transaction
}.

Definition with_clock (c : chain) (now : Z) : chain :=
  {| base_fee := base_fee c; account_nonce := account_nonce c;
     network := network c; head := head c; clock := now;
     mined_after := mined_after c; mined_status := mined_status c;
     oracle := oracle c; mempool := mempool c |}.

Definition with_oracle (c : chain) (o : list (string * Z)) : chain :=
  {| base_fee := base_fee c; account_nonce := account_nonce c;
     network := network c; head := head c + 1; clock := clock c;
     mined_after := mined_after c; mined_status := mined_status c;
     oracle := o; mempool := [] |}.

Definition with_mempool (c : chain) (txs : list transaction) : chain :=
  {| base_fee := base_fee c; account_nonce := account_nonce c + 1;
     network := network c; head := head c; clock := clock c;
     mined_after := mined_after c; mined_status := mined_status c;
     oracle := oracle c; mempool := txs |}.

Fixpoint store_price (o : list (string * Z)) (k : string) (v : Z)
  : list (string * Z) :=
  match o with
  | [] => [(k, v)]
  | (k', v') :: o' =>
      if String.eqb k' k then (k, v) :: o' else (k', v') :: store_price o' k v
  end.

Fixpoint read_price (o : list (string * Z)) (k : string) : Z :=
  match o with
  | [] => 0
  | (k', v) :: o' => if String.eqb k' k then v else read_price o' k
  end.

Fixpoint store_prices (o : list (string * Z)) (ks : list string) (vs : list Z)
  : list (string * Z) :=
  match ks, vs with
  | k :: ks', v :: vs' => store_prices (store_price o k v) ks' vs'
  | _, _ => o
  end.

(** The effect of a successful call on the oracle's storage. *)
Definition apply_call (o : list (string * Z)) (c : contract_call)
  : list (string * Z) :=
  match c with
  | updatePrice k v => store_price o k v
  | batchUpdatePrices ks vs => store_prices o ks vs
  end.

Definition tx_hash_of (c : chain) : string :=
  if (account_nonce c =? 0) then "0xa0" else "0xa1".

(** Waiting blocks until the transaction is mined or the timeout has
    elapsed, whichever comes first. *)
Definition chain_wait (tx_hash : string) (timeout : Z) (c : chain)
  : res receipt * chain :=
  match mined_after c with
  | Some d =>
      if d <=? timeout then
        let c1 := with_clock c (clock c + d) in
        let o := if mined_status c =? 1
                 then fold_left apply_call (map tx_call (mempool c)) (oracle c)
                 else oracle c in
        (Ok {| status := mined_status c; gasUsed := 48211 |}, with_oracle c1 o)
      else (Raise TimeExhausted, with_clock c (clock c + timeout))
  | None => (Raise TimeExhausted, with_clock c (clock c + timeout))
  end.

#[export] Instance chain_node : Node chain := {
  eth_gas_price c := (Ok (base_fee c), c);
  eth_get_transaction_count _ c := (Ok (account_nonce c), c);
  eth_chain_id c := (Ok (network c), c);
  eth_block_number c := (Ok (head c), c);
  build_transaction call p c := (Ok {| tx_call := call; tx_fields := p |}, c);
  sign_transaction tx c := (Ok tx, c);
  eth_send_raw_transaction tx c :=
    (Ok (tx_hash_of c), with_mempool c (mempool c ++ [tx]));
  eth_wait_for_transaction_receipt := chain_wait;
  call_getPrice k c := (Ok (read_price (oracle c) k), c)
}.

(** How a run that ends in a wait with timeout [T] relates to the
    chain [c] it started from: a result satisfying [confirmed] after
    the mining delay when that is within [T], [TimeExhausted] after
    [T] seconds otherwise. *)
Definition timing {A : Type} (c : chain) (T : Z) (run : res A * chain)
  (confirmed : A -> Prop) : Prop :=
  match mined_after c with
  | Some d =>
      if d <=? T then
        (exists a, fst run = Ok a /\ confirmed a)
        /\ clock (snd run) = clock c + d
      else fst run = Raise TimeExhausted /\ clock (snd run) = clock c + T
  | None => fst run = Raise TimeExhausted /\ clock (snd run) = clock c + T
  end.

(** A chain where the next transaction is mined after [after] seconds
    with status [st], and the oracle holds 3.53 for the H200 asset. *)
Definition sample_chain (after : option Z) (st : Z) : chain :=
  {| base_fee := 3;
     account_nonce := 7;
     network := 11155111;
     head := 100;
     clock := 0;
     mined_after := after;
     mined_status := st;
     oracle :=
       [("0x4d8595569ab5d2563e4c149c5de961d0e0732cd0560020b3474d281189c2571e"%string,
         3530000000000000000)];
     mempool := [] |}.


(** ** Read-only requests *)

(** What the start-up of the updaters and the price display ask the
    node and the oracle contract. *)
Class Views (W : Type) : Type := {
  (** [w3.is_connected()] *)
  is_connected : W -> bool * W;
  (** [w3.eth.get_balance(address)] *)
  eth_get_balance : string -> W -> res Z * W;
  (** [contract.functions.isAssetRegistered(assetId).call()] *)
  call_isAssetRegistered : string -> W -> res bool * W;
  (** [contract.functions.getPriceData(assetId).call()]: the price and
      the time of its last update *)
  call_getPriceData : string -> W -> res (Z * Z) * W
}.

(** A read-only request with the answer it got. *)
Inductive view : Type :=
| IsConnected (answer : bool)
| GetBalance (address : string) (answer : res Z)
| IsAssetRegistered (assetId : string) (answer : res bool)
| GetPriceData (assetId : string) (answer : res (Z * Z)).

Fixpoint registered (o : list (string * Z)) (k : string) : bool :=
  match o with
  | [] => false
  | (k', _) :: o' => String.eqb k' k || registered o' k
  end.

(** On the simulated chain the registered assets are those the oracle
    holds a price for, and a price is as old as the clock says. *)
#[export] Instance chain_views : Views chain := {
  is_connected c := (true, c);
  eth_get_balance _ c := (Ok (10 ^ 18), c);
  call_isAssetRegistered k c := (Ok (registered (oracle c) k), c);
  call_getPriceData k c := (Ok (read_price (oracle c) k, clock c), c)
}.

(** The simulated chain behind a node that stops answering
    [eth_blockNumber] once a transaction has been submitted. *)
Record stalling : Type := {
  behind : chain;
  submitted : bool
}.

Definition through {A : Type} (f : chain -> res A * chain) (s : stalling)
  : res A * stalling :=
  let '(r, c) := f (behind s) in
  (r, {| behind := c; submitted := submitted s |}).

#[export] Instance stalling_node : Node stalling := {
  eth_gas_price := through eth_gas_price;
  eth_get_transaction_count a := through (eth_get_transaction_count a);
  eth_chain_id := through eth_chain_id;
  eth_block_number s :=
    if submitted s then (Raise ConnectionError, s)
    else through eth_block_number s;
  build_transaction call p := through (build_transaction call p);
  sign_transaction tx := through (sign_transaction tx);
  eth_send_raw_transaction tx s :=
    let '(r, c) := eth_send_raw_transaction tx (behind s) in
    (r, {| behind := c; submitted := true |});
  eth_wait_for_transaction_receipt h timeout :=
    through (eth_wait_for_transaction_receipt h timeout);
  call_getPrice k := through (call_getPrice k)
}.

#[export] Instance stalling_views : Views stalling := {
  is_connected s :=
    let '(b, c) := is_connected (behind s) in
    (b, {| behind := c; submitted := submitted s |});
  eth_get_balance a := through (eth_get_balance a);
  call_isAssetRegistered k := through (call_isAssetRegistered k);
  call_getPriceData k := through (call_getPriceData k)
}.

(** ** The parameter dicts of the publishers *)

(** A parameter dict sent by [sender] with the gas limit [gas_limit]
    and the dynamic fee: a priority fee of one gwei and a fee cap of
    at least twice that. *)
Definition publisher_fields (sender : string) (gas_limit : Z) (p : tx_params)
  : Prop :=
  from_ p = sender
  /\ gas p = gas_limit
  /\ maxPriorityFeePerGas p = 10 ^ 9
  /\ 2 * maxPriorityFeePerGas p <= maxFeePerGas p.

End Web3.

(* ================================================================== *)
(** * The update log of the two chain publishers *)
(* ================================================================== *)

(** [log_update] of [src/push_to_contract.py] and of
    [src/Push_h200_provider_specific_markets.py] keep their JSON log
    file the same way; [entry] is the type of what the file lists. *)
Module UpdateLog.
Section Log.
Context {entry : Type}.

(** What [os.path.exists], [open] and [json.load] come to. *)
Inductive log_file : Type :=
| NoLogFile
| Unreadable (e : exn)
| NotAList
| Logs (logs : list entry).

(** [logs] once the file has been looked at. *)
Definition read_logs (file : log_file) : list entry :=
  match file with
  | Logs logs => logs
  | NoLogFile | Unreadable _ | NotAList => []
  end.

(** [logs] as passed to [json.dump]: the new entry appended, the last
    100 kept. *)
Definition logs_to_write (file : log_file) (log_entry : entry) : list entry :=
  last_items 100 (read_logs file ++ [log_entry]).

End Log.
Arguments log_file : clear implicits.
End UpdateLog.

(* ================================================================== *)
(** * src/push_to_contract.py *)
(* ================================================================== *)

Module PushToContract.

Import Web3.
Local Open Scope run_scope.

Definition H200_ASSET_ID : string :=
  "0x4d8595569ab5d2563e4c149c5de961d0e0732cd0560020b3474d281189c2571e".

(** [w3.to_wei(1, "gwei")] *)
Definition gwei : Z := 10 ^ 9.

(** The receipt timeout passed to web3, in seconds. *)
Definition RECEIPT_TIMEOUT : Z := 180.

(** [_build_dynamic_fee], given the value read from
    [self.w3.eth.gas_price]; returns [(max_fee, max_priority)]. *)
Definition _build_dynamic_fee (base_fee : Z) : Z * Z :=
  let max_priority := 1 * gwei in
  let max_fee := Z.max (base_fee * 2) (max_priority * 2) in
  (max_fee, max_priority).

(** The fields of [H200OraclePriceUpdater] the methods read. *)
Record updater : Type := {
  address : string;
  decimals : N
}.

Inductive message : Type :=
| MsgUpdating
| MsgChange (current_price price_usd delta change_pct : float)
| MsgNewPrice (price_usd : float)
| MsgSending
| MsgConfirmed (tx_hash : string) (gas_used : Z)
| MsgVerified (latest_price : float)
| MsgMismatch (expected got : float)
| MsgLogged
| MsgSuccess (tx_hash : string)
| MsgUpdateFailed (e : exn).

Inductive event : Type :=
| Bound (c : contract_call)
| Rpc (r : request)
| Print (m : message).

Section Script.
Context {W : Type} {node : Node W}.
Variable self : updater.

Local Abbreviation M := (@Run.M W event).

(** [_send_transaction(func, gas_limit)] up to and including
    [send_raw_transaction]: fees, nonce, build, sign, submit. *)
Definition _submit (func : contract_call) (gas_limit : Z) : M string :=
  Run.emit (Rpc GasPrice) ;;;
  base_fee <- Run.call eth_gas_price ;;
  let '(max_fee, max_priority) := _build_dynamic_fee base_fee in
  Run.emit (Rpc (GetTransactionCount (address self))) ;;;
  count <- Run.call (eth_get_transaction_count (address self)) ;;
  let fields := {| from_ := address self;
                   nonce := count;
                   gas := gas_limit;
                   maxFeePerGas := max_fee;
                   maxPriorityFeePerGas := max_priority;
                   chainId := 11155111 |} in
  Run.emit (Rpc (BuildTransaction func fields)) ;;;
  tx <- Run.call (build_transaction func fields) ;;
  Run.emit (Rpc (SignTransaction tx)) ;;;
  signed <- Run.call (sign_transaction tx) ;;
  Run.emit (Rpc (SendRawTransaction signed)) ;;;
  Run.call (eth_send_raw_transaction signed).

(** [_send_transaction(func, gas_limit)]: submit, then wait for the
    receipt. *)
Definition _send_transaction (func : contract_call) (gas_limit : Z)
  : M (string * receipt) :=
  tx_hash <- _submit func gas_limit ;;
  Run.emit (Rpc (WaitForTransactionReceipt tx_hash RECEIPT_TIMEOUT)) ;;;
  receipt <-
    Run.call (eth_wait_for_transaction_receipt tx_hash RECEIPT_TIMEOUT) ;;
  Run.ret (tx_hash, receipt).

(** [get_current_price()] *)
Definition get_current_price : M float :=
  Run.try_except
    (Run.emit (Rpc (GetPrice H200_ASSET_ID)) ;;;
     price_raw <- Run.call (call_getPrice H200_ASSET_ID) ;;
     Run.lift (int_truediv price_raw (10 ^ Z.of_N (decimals self))))
    (fun _ => Run.ret 0%float).

(** [update_price(price_usd)] up to the [Sending transaction...]
    line: the scaled price, the current price and the lines printed
    about them. *)
Definition prepare_update (price_usd : float) : M Z :=
  scale <- Run.lift (float_of_int (10 ^ Z.of_N (decimals self))) ;;
  price_scaled <- Run.lift (int_of_float (price_usd * scale)) ;;
  current_price <- get_current_price ;;
  Run.emit (Print MsgUpdating) ;;;
  (if PrimFloat.ltb 0 current_price then
     let delta := (price_usd - current_price)%float in
     ratio <- Run.lift (truediv delta current_price) ;;
     Run.emit (Print (MsgChange current_price price_usd delta
                                (ratio * 100)%float))
   else Run.emit (Print (MsgNewPrice price_usd))) ;;;
  Run.emit (Print MsgSending) ;;;
  Run.ret price_scaled.

(** The read-back after the receipt: a mismatch is only printed. *)
Definition verify_update (price_usd : float) : M unit :=
  latest_price <- get_current_price ;;
  if PrimFloat.ltb (PrimFloat.abs (latest_price - price_usd)) 0.000001
  then Run.emit (Print (MsgVerified latest_price))
  else Run.emit (Print (MsgMismatch price_usd latest_price)).

(** [update_price(price_usd)] *)
Definition update_price (price_usd : float) : M string :=
  price_scaled <- prepare_update price_usd ;;
  Run.emit (Bound (updatePrice H200_ASSET_ID price_scaled)) ;;;
  sent <- _send_transaction (updatePrice H200_ASSET_ID price_scaled) 100000 ;;
  let '(tx_hash, receipt) := sent in
  Run.emit (Print (MsgConfirmed tx_hash (gasUsed receipt))) ;;;
  verify_update price_usd ;;;
  Run.ret tx_hash.

(** [log_update(price_usd, tx_hash)]: reads the block number, appends
    to the log file; a failure to write the file is only printed. *)
Definition log_update (price_usd : float) (tx_hash : string) : M unit :=
  Run.emit (Rpc BlockNumber) ;;;
  Run.call eth_block_number ;;;
  Run.emit (Print MsgLogged).

(** The last [try] of [main], once the updater exists: the value is
    the status the process exits with. *)
Definition main_update (price : float) : M Z :=
  Run.try_except
    (tx_hash <- update_price price ;;
     log_update price tx_hash ;;;
     Run.emit (Print (MsgSuccess tx_hash)) ;;;
     Run.ret 0)
    (fun e => Run.emit (Print (MsgUpdateFailed e)) ;;; Run.ret 1).

End Script.

Definition sample_updater : updater :=
  {| address := "0x5A1f"; decimals := 18 |}.


(** ** The constructor and [main] *)

(** The transactions a trace submits, in order. *)
Fixpoint sent_transactions (t : list event) : list transaction :=
  match t with
  | [] => []
  | Rpc (SendRawTransaction tx) :: t' => tx :: sent_transactions t'
  | _ :: t' => sent_transactions t'
  end.

(** The parameter dicts a trace passes to [build_transaction]. *)
Fixpoint built (t : list event) : list (contract_call * tx_params) :=
  match t with
  | [] => []
  | Rpc (BuildTransaction c p) :: t' => (c, p) :: built t'
  | _ :: t' => built t'
  end.

(** What the process is started with: the environment read at import,
    what [eth_account] and web3 make of the key and of the contract
    address without asking the node, and the line [input()] reads
    ([None] at the end of the input). *)
Record config : Type := {
  PRIVATE_KEY : option string;
  PRICE_DECIMALS : N;
  (** [Account.from_key(private_key).address], or what [from_key]
      raises *)
  account_address : res string;
  (** what [Web3.to_checksum_address] or [w3.eth.contract] raise on
      the contract address, if anything *)
  contract_error : option exn;
  stdin : option string
}.

(** [not PRIVATE_KEY]: unset or empty. *)
Definition unset (v : option string) : bool :=
  match v with
  | None => true
  | Some s => String.eqb s ""
  end.

Inductive main_message : Type :=
| MsgNoPrivateKey
| MsgNotPositive (price : float)
| MsgUnusuallyHigh (price : float)
| MsgAborted
| MsgConnected
| MsgChainId (n : Z)
| MsgLatestBlock (n : Z)
| MsgAccount (address : string) (balance_wei : Z)
| MsgRegistered (current_price : float)
| MsgNotRegistered
| MsgInitFailed (e : exn).

Inductive main_event : Type :=
(** an event of a method of the updater *)
| Method (ev : event)
| Viewed (v : view)
| Say (m : main_message).

(** How the constructor ends when it does not raise: with the object,
    or with [sys.exit(code)]. *)
Inductive started : Type :=
| Started (self : updater)
| Exited (code : Z).

Section Entry.
Context {W : Type} {node : Node W} {views : Views W}.

Local Abbreviation M := (@Run.M W main_event).

(** [is_asset_registered()] *)
Definition is_asset_registered : M bool :=
  Run.try_except
    (Run.ask (call_isAssetRegistered H200_ASSET_ID)
             (fun answer => Viewed (IsAssetRegistered H200_ASSET_ID answer)))
    (fun _ => Run.ret false).

(** [H200OraclePriceUpdater(rpc_url, private_key, contract_address,
    decimals)] *)
Definition __init__ (cfg : config) : M started :=
  connected <- Run.call (fun w => let '(b, w') := is_connected w in (Ok b, w')) ;;
  Run.emit (Viewed (IsConnected connected)) ;;;
  if negb connected then Run.raise ConnectionError
  else
    address <- Run.lift (account_address cfg) ;;
    match contract_error cfg with
    | Some e => Run.raise e
    | None => Run.ret tt
    end ;;;
    let self := {| address := address; decimals := PRICE_DECIMALS cfg |} in
    balance <- Run.ask (eth_get_balance address)
                       (fun answer => Viewed (GetBalance address answer)) ;;
    Run.emit (Say MsgConnected) ;;;
    Run.emit (Method (Rpc ChainId)) ;;;
    chain <- Run.call eth_chain_id ;;
    Run.emit (Say (MsgChainId chain)) ;;;
    Run.emit (Method (Rpc BlockNumber)) ;;;
    block <- Run.call eth_block_number ;;
    Run.emit (Say (MsgLatestBlock block)) ;;;
    Run.emit (Say (MsgAccount address balance)) ;;;
    is_registered <- is_asset_registered ;;
    if is_registered then
      current_price <- Run.relabel Method (get_current_price self) ;;
      Run.emit (Say (MsgRegistered current_price)) ;;;
      Run.ret (Started self)
    else
      Run.emit (Say MsgNotRegistered) ;;;
      Run.ret (Exited 1).

(** [main()] from [# Initialize updater] on. *)
Definition initialize_and_update (cfg : config) (price : float) : M Z :=
  updater <-
    Run.try_except
      (__init__ cfg)
      (fun e => Run.emit (Say (MsgInitFailed e)) ;;; Run.ret (Exited 1)) ;;
  match updater with
  | Exited code => Run.ret code
  | Started self => Run.relabel Method (main_update self price)
  end.

(** [main()], given [args.price]: the value is the status the process
    exits with; an exception that leaves [main] ends it with a
    traceback. *)
Definition main (cfg : config) (price : float) : M Z :=
  if unset (PRIVATE_KEY cfg) then
    Run.emit (Say MsgNoPrivateKey) ;;; Run.ret 1
  else if PrimFloat.leb price 0 then
    Run.emit (Say (MsgNotPositive price)) ;;; Run.ret 1
  else
    go_on <-
      (if PrimFloat.ltb 100 price then
         Run.emit (Say (MsgUnusuallyHigh price)) ;;;
         match stdin cfg with
         | None => Run.raise (LibraryError "EOFError")
         | Some response =>
             if String.eqb (lower response) "y" then Run.ret true
             else Run.emit (Say MsgAborted) ;;; Run.ret false
         end
       else Run.ret true) ;;
    if negb go_on then Run.ret 0
    else initialize_and_update cfg price.

End Entry.

(** The transactions a run of [main] submits. *)
Definition submitted_by (t : list main_event) : list transaction :=
  flat_map (fun ev => match ev with
                      | Method ev => sent_transactions [ev]
                      | _ => []
                      end) t.

Definition sample_config : config :=
  {| PRIVATE_KEY := Some "0x4c0883a6"%string;
     PRICE_DECIMALS := 18;
     account_address := Ok "0x5A1f"%string;
     contract_error := None;
     stdin := None |}.

End PushToContract.

(* ================================================================== *)
(** * src/Push_h200_provider_specific_markets.py *)
(* ================================================================== *)

Module ProviderMarkets.

Import Web3.
Local Open Scope run_scope.

Definition PRICE_DECIMALS : Z := 18.

Record provider_info : Type := {
  asset_id : string;
  name : string;
  default_price : float
}.

Definition H200_PROVIDERS : list (string * provider_info) :=
  [("ORACLE"%string,
    {| asset_id :=
         "0x5d5f627ba6daf1427a1559c3200cbe7ebf105d0df0ec1610c6b89d54a314bf51";
       name := "Oracle Cloud H200"; default_price := 2.92 |});
   ("AWS"%string,
    {| asset_id :=
         "0xb377854a672b5274c99b24e7fe27d9661c60c8b697ca4f974208162655716b3e";
       name := "AWS H200"; default_price := 2.65 |});
   ("COREWEAVE"%string,
    {| asset_id :=
         "0xa05f2ef65a5f11da36153346f35e9cdb554962e858a95c7f79075cd3a4c6ddfd";
       name := "CoreWeave H200"; default_price := 2.57 |});
   ("GCP"%string,
    {| asset_id :=
         "0x0ba2d87db04ca970c41ab4334516ce12e74356d71ee96e228fb1ba5d519aaaf4";
       name := "Google Cloud H200"; default_price := 4.55 |});
   ("AZURE"%string,
    {| asset_id :=
         "0x12b283ae476f0251b7a6eaa8d414a3260644e167d9253ef1e72d49e2c8291e61";
       name := "Azure H200"; default_price := 5.05 |})].

(** [H200_PROVIDERS.get(key)] *)
Fixpoint lookup (key : string) (table : list (string * provider_info))
  : option provider_info :=
  match table with
  | [] => None
  | (k, info) :: table' =>
      if String.eqb k key then Some info else lookup key table'
  end.

Definition gwei : Z := 10 ^ 9.

Definition RECEIPT_TIMEOUT : Z := 180.

(** [_build_dynamic_fee] of [H200PriceUpdater], given the value read
    from [self.w3.eth.gas_price]. *)
Definition _build_dynamic_fee (base_fee : Z) : Z * Z :=
  let max_priority := 1 * gwei in
  let max_fee := Z.max (base_fee * 2) (max_priority * 2) in
  (max_fee, max_priority).

(** [int(price_usd * 10**PRICE_DECIMALS)] *)
Definition scaled (price_usd : float) : res Z :=
  rbind (float_of_int (10 ^ PRICE_DECIMALS))
        (fun scale => int_of_float (price_usd * scale)).

Record updater : Type := {
  address : string
}.

Record PriceData : Type := {
  provider : string;
  pd_asset_id : string;
  price_raw : Z;
  updated_at : Z
}.

(** [PriceData.price_usd] *)
Definition price_usd (data : PriceData) : res float :=
  int_truediv (price_raw data) (10 ^ PRICE_DECIMALS).

(** What [PriceData.updated_at_str] returns: ['Never'], or the ISO
    format of the moment [t] seconds after the epoch. *)
Inductive updated_text : Type :=
| Never
| IsoFormat (t : Z).

(** [PriceData.updated_at_str] *)
Definition updated_at_str {calendar : Calendar} (data : PriceData)
  : res updated_text :=
  if updated_at data =? 0 then Ok Never
  else
    match fromtimestamp_utc (updated_at data) with
    | Some e => Raise e
    | None => Ok (IsoFormat (updated_at data))
    end.

Inductive message : Type :=
| MsgUpdatingProvider (name asset_id : string) (price_usd : float)
| MsgBatchHeader
| MsgBatchLine (provider : string) (price_usd : float)
| MsgBatchTotal (n : nat)
| MsgTxHash (tx_hash : string)
| MsgGasUsed (gas_used : Z)
| MsgStatus (success : bool)
| MsgNotPositive (provider : string) (price : float)
| MsgSeemsHigh (provider : string) (price : float)
| MsgPricesHeader
| MsgPriceRow (provider : string) (price_usd : float) (updated : updated_text)
| MsgNotSet (provider : string)
| MsgPricesFooter
| MsgLogged
| MsgSuccess (tx_hash : string)
| MsgUpdateFailed (e : exn).

Inductive event : Type :=
| Bound (c : contract_call)
| Rpc (r : request)
| Print (m : message)
(** a read-only request of the price display, with its answer *)
| Read (v : view).

(** The bound contract functions of a trace, in order. *)
Fixpoint bound_calls (t : list event) : list contract_call :=
  match t with
  | [] => []
  | Bound c :: t' => c :: bound_calls t'
  | _ :: t' => bound_calls t'
  end.

Section Reading.
Context {W : Type} {views : Views W}.

Local Abbreviation M := (@Run.M W view).

(** The [try] of [get_current_prices] for one asset. *)
Definition read_price_data (asset_id : string) : M (Z * Z) :=
  Run.try_except
    (is_registered <-
       Run.ask (call_isAssetRegistered asset_id) (IsAssetRegistered asset_id) ;;
     if is_registered
     then Run.ask (call_getPriceData asset_id) (GetPriceData asset_id)
     else Run.ret (0, 0))
    (fun _ => Run.ret (0, 0)).

(** The [for provider, info in H200_PROVIDERS.items()] loop of
    [get_current_prices]. *)
Fixpoint get_current_prices_loop (providers : list (string * provider_info))
  (prices : list (string * PriceData)) : M (list (string * PriceData)) :=
  match providers with
  | [] => Run.ret prices
  | (provider, info) :: rest =>
      read <- read_price_data (asset_id info) ;;
      let '(price_raw, updated_at) := read in
      get_current_prices_loop
        rest
        (dict_setitem prices provider
           {| provider := provider; pd_asset_id := asset_id info;
              price_raw := price_raw; updated_at := updated_at |})
  end.

(** [get_current_prices()] *)
Definition get_current_prices : M (list (string * PriceData)) :=
  get_current_prices_loop H200_PROVIDERS [].

End Reading.

Section Script.
Context {W : Type} {node : Node W}.
Variable self : updater.

Local Abbreviation M := (@Run.M W event).

(** [_send_transaction(func, gas_limit)] up to and including
    [send_raw_transaction]: fees, nonce, chain id, build, sign,
    submit. *)
Definition _submit (func : contract_call) (gas_limit : Z) : M string :=
  Run.emit (Rpc GasPrice) ;;;
  base_fee <- Run.call eth_gas_price ;;
  let '(max_fee, max_priority) := _build_dynamic_fee base_fee in
  Run.emit (Rpc (GetTransactionCount (address self))) ;;;
  count <- Run.call (eth_get_transaction_count (address self)) ;;
  Run.emit (Rpc ChainId) ;;;
  chain <- Run.call eth_chain_id ;;
  let fields := {| from_ := address self;
                   nonce := count;
                   gas := gas_limit;
                   maxFeePerGas := max_fee;
                   maxPriorityFeePerGas := max_priority;
                   chainId := chain |} in
  Run.emit (Rpc (BuildTransaction func fields)) ;;;
  tx <- Run.call (build_transaction func fields) ;;
  Run.emit (Rpc (SignTransaction tx)) ;;;
  signed <- Run.call (sign_transaction tx) ;;
  Run.emit (Rpc (SendRawTransaction signed)) ;;;
  Run.call (eth_send_raw_transaction signed).

(** [_send_transaction(func, gas_limit)]: submit, then wait for the
    receipt. *)
Definition _send_transaction (func : contract_call) (gas_limit : Z)
  : M (string * receipt) :=
  tx_hash <- _submit func gas_limit ;;
  Run.emit (Rpc (WaitForTransactionReceipt tx_hash RECEIPT_TIMEOUT)) ;;;
  receipt <-
    Run.call (eth_wait_for_transaction_receipt tx_hash RECEIPT_TIMEOUT) ;;
  Run.ret (tx_hash, receipt).

(** The three lines printed once the receipt is there. *)
Definition print_receipt (tx_hash : string) (receipt : receipt) : M unit :=
  Run.emit (Print (MsgTxHash tx_hash)) ;;;
  Run.emit (Print (MsgGasUsed (gasUsed receipt))) ;;;
  Run.emit (Print (MsgStatus (status receipt =? 1))).

(** [update_single_price(provider, price_usd)] *)
Definition update_single_price (provider : string) (price_usd : float)
  : M string :=
  let provider := upper provider in
  match lookup provider H200_PROVIDERS with
  | None => Run.raise ValueError
  | Some info =>
      price_scaled <- Run.lift (scaled price_usd) ;;
      Run.emit (Print (MsgUpdatingProvider (name info) (asset_id info)
                                           price_usd)) ;;;
      Run.emit (Bound (updatePrice (asset_id info) price_scaled)) ;;;
      sent <- _send_transaction (updatePrice (asset_id info) price_scaled)
                                100000 ;;
      let '(tx_hash, receipt) := sent in
      print_receipt tx_hash receipt ;;;
      Run.ret tx_hash
  end.

(** The [for provider, price_usd in prices.items()] loop of
    [batch_update_prices], with the two lists it appends to. *)
Fixpoint batch_loop (items : list (string * float))
  (asset_ids : list string) (new_prices : list Z)
  : M (list string * list Z) :=
  match items with
  | [] => Run.ret (asset_ids, new_prices)
  | (provider, price_usd) :: rest =>
      let provider := upper provider in
      match lookup provider H200_PROVIDERS with
      | None => Run.raise ValueError
      | Some info =>
          price_scaled <- Run.lift (scaled price_usd) ;;
          Run.emit (Print (MsgBatchLine provider price_usd)) ;;;
          batch_loop rest (asset_ids ++ [asset_id info])
                     (new_prices ++ [price_scaled])
      end
  end.

(** [batch_update_prices(prices)] *)
Definition batch_update_prices (prices : list (string * float)) : M string :=
  Run.emit (Print MsgBatchHeader) ;;;
  lists <- batch_loop prices [] [] ;;
  let '(asset_ids, new_prices) := lists in
  Run.emit (Print (MsgBatchTotal (List.length asset_ids))) ;;;
  Run.emit (Bound (batchUpdatePrices asset_ids new_prices)) ;;;
  sent <- _send_transaction
            (batchUpdatePrices asset_ids new_prices)
            (50000 + Z.of_nat (List.length asset_ids) * 30000) ;;
  let '(tx_hash, receipt) := sent in
  print_receipt tx_hash receipt ;;;
  Run.ret tx_hash.

(** The dispatch of [main]: [if len(prices_to_update) == 1: ...]. *)
Definition execute_update (prices_to_update : list (string * float))
  : M string :=
  if (List.length prices_to_update =? 1)%nat then
    match prices_to_update with
    | (provider, price) :: _ => update_single_price provider price
    | [] => Run.raise (LibraryError "IndexError")
    end
  else batch_update_prices prices_to_update.

(** [log_update(prices, tx_hash, block_number, batch)] up to the file
    write: each logged price is scaled again and its provider is looked
    up by the key of the dict as it is. *)
Fixpoint log_entries (prices : list (string * float))
  : res (list (string * Z * string)) :=
  match prices with
  | [] => Ok []
  | (provider, price) :: rest =>
      rbind (scaled price) (fun price_scaled =>
      match lookup provider H200_PROVIDERS with
      | None => Raise KeyError
      | Some info =>
          rbind (log_entries rest) (fun entries =>
          Ok ((provider, price_scaled, asset_id info) :: entries))
      end)
  end.

Definition log_update (prices : list (string * float)) (tx_hash : string)
  : M unit :=
  Run.emit (Rpc BlockNumber) ;;;
  Run.call eth_block_number ;;;
  Run.lift (log_entries prices) ;;;
  Run.emit (Print MsgLogged).

(** The [# Validate prices] loop of [main]: [Some code] when the
    process exits there. *)
Fixpoint validate_prices (prices : list (string * float)) : M (option Z) :=
  match prices with
  | [] => Run.ret None
  | (provider, price) :: rest =>
      if PrimFloat.leb price 0 then
        Run.emit (Print (MsgNotPositive provider price)) ;;;
        Run.ret (Some 1)
      else
        (if PrimFloat.ltb 100 price
         then Run.emit (Print (MsgSeemsHigh provider price))
         else Run.ret tt) ;;;
        validate_prices rest
  end.

Context {views : Views W} {calendar : Calendar}.

(** The [for provider, data in prices.items()] loop of
    [display_current_prices]: the price and the time of the update
    are formatted for an asset with a price above zero. *)
Fixpoint display_rows (prices : list (string * PriceData)) : M unit :=
  match prices with
  | [] => Run.ret tt
  | (provider, data) :: rest =>
      (if 0 <? price_raw data then
         price <- Run.lift (price_usd data) ;;
         updated <- Run.lift (updated_at_str data) ;;
         Run.emit (Print (MsgPriceRow provider price updated))
       else Run.emit (Print (MsgNotSet provider))) ;;;
      display_rows rest
  end.

(** [display_current_prices()] *)
Definition display_current_prices : M unit :=
  prices <- Run.relabel Read get_current_prices ;;
  Run.emit (Print MsgPricesHeader) ;;;
  display_rows prices ;;;
  Run.emit (Print MsgPricesFooter).

(** [main] from [# Validate prices] on: the value is the status the
    process exits with; the first display of the current prices is
    outside the [try], the second inside. *)
Definition main_update (prices_to_update : list (string * float)) : M Z :=
  stop <- validate_prices prices_to_update ;;
  match stop with
  | Some code => Run.ret code
  | None =>
      display_current_prices ;;;
      Run.try_except
        (tx_hash <- execute_update prices_to_update ;;
         log_update prices_to_update tx_hash ;;;
         Run.emit (Print (MsgSuccess tx_hash)) ;;;
         display_current_prices ;;;
         Run.ret 0)
        (fun e => Run.emit (Print (MsgUpdateFailed e)) ;;; Run.ret 1)
  end.

End Script.

(** The pairs can be published: every provider is a key of
    [H200_PROVIDERS] once upper-cased and every price has an integer
    scaled value. *)
Definition publishable (pair : string * float) : Prop :=
  (exists info, lookup (upper (fst pair)) H200_PROVIDERS = Some info)
  /\ exists n, scaled (snd pair) = Ok n.

(** The asset identifier and the scaled price of a pair, where they
    exist. *)
Definition asset_of (pair : string * float) : string :=
  match lookup (upper (fst pair)) H200_PROVIDERS with
  | Some info => asset_id info
  | None => ""
  end.

Definition scaled_of (pair : string * float) : Z :=
  match scaled (snd pair) with
  | Ok n => n
  | Raise _ => 0
  end.

(** The lines that follow a receipt, whatever its status. *)
Definition receipt_lines (h : string) (r : receipt) : list event :=
  [Print (MsgTxHash h); Print (MsgGasUsed (gasUsed r));
   Print (MsgStatus (status r =? 1))].

Definition sample_updater : updater := {| address := "0x5A1f" |}.


(** ** Reading the oracle *)

(** The transactions a trace submits, in order. *)
Fixpoint sent_transactions (t : list event) : list transaction :=
  match t with
  | [] => []
  | Rpc (SendRawTransaction tx) :: t' => tx :: sent_transactions t'
  | _ :: t' => sent_transactions t'
  end.

(** The parameter dicts a trace passes to [build_transaction]. *)
Fixpoint built (t : list event) : list (contract_call * tx_params) :=
  match t with
  | [] => []
  | Rpc (BuildTransaction c p) :: t' => (c, p) :: built t'
  | _ :: t' => built t'
  end.

(** A trace of printed lines only. *)
Definition printed (t : list event) : Prop :=
  Forall (fun ev => exists m, ev = Print m) t.

(** A trace of printed lines and of the reads of the price display:
    nothing is built, signed or submitted, no nonce is asked for. *)
Definition reads_and_prints (t : list event) : Prop :=
  Forall (fun ev => (exists m, ev = Print m) \/ (exists v, ev = Read v)) t.


(** ** Prices from the index file and from a CSV file *)

(** A JSON value as the index reader looks at it: containers by
    whether they are empty, numbers at their float value. *)
Inductive jval : Type :=
| JNull
| JBool (b : bool)
| JNum (x : float)
| JStr (s : string)
| JList (empty : bool)
| JDict (empty : bool).

(** Truth value *)
Definition jtruthy (v : jval) : bool :=
  match v with
  | JNull => false
  | JBool b => b
  | JNum x => truthy x
  | JStr s => negb (String.eqb s "")
  | JList empty | JDict empty => negb empty
  end.

(** An entry of [hyperscaler_details]: a value without [.get], or an
    object given by what it holds under ['provider'] and
    ['effective_price'] ([None]: the key is absent). *)
Inductive index_entry : Type :=
| NotADict
| Detail (provider effective_price : option jval).

(** What opening and reading the index file comes to; the object is
    given by the list it holds under ['hyperscaler_details'], empty
    when the key is absent. *)
Inductive index_content : Type :=
| IndexNotFound
| IndexNotJson
| IndexUnreadable (e : exn)
| IndexNotADict
| IndexDict (hyperscaler_details : list index_entry).

Definition provider_name_map : list (string * string) :=
  [("AWS", "AWS"); ("Azure", "AZURE"); ("CoreWeave", "COREWEAVE");
   ("Google Cloud", "GCP"); ("Oracle", "ORACLE")]%string.

(** [provider_name_map.get(index_provider)]: a list or a dict is not
    hashable, a value that is no [str] is no key of the map. *)
Definition map_get (index_provider : jval) : res (option string) :=
  match index_provider with
  | JStr s => Ok (dict_get provider_name_map s)
  | JList _ | JDict _ => Raise TypeError
  | JNull | JBool _ | JNum _ => Ok None
  end.

(** [v is None] *)
Definition is_null (v : jval) : bool :=
  match v with
  | JNull => true
  | _ => false
  end.

(** [round(effective_price, 4)] *)
Definition round_price (v : jval) : res float :=
  match v with
  | JNum x => Ok (round_ndigits x 4)
  | JBool b => Ok (if b then 1 else 0)%float
  | JNull | JStr _ | JList _ | JDict _ => Raise TypeError
  end.

(** One turn of the [for detail in hyperscaler_details] loop of
    [read_prices_from_index]: the pair it stores, if any. *)
Definition index_price_of (entry : index_entry) : res (option (string * float)) :=
  match entry with
  | NotADict => Raise (LibraryError "AttributeError")
  | Detail provider effective_price =>
      let index_provider :=
        match provider with Some v => v | None => JStr "" end in
      let effective_price :=
        match effective_price with Some v => v | None => JNull end in
      if negb (jtruthy index_provider) || is_null effective_price then Ok None
      else
        rbind (map_get index_provider) (fun our_provider =>
          match our_provider with
          | Some our_provider =>
              if negb (String.eqb our_provider "")
                 && match lookup our_provider H200_PROVIDERS with
                    | Some _ => true
                    | None => false
                    end
              then rbind (round_price effective_price)
                         (fun rounded => Ok (Some (our_provider, rounded)))
              else Ok None
          | None => Ok None
          end)
  end.

(** A field of a row of [csv.DictReader]: the header has no such
    column, the row is too short to have it ([None]), or text. *)
Inductive csv_field : Type :=
| NoColumn
| NoValue
| Text (s : string).

Record csv_row : Type := {
  Provider : csv_field;
  Price : csv_field
}.

(** What opening and reading the CSV file comes to. *)
Inductive csv_content : Type :=
| CsvNotFound
| CsvUnreadable (e : exn)
| CsvRows (rows : list csv_row).

(** [row.get(column, "")] followed by a [str] method. *)
Definition field_text (f : csv_field) : res string :=
  match f with
  | NoColumn => Ok ""%string
  | NoValue => Raise (LibraryError "AttributeError")
  | Text s => Ok s
  end.

Inductive reader_message : Type :=
| MsgFileNotFound
| MsgInvalidJson
| MsgReadFailed (e : exn)
| MsgNoDetails
| MsgEmptyCsv
| MsgUnknownProvider (provider : string)
| MsgInvalidPrice (provider price_str : string)
| MsgNoValidPrices
| MsgPricesRead (prices : list (string * float)).

(** The loop of [read_prices_from_index]. *)
Fixpoint index_loop (details : list index_entry) (prices : list (string * float))
  : res (list (string * float)) :=
  match details with
  | [] => Ok prices
  | entry :: rest =>
      rbind (index_price_of entry) (fun found =>
        match found with
        | Some (our_provider, price) =>
            index_loop rest (dict_setitem prices our_provider price)
        | None => index_loop rest prices
        end)
  end.

(** [read_prices_from_index(index_file)]: the lines printed and the
    dict returned, [None] for [None]; or the exception raised. *)
Definition read_prices_from_index (file : index_content)
  : list reader_message * res (option (list (string * float))) :=
  match file with
  | IndexNotFound => ([MsgFileNotFound], Ok None)
  | IndexNotJson => ([MsgInvalidJson], Ok None)
  | IndexUnreadable e => ([MsgReadFailed e], Ok None)
  | IndexNotADict => ([], Raise (LibraryError "AttributeError"))
  | IndexDict [] => ([MsgNoDetails], Ok None)
  | IndexDict hyperscaler_details =>
      match index_loop hyperscaler_details [] with
      | Raise e => ([], Raise e)
      | Ok [] => ([MsgNoValidPrices], Ok None)
      | Ok prices => ([MsgPricesRead prices], Ok (Some prices))
      end
  end.

(** The loop of [read_prices_from_csv], with the warnings printed so
    far. *)
Fixpoint csv_loop (rows : list csv_row) (prices : list (string * float))
  (lines : list reader_message)
  : list reader_message * res (list (string * float)) :=
  match rows with
  | [] => (lines, Ok prices)
  | row :: rest =>
      match field_text (Provider row) with
      | Raise e => (lines, Raise e)
      | Ok text =>
          let provider := strip (upper text) in
          match field_text (Price row) with
          | Raise e => (lines, Raise e)
          | Ok text =>
              let price_str := strip text in
              if String.eqb provider "" || String.eqb price_str ""
              then csv_loop rest prices lines
              else
                match lookup provider H200_PROVIDERS with
                | None =>
                    csv_loop rest prices
                             (lines ++ [MsgUnknownProvider provider])
                | Some _ =>
                    match float_of_str price_str with
                    | Ok price =>
                        csv_loop rest (dict_setitem prices provider price) lines
                    | Raise _ =>
                        csv_loop rest prices
                                 (lines ++ [MsgInvalidPrice provider price_str])
                    end
                end
          end
      end
  end.

(** [read_prices_from_csv(csv_file)] *)
Definition read_prices_from_csv (file : csv_content)
  : list reader_message * res (option (list (string * float))) :=
  match file with
  | CsvNotFound => ([MsgFileNotFound], Ok None)
  | CsvUnreadable e => ([MsgReadFailed e], Ok None)
  | CsvRows [] => ([MsgEmptyCsv], Ok None)
  | CsvRows rows =>
      match csv_loop rows [] [] with
      | (lines, Raise e) => (lines, Raise e)
      | (lines, Ok []) => (lines ++ [MsgNoValidPrices], Ok None)
      | (lines, Ok prices) => (lines ++ [MsgPricesRead prices], Ok (Some prices))
      end
  end.

(** ** The constructor and [main] *)

(** The namespace [parse_args] returns. *)
Record args : Type := {
  csv : option string;
  from_index : option string;
  arg_provider : option (list string);
  arg_price : option (list float);
  all : bool;
  oracle : option float;
  aws : option float;
  coreweave : option float;
  gcp : option float;
  azure : option float
}.

(** What the process is started with: the key of the environment, what
    [eth_account] and web3 make of it and of the contract address, and
    what the two files that may be named on the command line hold. *)
Record config : Type := {
  PRIVATE_KEY : option string;
  account_address : res string;
  contract_error : option exn;
  index_file : index_content;
  csv_file : csv_content
}.

(** [not value] for an optional [str]: unset or empty. *)
Definition unset (v : option string) : bool :=
  match v with
  | None => true
  | Some s => String.eqb s ""
  end.

Inductive main_message : Type :=
| MsgNoPrivateKey
| MsgConnectionError
| MsgConnected
| MsgChainId (n : Z)
| MsgLatestBlock (n : Z)
| MsgAccount (address : string) (balance_wei : Z)
| MsgAllNeedsAPrice
| MsgCountsDiffer
| MsgNothingSpecified
| Reader (m : reader_message).

Inductive main_event : Type :=
(** an event of a method of the updater *)
| Method (ev : event)
| Viewed (v : view)
| Say (m : main_message).

(** [if args.flag: prices_to_update[key] = args.flag] *)
Definition with_flag (prices : list (string * float)) (key : string)
  (flag : option float) : list (string * float) :=
  match flag with
  | Some price => if truthy price then dict_setitem prices key price else prices
  | None => prices
  end.

(** [for provider, price in zip(args.provider, args.price):
       prices_to_update[provider.upper()] = price] *)
Fixpoint pair_up (providers : list string) (prices : list float)
  (prices_to_update : list (string * float)) : list (string * float) :=
  match providers, prices with
  | provider :: providers', price :: prices' =>
      pair_up providers' prices'
              (dict_setitem prices_to_update (upper provider) price)
  | _, _ => prices_to_update
  end.

(** How [# Determine prices to update] ends: with the dict, or with
    [sys.exit(code)]. *)
Inductive selection : Type :=
| Selected (prices_to_update : list (string * float))
| Stop (code : Z).

(** [x or {}] followed by [if not prices_to_update: sys.exit(1)]. *)
Definition or_exit (read : option (list (string * float))) : selection :=
  match read with
  | Some (first :: rest) => Selected (first :: rest)
  | Some [] | None => Stop 1
  end.

(** The [# Determine prices to update] part of [main]: the lines
    printed, and the selection or the exception raised. *)
Definition prices_to_update (cfg : config) (a : args)
  : list main_message * res selection :=
  if negb (unset (from_index a)) then
    let '(lines, read) := read_prices_from_index (index_file cfg) in
    (map Reader lines,
     match read with Ok read => Ok (or_exit read) | Raise e => Raise e end)
  else if negb (unset (csv a)) then
    let '(lines, read) := read_prices_from_csv (csv_file cfg) in
    (map Reader lines,
     match read with Ok read => Ok (or_exit read) | Raise e => Raise e end)
  else if all a then
    let prices :=
      with_flag
        (with_flag
           (with_flag
              (with_flag (with_flag [] "ORACLE" (oracle a)) "AWS" (aws a))
              "COREWEAVE" (coreweave a))
           "GCP" (gcp a))
        "AZURE" (azure a) in
    match prices with
    | [] => ([MsgAllNeedsAPrice], Ok (Stop 1))
    | _ :: _ => ([], Ok (Selected prices))
    end
  else
    match arg_provider a, arg_price a with
    | Some (p :: ps), Some (x :: xs) =>
        if negb (Nat.eqb (List.length (p :: ps)) (List.length (x :: xs)))
        then ([MsgCountsDiffer], Ok (Stop 1))
        else ([], Ok (Selected (pair_up (p :: ps) (x :: xs) [])))
    | _, _ => ([MsgNothingSpecified], Ok (Stop 1))
    end.

Section Entry.
Context {W : Type} {node : Node W} {views : Views W} {calendar : Calendar}.

Local Abbreviation M := (@Run.M W main_event).

(** [H200PriceUpdater(rpc_url, private_key, contract_address)] *)
Definition __init__ (cfg : config) : M updater :=
  connected <- Run.call (fun w => let '(b, w') := is_connected w in (Ok b, w')) ;;
  Run.emit (Viewed (IsConnected connected)) ;;;
  if negb connected then Run.raise ConnectionError
  else
    address <- Run.lift (account_address cfg) ;;
    match contract_error cfg with
    | Some e => Run.raise e
    | None => Run.ret tt
    end ;;;
    balance <- Run.ask (eth_get_balance address)
                       (fun answer => Viewed (GetBalance address answer)) ;;
    Run.emit (Say MsgConnected) ;;;
    Run.emit (Method (Rpc ChainId)) ;;;
    chain <- Run.call eth_chain_id ;;
    Run.emit (Say (MsgChainId chain)) ;;;
    Run.emit (Method (Rpc BlockNumber)) ;;;
    block <- Run.call eth_block_number ;;
    Run.emit (Say (MsgLatestBlock block)) ;;;
    Run.emit (Say (MsgAccount address balance)) ;;;
    Run.ret {| address := address |}.

(** [main()] from the line after [parser.parse_args()] on, for a
    command line without [--show]: the value is the status the
    process exits with; an exception that leaves [main] ends it with a
    traceback. *)
Definition main (cfg : config) (a : args) : M Z :=
  if unset (PRIVATE_KEY cfg) then
    Run.emit (Say MsgNoPrivateKey) ;;; Run.ret 1
  else
    started <-
      Run.try_except
        (self <- __init__ cfg ;; Run.ret (Some self))
        (fun e =>
           match e with
           | ConnectionError =>
               Run.emit (Say MsgConnectionError) ;;; Run.ret None
           | _ => Run.raise e
           end) ;;
    match started with
    | None => Run.ret 1
    | Some self =>
        let '(lines, chosen) := prices_to_update cfg a in
        Run.tell (map Say lines) ;;;
        chosen <- Run.lift chosen ;;
        match chosen with
        | Stop code => Run.ret code
        | Selected prices => Run.relabel Method (main_update self prices)
        end
    end.

End Entry.

(** The transactions a run of [main] submits. *)
Definition submitted_by (t : list main_event) : list transaction :=
  flat_map (fun ev => match ev with
                      | Method ev => sent_transactions [ev]
                      | _ => []
                      end) t.

(** The keys of [H200_PROVIDERS]. *)
Definition known (provider : string) : bool :=
  match lookup provider H200_PROVIDERS with
  | Some _ => true
  | None => false
  end.

(** A provider key as the readers store it: a key of
    [H200_PROVIDERS], already in upper case. *)
Definition stored_key (k : string) : Prop :=
  known k = true /\ upper k = k.

(** A row of the CSV file that is shorter than the header needs. *)
Definition short (row : csv_row) : Prop :=
  Provider row = NoValue \/ Price row = NoValue.

(** What the index reader guarantees for a pair it stores, [details]
    being the entries of the file: the key is the mapped name of an
    entry and the price is that entry's price, rounded. *)
Definition from_index_entry (details : list index_entry)
  (pair : string * float) : Prop :=
  stored_key (fst pair)
  /\ exists name v,
       In (Detail (Some (JStr name)) (Some v)) details
       /\ dict_get provider_name_map name = Some (fst pair)
       /\ round_price v = Ok (snd pair).

(** What the CSV reader guarantees for a pair it stores, [rows] being
    the rows of the file: the key is the provider of a row, upper-cased
    and stripped, and the price is what [float] reads in that row's
    stripped price. *)
Definition from_csv_row (rows : list csv_row) (pair : string * float) : Prop :=
  stored_key (fst pair)
  /\ exists provider price_text,
       In {| Provider := Text provider; Price := Text price_text |} rows
       /\ strip (upper provider) = fst pair
       /\ float_of_str (strip price_text) = Ok (snd pair).

Definition no_args : args :=
  {| csv := None; from_index := None;
     arg_provider := None; arg_price := None; all := false;
     oracle := None; aws := None; coreweave := None; gcp := None;
     azure := None |}.

Definition sample_config : config :=
  {| PRIVATE_KEY := Some "0x4c0883a6"%string;
     account_address := Ok "0x5A1f"%string;
     contract_error := None;
     index_file := IndexNotFound;
     csv_file := CsvNotFound |}.

End ProviderMarkets.

(* ================================================================== *)
(** * The provider scrapers *)
(* ================================================================== *)

(** What the three scraper classes share. *)
Module Scraper.

(** A [Dict[str, str]] from variant names to price strings, in
    insertion order. *)
Definition prices : Type := list (string * string).

(** [d[key] = value] *)
Fixpoint dict_set (d : prices) (key value : string) : prices :=
  match d with
  | [] => [(key, value)]
  | (k, v) :: d' =>
      if String.eqb k key then (k, value) :: d'
      else (k, v) :: dict_set d' key value
  end.

(** [d.update(other)] *)
Definition dict_update (d other : prices) : prices :=
  fold_left (fun acc kv => dict_set acc (fst kv) (snd kv)) other d.

(** The lines of the method loop of [get_h200_prices]. *)
Inductive line : Type :=
| Method (method_name : string)
| Found
| NoValidPrices
| MethodError (e : exn)
| AllMethodsFailed.

(** The acceptance rule in the words of the specification: a closed
    interval. *)
Definition spec_plausible (lower upper v : float) : bool :=
  PrimFloat.leb lower v && PrimFloat.leb v upper.

(** One entry of a price dict, as [_validate_prices] reads it: the
    variant is not an error entry and the first number of the price
    string is [price]. *)
Definition reads_as (entry : string * string) (price : float) : Prop :=
  contains "Error" (fst entry) = false
  /\ exists group, search_number (snd entry) = Some group
                   /\ float_of_digits group = Ok price.

End Scraper.

(* ================================================================== *)
(** * src/gcp_h200_scraper.py *)
(* ================================================================== *)

Module GCP.

Import Scraper.

(** The [for variant, price_str in prices.items()] loop of
    [_validate_prices]. *)
Fixpoint _validate_loop (items : prices) : bool :=
  match items with
  | [] => false
  | (variant, price_str) :: rest =>
      if contains "Error" variant then _validate_loop rest
      else
        match search_number price_str with
        | Some group =>
            match float_of_digits group with
            | Ok price =>
                if PrimFloat.ltb 5 price && PrimFloat.ltb price 25 then true
                else _validate_loop rest
            | Raise _ => _validate_loop rest
            end
        | None => _validate_loop rest
        end
  end.

(** [_validate_prices(prices)] *)
Definition _validate_prices (prices : prices) : bool :=
  match prices with
  | [] => false
  | _ :: _ => _validate_loop prices
  end.

(** The loop of [_normalize_prices]: the prices it collects. *)
Fixpoint _normalize_loop (items : prices) (per_gpu_prices : list float)
  : list float :=
  match items with
  | [] => per_gpu_prices
  | (variant, price_str) :: rest =>
      if contains "Error" variant then _normalize_loop rest per_gpu_prices
      else
        match search_dollar_number price_str with
        | Some group =>
            match float_of_digits group with
            | Ok price => _normalize_loop rest (per_gpu_prices ++ [price])
            | Raise _ => _normalize_loop rest per_gpu_prices
            end
        | None => _normalize_loop rest per_gpu_prices
        end
  end.

(** [_normalize_prices(prices)] *)
Definition _normalize_prices (prices : prices) : res Scraper.prices :=
  match prices with
  | [] => Ok []
  | _ :: _ =>
      match _normalize_loop prices [] with
      | [] => Ok []
      | per_gpu_prices =>
          rbind (truediv (Py.sum per_gpu_prices)
                         (float_of_Z (Z.of_nat (List.length per_gpu_prices))))
                (fun avg_per_gpu =>
                   Ok [("A3-Ultra (GCP)"%string,
                        ("$" ++ format_2f avg_per_gpu ++ "/hr")%string)])
      end
  end.

(** The [for method_name, method_func in methods] loop of
    [get_h200_prices], each method given with what it returns or
    raises when called: the dict collected and the lines printed. *)
Fixpoint methods_loop (methods : list (string * res prices))
  : prices * list line :=
  match methods with
  | [] => ([], [])
  | (method_name, outcome) :: rest =>
      match outcome with
      | Ok prices =>
          if negb (Nat.eqb (List.length prices) 0) && _validate_prices prices
          then (dict_update [] prices, [Method method_name; Found])
          else
            let '(h200_prices, t) := methods_loop rest in
            (h200_prices, Method method_name :: NoValidPrices :: t)
      | Raise e =>
          let '(h200_prices, t) := methods_loop rest in
          (h200_prices, Method method_name :: MethodError e :: t)
      end
  end.

(** [get_h200_prices()] *)
Definition get_h200_prices (methods : list (string * res prices))
  : res prices * list line :=
  let '(h200_prices, t) := methods_loop methods in
  match h200_prices with
  | [] => (Ok [], t ++ [AllMethodsFailed])
  | _ :: _ => (_normalize_prices h200_prices, t)
  end.

(** The outcome of a method that contributes nothing: it raises, or no
    value of what it returns is plausible. *)
Definition fails (method : string * res prices) : Prop :=
  match snd method with
  | Ok prices => _validate_prices prices = false
  | Raise _ => True
  end.

End GCP.

(* ================================================================== *)
(** * src/hyperbolic_h200_scraper.py *)
(* ================================================================== *)

Module Hyperbolic.

Import Scraper.

(** The [for variant, price_str in prices.items()] loop of
    [_validate_prices]. *)
Fixpoint _validate_loop (items : prices) : bool :=
  match items with
  | [] => false
  | (variant, price_str) :: rest =>
      if contains "Error" variant then _validate_loop rest
      else
        match search_number price_str with
        | Some group =>
            match float_of_digits group with
            | Ok price =>
                if PrimFloat.ltb 1.0 price && PrimFloat.ltb price 10.0
                then true
                else _validate_loop rest
            | Raise _ => _validate_loop rest
            end
        | None => _validate_loop rest
        end
  end.

(** [_validate_prices(prices)] *)
Definition _validate_prices (prices : prices) : bool :=
  match prices with
  | [] => false
  | _ :: _ => _validate_loop prices
  end.

(** The method loop of [get_h200_prices]. *)
Fixpoint methods_loop (methods : list (string * res prices))
  : prices * list line :=
  match methods with
  | [] => ([], [])
  | (method_name, outcome) :: rest =>
      match outcome with
      | Ok prices =>
          if negb (Nat.eqb (List.length prices) 0) && _validate_prices prices
          then (dict_update [] prices, [Method method_name; Found])
          else
            let '(h200_prices, t) := methods_loop rest in
            (h200_prices, Method method_name :: NoValidPrices :: t)
      | Raise e =>
          let '(h200_prices, t) := methods_loop rest in
          (h200_prices, Method method_name :: MethodError e :: t)
      end
  end.

(** [get_h200_prices()] *)
Definition get_h200_prices (methods : list (string * res prices))
  : prices * list line :=
  let '(h200_prices, t) := methods_loop methods in
  match h200_prices with
  | [] => ([], t ++ [AllMethodsFailed])
  | _ :: _ => (h200_prices, t)
  end.

(** The outcome of a method that contributes nothing: it raises, or no
    value of what it returns is plausible. *)
Definition fails (method : string * res prices) : Prop :=
  match snd method with
  | Ok prices => _validate_prices prices = false
  | Raise _ => True
  end.

End Hyperbolic.

(* ================================================================== *)
(** * src/acecloud_h200_scraper.py *)
(* ================================================================== *)

Module AceCloud.

(** What one exchange-rate endpoint answers: the request raises, the
    status is not 200, or the JSON is read and
    [data['rates'].get('USD')] is [usd] ([None] also when there is no
    ['rates']). *)
Inductive api_reply : Type :=
| ApiRaises (e : exn)
| ApiStatus (code : Z)
| ApiJson (usd : option float).

(** [get_inr_to_usd_rate()], over the replies of [exchange_apis] in
    order. *)
Fixpoint get_inr_to_usd_rate (replies : list api_reply) : option float :=
  match replies with
  | [] => None
  | ApiJson (Some rate) :: rest =>
      if truthy rate then Some rate else get_inr_to_usd_rate rest
  | _ :: rest => get_inr_to_usd_rate rest
  end.

(** A row of the pricing table, as [_extract_from_table] reads it. *)
Record table_row : Type := {
  (** [len(cells)] *)
  cells : nat;
  (** ['N.H200' in row_text or 'H200' in row_text] *)
  mentions_h200 : bool;
  (** the int of the first digit run of column 1, 1 without one *)
  gpu_count : Z;
  (** [float(price_clean)] for column 4, [None] on [ValueError] *)
  monthly_price : option float
}.

(** The row loop of [_extract_from_table]. *)
Fixpoint _extract_rows (rows : list table_row) (prices : list float)
  : res (list float) :=
  match rows with
  | [] => Ok prices
  | r :: rest =>
      if (5 <=? cells r)%nat && mentions_h200 r then
        match monthly_price r with
        | Some monthly =>
            rbind (rbind (float_of_int (gpu_count r)) (truediv monthly))
                  (fun per_gpu_price => _extract_rows rest (prices ++ [per_gpu_price]))
        | None => _extract_rows rest prices
        end
      else _extract_rows rest prices
  end.

(** [_extract_from_table(soup)], [None] when no table is found. *)
Definition _extract_from_table (table : option (list table_row))
  : res (list float) :=
  match table with
  | None => Ok []
  | Some rows => _extract_rows rows []
  end.

(** What the pricing page answers. *)
Inductive page : Type :=
| Unreachable (e : exn)
| Status (code : Z)
| Content (has_h200 : bool) (table : option (list table_row)).

(** [_try_pricing_page()] *)
Definition _try_pricing_page (p : page) : list float :=
  match p with
  | Unreachable _ => []
  | Status _ => []
  | Content false _ => []
  | Content true table =>
      match _extract_from_table table with
      | Ok prices => [] ++ prices
      | Raise _ => []
      end
  end.

Definition hours_per_month : float := 730.

(** Lines 102 to 110 of [get_h200_prices]: the average per-GPU monthly
    price in INR, the hourly price in INR and the hourly price in
    USD. *)
Definition usd_hourly (all_prices_inr : list float) (inr_to_usd : float)
  : res (float * float * float) :=
  rbind (truediv (Py.sum all_prices_inr)
                 (float_of_Z (Z.of_nat (List.length all_prices_inr))))
        (fun avg_inr_monthly =>
           let avg_inr_hourly := (avg_inr_monthly / hours_per_month)%float in
           let avg_usd_hourly := (avg_inr_hourly * inr_to_usd)%float in
           Ok (avg_inr_monthly, avg_inr_hourly, avg_usd_hourly)).

(** The dict [get_h200_prices] returns when it has a price. *)
Record result : Type := {
  h200_acecloud : string;
  _inr_monthly : float;
  _exchange_rate : float;
  _all_prices_inr : list float
}.

(** The method loop of [get_h200_prices]: the first non-empty list. *)
Fixpoint methods_loop (methods : list (string * res (list float)))
  : list float :=
  match methods with
  | [] => []
  | (_, Ok (p :: ps)) :: _ => [] ++ p :: ps
  | _ :: rest => methods_loop rest
  end.

(** [get_h200_prices()], given the replies of the rate endpoints, the
    pricing page and what the Selenium method returns; [None] is the
    empty dict. *)
Definition get_h200_prices (replies : list api_reply) (p : page)
  (selenium : list float) : res (option result) :=
  match get_inr_to_usd_rate replies with
  | None => Ok None
  | Some inr_to_usd =>
      let methods :=
        [("AceCloud Pricing Page Scraping"%string, Ok (_try_pricing_page p));
         ("Selenium Scraper"%string, Ok selenium)] in
      match methods_loop methods with
      | [] => Ok None
      | all_prices_inr =>
          rbind (usd_hourly all_prices_inr inr_to_usd)
                (fun stats =>
                   let '(avg_inr_monthly, _, avg_usd_hourly) := stats in
                   Ok (Some {| h200_acecloud :=
                                 ("$" ++ format_2f avg_usd_hourly ++ "/hr")%string;
                               _inr_monthly := avg_inr_monthly;
                               _exchange_rate := inr_to_usd;
                               _all_prices_inr := all_prices_inr |}))
      end
  end.

(** The row of the specification's example: one GPU at 213,500 rupees
    a month. *)
Definition sample_row : table_row :=
  {| cells := 5; mentions_h200 := true; gpu_count := 1;
     monthly_price := Some 213500%float |}.

End AceCloud.

(* ================================================================== *)
(** * Properties of src/push_to_supabase.py *)
(* ================================================================== *)

Unset Implicit Arguments.
Import PushToSupabase.

Section SupabaseScript.
Context {W : Type} {client : Client W}.

(** the gate fails open on anything its body raises *)
Lemma validate_price_catches new_price tolerance (w w1 : W) e t :
  validate_price_try new_price tolerance w = (Raise e, w1, t) ->
  validate_price new_price tolerance w
    = (Ok true, w1, t ++ [Print (MsgValidationError e)]).
Proof.
  intros H. unfold validate_price, Run.try_except. rewrite H. reflexivity.
Qed.

Lemma validate_price_try_unreachable new_price tolerance (w w1 : W) e :
  select_last_prices w = (Raise e, w1) ->
  validate_price_try new_price tolerance w = (Raise e, w1, [SelectLastPrices]).
Proof.
  intros H. unfold validate_price_try, Run.bind, Run.emit, Run.call.
  rewrite H. reflexivity.
Qed.

Lemma validate_price_try_malformed new_price tolerance (w w1 : W) data e :
  select_last_prices w = (Ok data, w1) ->
  (2 <= List.length data)%nat ->
  map_res (fun record => rbind (getitem record "index_price") py_float) data
    = Raise e ->
  validate_price_try new_price tolerance w = (Raise e, w1, [SelectLastPrices]).
Proof.
  intros H L M. unfold validate_price_try, Run.bind, Run.emit, Run.call, Run.lift.
  rewrite H.
  destruct (Nat.ltb_spec (List.length data) 2) as [C|C]; [lia|].
  rewrite M. reflexivity.
Qed.

Lemma validate_price_bootstrap new_price tolerance (w w1 : W) data :
  select_last_prices w = (Ok data, w1) ->
  (List.length data < 2)%nat ->
  validate_price new_price tolerance w
    = (Ok true, w1,
       [SelectLastPrices; Print (MsgNotEnoughHistory (List.length data))]).
Proof.
  intros H L.
  unfold validate_price, Run.try_except, validate_price_try, Run.bind, Run.emit, Run.call.
  rewrite H.
  destruct (Nat.ltb_spec (List.length data) 2) as [C|C]; [|lia].
  reflexivity.
Qed.

Ltac run_step :=
  match goal with
  | |- context [match ?x with _ => _ end] => destruct x eqn:?
  | H : context [match ?x with _ => _ end] |- _ => destruct x eqn:?
  | H : (_, _) = (_, _) |- _ => inversion H; subst; clear H
  end.

Lemma validate_price_try_quiet new_price tolerance (w w1 : W) r t :
  validate_price_try new_price tolerance w = (r, w1, t) -> quiet t.
Proof.
  unfold validate_price_try, Run.bind, Run.emit, Run.call, Run.lift, Run.ret, quiet.
  intros H.
  repeat run_step; simpl; repeat constructor.
Qed.

Lemma validate_price_total new_price tolerance (w : W) :
  exists b w1 t1,
    validate_price new_price tolerance w = (Ok b, w1, t1) /\ quiet t1.
Proof.
  unfold validate_price, Run.try_except.
  destruct (validate_price_try new_price tolerance w) as [[r w1] t1] eqn:E.
  pose proof (validate_price_try_quiet _ _ _ _ _ _ E) as Q.
  destruct r as [b|e].
  - exists b, w1, t1. split; [reflexivity|exact Q].
  - exists true, w1, (t1 ++ [Print (MsgValidationError e)]).
    split; [reflexivity|].
    apply Forall_app. split; [exact Q|repeat constructor].
Qed.

Lemma quiet_not_in (t : list event) ev :
  quiet t -> is_insert ev = true -> ~ In ev t.
Proof.
  intros Q I H. unfold quiet in Q. rewrite Forall_forall in Q.
  specialize (Q _ H). congruence.
Qed.

(** how a run of [push_to_supabase] splits *)
Lemma push_to_supabase_ready env data (w : W) b w1 t1 :
  ready env = true ->
  validate_price (final_index_price data) 0.25 w = (Ok b, w1, t1) ->
  push_to_supabase env data w =
    if b then
      match publish data (final_index_price data) w1 with
      | (Ok b', w2, t2) => (Ok b', w2, t1 ++ t2)
      | (Raise e, w2, t2) => (Ok false, w2, (t1 ++ t2) ++ [Print (MsgPushError e)])
      end
    else (Ok false, w1, t1 ++ [Print MsgValidationFailed]).
Proof.
  unfold ready, push_to_supabase. intros R V.
  apply andb_prop in R. destruct R as [R R3].
  apply andb_prop in R. destruct R as [R1 R2].
  apply negb_true_iff in R1. rewrite R1, R2. simpl negb. cbv iota.
  destruct (create_client_error env); [discriminate|].
  unfold Run.try_except, Run.bind, Run.ret, Run.emit.
  cbn [negb]. cbv beta iota. rewrite V.
  destruct b; cbn [negb]; cbv beta iota.
  - destruct (publish data (final_index_price data) w1) as [[[b'|e] w2] t2];
      cbn [app]; rewrite ?app_nil_r; reflexivity.
  - cbn [app]. rewrite ?app_nil_r. reflexivity.
Qed.

Lemma push_to_supabase_not_ready env data (w : W) :
  ready env = false ->
  exists m, push_to_supabase env data w = (Ok false, w, [Print m]).
Proof.
  unfold ready, push_to_supabase. intros R.
  destruct (unset (SUPABASE_URL env) || unset (SUPABASE_SERVICE_KEY env)).
  - eexists. reflexivity.
  - destruct (supabase_installed env); simpl in *.
    + destruct (create_client_error env); [|discriminate].
      eexists. reflexivity.
    + eexists. reflexivity.
Qed.

(** the record-building loop never talks to the store, and stamps each
    record with the snapshot id it was given *)
Lemma provider_records_loop_spec index_id ts details :
  forall acc (w w' : W) r t,
    provider_records_loop index_id ts details acc w = (r, w', t) ->
    w' = w /\ printed t
    /\ forall rs, r = Ok rs ->
         Forall (fun p => PushToSupabase.index_id p = index_id) acc ->
         Forall (fun p => PushToSupabase.index_id p = index_id) rs.
Proof.
  induction details as [|d rest IH]; intros acc w w' r t H.
  - cbn in H. unfold Run.ret in H. inversion H; subst.
    split; [reflexivity|]. split; [constructor|].
    intros rs E A. inversion E; subst. exact A.
  - cbn [provider_records_loop] in H.
    unfold Run.bind, Run.lift, Run.emit in H.
    destruct (provider_record_of index_id ts d) as [p|e] eqn:P.
    + destruct (provider_records_loop index_id ts rest (acc ++ [p]) w)
        as [[r' w''] t'] eqn:L.
      inversion H; subst; clear H.
      destruct (IH _ _ _ _ _ L) as (-> & Pt & R).
      split; [reflexivity|]. split.
      * cbn. constructor; [eexists; reflexivity|exact Pt].
      * intros rs E A. apply (R rs E).
        apply Forall_app. split; [exact A|].
        constructor; [|constructor].
        unfold provider_record_of, rbind in P.
        repeat match type of P with
               | context [match ?x with _ => _ end] => destruct x
               end; inversion P; reflexivity.
    + inversion H; subst; clear H.
      split; [reflexivity|]. split; [constructor|]. discriminate.
Qed.

Lemma printed_quiet t : printed t -> quiet t.
Proof.
  unfold printed, quiet. intros H. eapply Forall_impl; [|exact H].
  intros ev [m ->]. reflexivity.
Qed.

Lemma push_hyperscaler_prices_outcome data index_id (w1 : W) :
  exists b w2 t2,
    push_hyperscaler_prices data index_id w1 = (Ok b, w2, t2)
    /\ providers_outcome index_id w1 b w2 t2.
Proof.
  unfold push_hyperscaler_prices, Run.try_except.
  unfold Run.bind at 1. unfold Run.emit at 1.
  unfold Run.bind at 1.
  destruct (provider_records_loop index_id (timestamp data)
              (hyperscaler_details data) [] w1) as [[r w'] tl] eqn:L.
  destruct (provider_records_loop_spec _ _ _ _ _ _ _ _ L) as (-> & Pt & R).
  destruct r as [rs|e].
  - specialize (R rs eq_refl (Forall_nil _)).
    destruct rs as [|r0 rs'].
    + unfold Run.bind, Run.emit, Run.ret. cbn [app].
      do 3 eexists. split; [reflexivity|].
      apply NoRecords. exact Pt.
    + unfold Run.bind, Run.emit, Run.ret, Run.call. cbn [app].
      destruct (insert_provider_prices (r0 :: rs') w1) as [[ret|e] w2] eqn:I.
      * destruct ret as [|x ret'].
        -- do 3 eexists. split; [reflexivity|]. cbn [app].
           eapply InsertNoData; eauto.
        -- do 3 eexists. split; [reflexivity|]. cbn [app].
           eapply Inserted with (returned := x :: ret'); eauto. discriminate.
      * do 3 eexists. split; [reflexivity|].
        cbn [app]. rewrite <- app_assoc. cbn [app].
        eapply InsertRaises; eauto.
  - do 3 eexists. split; [reflexivity|]. cbn [app].
    apply RecordsRaise. exact Pt.
Qed.

Lemma publish_numeric data x hc nc (w0 : W) :
  hyperscaler_component data = VNum hc ->
  neocloud_component data = VNum nc ->
  publish data (VNum x) w0 =
    match insert_index (insert_data_of data (VNum x)) w0 with
    | (Raise e, w1) => (Raise e, w1, publish_header data x hc nc)
    | (Ok [], w1) =>
        (Ok false, w1, publish_header data x hc nc ++ [Print MsgNoData])
    | (Ok (first :: _), w1) =>
        let '(r, w2, t2) := push_hyperscaler_prices data (id first) w1 in
        (match r with Ok _ => Ok true | Raise e => Raise e end, w2,
         publish_header data x hc nc ++ Print (MsgPushed (id first)) :: t2)
    end.
Proof.
  intros Hc Nc. unfold publish, publish_header.
  unfold Run.bind, Run.emit, Run.lift, Run.call, Run.ret.
  cbn [insert_data_of i_index_price i_hyperscaler_component
       i_neocloud_component i_timestamp format_fixed].
  rewrite Hc, Nc. cbn [format_fixed app].
  destruct (insert_index (insert_data_of data (VNum x)) w0) as [[ret|e] w1].
  - destruct ret as [|first rest]; [reflexivity|].
    destruct (push_hyperscaler_prices data (id first) w1) as [[[b|e] w2] t2];
      cbn [app]; rewrite ?app_nil_r; reflexivity.
  - reflexivity.
Qed.

(** a price that is not a number stops [publish] at its first
    formatted line, before any request *)
Lemma publish_not_numeric data p (w0 : W) :
  format_fixed p = Raise TypeError ->
  publish data p w0 = (Raise TypeError, w0, [Print MsgPushing]).
Proof.
  intros F. unfold publish.
  unfold Run.bind, Run.emit, Run.lift, Run.call, Run.ret.
  cbn [insert_data_of i_index_price]. rewrite F. reflexivity.
Qed.

(** the gate never rejects a price that is not a number *)
Lemma validate_price_not_numeric p tolerance (w : W) :
  format_fixed p = Raise TypeError ->
  exists w1 t1, validate_price p tolerance w = (Ok true, w1, t1) /\ quiet t1.
Proof.
  intros F.
  destruct (validate_price_total p tolerance w) as (b & w1 & t1 & V & Q).
  exists w1, t1. split; [|exact Q].
  destruct b; [exact V|exfalso].
  assert (C : forall a c, chained_le a p c = Raise TypeError).
  { intros. destruct p; try discriminate; reflexivity. }
  revert V. unfold validate_price, Run.try_except, validate_price_try.
  unfold Run.bind, Run.emit, Run.lift, Run.call, Run.ret.
  destruct (select_last_prices w) as [[data|e] w']; [|discriminate].
  destruct (List.length data <? 2)%nat; [discriminate|].
  destruct (map_res _ data) as [last_prices|e]; [|discriminate].
  destruct (truediv _ _) as [avg|e]; [|discriminate].
  rewrite C. discriminate.
Qed.

End SupabaseScript.

(** C2: [push_to_supabase] sends the snapshot insert only after
    [validate_price] has returned [True] on the new price, and when
    [validate_price] returns [False] it returns [False] having sent no
    insert at all: the store is as the history query left it. *)
Theorem snapshot_insert_only_after_validation
  (W : Type) (client : Client W) (env : environ) (data : index_data) (w : W) :
  let new_price := final_index_price data in
  (forall r w' t d,
      push_to_supabase env data w = (r, w', t) ->
      In (InsertIndex d) t ->
      exists w1 t1 t2,
        validate_price new_price 0.25 w = (Ok true, w1, t1)
        /\ t = t1 ++ t2
        /\ ~ In (InsertIndex d) t1
        /\ In (InsertIndex d) t2)
  /\ (forall w1 t1,
      validate_price new_price 0.25 w = (Ok false, w1, t1) ->
      exists w' t,
        push_to_supabase env data w = (Ok false, w', t)
        /\ Forall (fun ev => is_insert ev = false) t
        /\ (w' = w \/ w' = w1)).
Proof.
  cbv zeta. split.
  - intros r w' t d P I.
    destruct (validate_price_total (final_index_price data) 0.25 w)
      as (b & w1 & t1 & V & Q).
    destruct (ready env) eqn:R.
    + rewrite (push_to_supabase_ready env data w _ _ _ R V) in P.
      assert (N : ~ In (InsertIndex d) t1) by (apply (quiet_not_in _ _ Q); reflexivity).
      destruct b.
      * exists w1, t1.
        destruct (publish data (final_index_price data) w1) as [[[b'|e] w2] t2];
          inversion P; subst; clear P.
        -- exists t2. repeat split; auto.
           apply in_app_or in I. tauto.
        -- exists (t2 ++ [Print (MsgPushError e)]).
           rewrite <- app_assoc in *. repeat split; auto.
           apply in_app_or in I. tauto.
      * inversion P; subst; clear P.
        apply in_app_or in I. destruct I as [I|[I|[]]]; [tauto|discriminate].
    + destruct (push_to_supabase_not_ready env data w R) as [m P'].
      rewrite P' in P. inversion P; subst. destruct I as [I|[]]. discriminate.
  - intros w1 t1 V.
    destruct (validate_price_total (final_index_price data) 0.25 w)
      as (b & w1' & t1' & V' & Q).
    rewrite V in V'. inversion V'; subst; clear V'.
    destruct (ready env) eqn:R.
    + rewrite (push_to_supabase_ready env data w _ _ _ R V).
      exists w1', (t1' ++ [Print MsgValidationFailed]).
      split; [reflexivity|]. split; [|now right].
      apply Forall_app. split; [exact Q|repeat constructor].
    + destruct (push_to_supabase_not_ready env data w R) as [m P'].
      exists w, [Print m]. rewrite P'.
      split; [reflexivity|]. split; [|now left].
      repeat constructor.
Qed.

Lemma snapshot_insert_only_after_validation_witness :
  (exists w1 t1 t2,
      validate_price (VNum 4.3) 0.25 sample_store = (Ok true, w1, t1)
      /\ snd (push_to_supabase sample_env (sample_index (VNum 4.3)) sample_store)
         = t1 ++ t2
      /\ ~ In (InsertIndex (insert_data_of (sample_index (VNum 4.3)) (VNum 4.3)))
             t1
      /\ In (InsertIndex (insert_data_of (sample_index (VNum 4.3)) (VNum 4.3)))
            t2)
  /\ (exists w' t,
      push_to_supabase sample_env (sample_index (VNum 5.20)) sample_store
        = (Ok false, w', t)
      /\ Forall (fun ev => is_insert ev = false) t
      /\ (w' = sample_store \/ w' = sample_store)).
Proof.
  split.
  - apply (proj1 (snapshot_insert_only_after_validation
                    store store_client sample_env (sample_index (VNum 4.3))
                    sample_store)
             (fst (fst (push_to_supabase sample_env (sample_index (VNum 4.3))
                                         sample_store)))
             (snd (fst (push_to_supabase sample_env (sample_index (VNum 4.3))
                                         sample_store)))).
    + destruct (push_to_supabase sample_env (sample_index (VNum 4.3))
                                 sample_store) as [[r w'] t].
      reflexivity.
    + vm_compute. do 8 right. left. reflexivity.
  - apply (proj2 (snapshot_insert_only_after_validation
                    store store_client sample_env (sample_index (VNum 5.20))
                    sample_store)
             sample_store
             [SelectLastPrices;
              Print (MsgValidationCheck 4.00 4.20 4.0999999999999996
                       3.0749999999999997 5.125 0.25 5.20);
              Print (MsgInvalid 26.82926829268294 0.25)]).
    vm_compute. reflexivity.
Defined.

(** ** The acceptance rule *)

Lemma float_of_Z_2 : float_of_Z 2 = 2%float.
Proof. vm_compute. reflexivity. Qed.

(** With two records or more in the store and a mean that is not zero,
    the gate returns exactly the bounds test on the two most recent
    prices. *)
Lemma validate_price_decides_bounds a b rest x :
  PrimFloat.eqb (Py.sum [a; b] / 2) 0 = false ->
  fst (fst (validate_price (VNum x) 0.25
              (store_of (VNum a :: VNum b :: rest))))
  = Ok (spec_within_bounds a b 0.25 x).
Proof.
  intros NZ.
  unfold validate_price, Run.try_except, validate_price_try.
  unfold Run.bind, Run.emit, Run.lift, Run.call, Run.ret.
  cbn [select_last_prices store_client store_select store_of select_fails
       h200_index_prices rows_of firstn map bare_row row i_index_price
       List.length Nat.ltb Nat.leb map_res getitem String.eqb Ascii.eqb
       Bool.eqb rbind py_float].
  change (float_of_Z (Z.of_nat 2)) with (float_of_Z 2).
  rewrite float_of_Z_2.
  unfold truediv at 1.
  change (PrimFloat.eqb 2 0) with false. cbv iota.
  cbn [chained_le float_le_val val_le_float rbind format_fixed val_sub_float].
  unfold truediv. rewrite NZ. cbn [rbind].
  unfold spec_within_bounds.
  destruct (PrimFloat.leb (Py.sum [a; b] / 2 * (1 - 0.25)) x); cbn [fst andb].
  - destruct (PrimFloat.leb x (Py.sum [a; b] / 2 * (1 + 0.25))); reflexivity.
  - reflexivity.
Qed.

(** The example of the specification: last two prices 4.00 and 4.20. *)
Example accepts_5_00 :
  fst (fst (validate_price (VNum 5.00) 0.25 (store_of [VNum 4.00; VNum 4.20])))
  = Ok true.
Proof. vm_compute. reflexivity. Qed.

Example rejects_5_20 :
  fst (fst (validate_price (VNum 5.20) 0.25 (store_of [VNum 4.00; VNum 4.20])))
  = Ok false.
Proof. vm_compute. reflexivity. Qed.

(** C1, at the input where the code departs from it: with the two most
    recent prices [0.0] and [0.0] the mean is [0.0], the bounds are
    [[0.0, 0.0]] and the new price [5.0] lies outside them, yet
    [validate_price] returns [True]: the deviation printed after the
    check divides by the mean, the [ZeroDivisionError] lands in the
    fail-open handler. *)
Theorem zero_mean_history_accepts_out_of_bounds :
  validate_price (VNum 5) 0.25 (store_of [VNum 0; VNum 0])
  = (Ok true, store_of [VNum 0; VNum 0],
     [SelectLastPrices;
      Print (MsgValidationCheck 0 0 0 0 0 0.25 5);
      Print (MsgValidationError ZeroDivisionError)])
  /\ spec_within_bounds 0 0 0.25 5 = false.
Proof. split; vm_compute; reflexivity. Qed.

(** ** Failing open *)

(** C3: whatever the body of [validate_price] raises is caught, printed
    as a [[WARNING]] and answered by [True]; in particular when the
    history query raises (store unreachable) and when one of the
    records it returns has no usable [index_price] (malformed
    records). *)
Theorem validation_gate_fails_open
  (W : Type) (client : Client W) (w w1 : W) (e : exn)
  (new_price : pyval) (tolerance : float) :
  (forall t,
      validate_price_try new_price tolerance w = (Raise e, w1, t) ->
      validate_price new_price tolerance w
        = (Ok true, w1, t ++ [Print (MsgValidationError e)]))
  /\ (history_error w e w1 ->
      validate_price new_price tolerance w
        = (Ok true, w1, [SelectLastPrices; Print (MsgValidationError e)]))
  /\ level_of (MsgValidationError e) = WARNING.
Proof.
  split; [|split; [|reflexivity]].
  - intros t H. apply validate_price_catches. exact H.
  - intros H.
    assert (T : validate_price_try new_price tolerance w
                = (Raise e, w1, [SelectLastPrices])).
    { destruct H as [e w1 S|data e w1 S L M].
      - apply validate_price_try_unreachable. exact S.
      - eapply validate_price_try_malformed; eauto. }
    rewrite (validate_price_catches _ _ _ _ _ _ T). reflexivity.
Qed.

Lemma validation_gate_fails_open_witness :
  validate_price (VNum 9.9) 0.25 outage
    = (Ok true, outage,
       [SelectLastPrices; Print (MsgValidationError ConnectionError)])
  /\ validate_price (VNum 9.9) 0.25 (store_of [VNum 4.0; VNone])
    = (Ok true, store_of [VNum 4.0; VNone],
       [SelectLastPrices; Print (MsgValidationError TypeError)]).
Proof.
  split.
  - apply (validation_gate_fails_open store store_client outage outage
             ConnectionError (VNum 9.9) 0.25%float).
    apply StoreUnreachable. reflexivity.
  - apply (validation_gate_fails_open store store_client
             (store_of [VNum 4.0; VNone]) (store_of [VNum 4.0; VNone])
             TypeError (VNum 9.9) 0.25%float).
    eapply MalformedRecords.
    + reflexivity.
    + simpl. lia.
    + reflexivity.
Defined.

(** ** A missing price *)

(** C10, as amended: when the index data has no [final_index_price]
    the gate still returns [True] (it cannot return [False] on [None]),
    but [push_to_supabase] sends no insert: formatting [None] with
    [:.2f] for the progress line raises [TypeError] before the insert,
    the handler prints the error and the function returns [False]. *)
Theorem missing_price_passes_gate_but_is_not_inserted
  (W : Type) (client : Client W) (env : environ) (data : index_data) (w : W) :
  final_index_price data = VNone ->
  exists w1 t1,
    validate_price VNone 0.25 w = (Ok true, w1, t1)
    /\ Forall (fun ev => is_insert ev = false) t1
    /\ (ready env = true ->
        push_to_supabase env data w
          = (Ok false, w1,
             t1 ++ [Print MsgPushing; Print (MsgPushError TypeError)]))
    /\ (ready env = false ->
        exists m, push_to_supabase env data w = (Ok false, w, [Print m])).
Proof.
  intros N.
  destruct (validate_price_not_numeric VNone 0.25 w eq_refl)
    as (w1 & t1 & V & Q).
  exists w1, t1. split; [exact V|]. split; [exact Q|]. split.
  - intros R.
    rewrite (push_to_supabase_ready env data w true w1 t1 R)
      by (rewrite N; exact V).
    rewrite N, (publish_not_numeric data VNone w1 eq_refl).
    rewrite <- app_assoc. reflexivity.
  - intros R. apply push_to_supabase_not_ready. exact R.
Qed.

Lemma missing_price_passes_gate_but_is_not_inserted_witness :
  exists w1 t1,
    validate_price VNone 0.25 sample_store = (Ok true, w1, t1)
    /\ Forall (fun ev => is_insert ev = false) t1
    /\ (ready sample_env = true ->
        push_to_supabase sample_env (sample_index VNone) sample_store
          = (Ok false, w1,
             t1 ++ [Print MsgPushing; Print (MsgPushError TypeError)]))
    /\ (ready sample_env = false ->
        exists m,
          push_to_supabase sample_env (sample_index VNone) sample_store
            = (Ok false, sample_store, [Print m])).
Proof.
  apply (missing_price_passes_gate_but_is_not_inserted
           store store_client sample_env (sample_index VNone) sample_store).
  reflexivity.
Defined.

(** C10, as stated, fails on the sample store: the comparison with
    [None] raises and the gate accepts, but no snapshot row is
    inserted and the call returns [False]. *)
Lemma missing_price_is_not_published :
  let run := push_to_supabase sample_env (sample_index VNone) sample_store in
  validate_price VNone 0.25 sample_store
    = (Ok true, sample_store,
       [SelectLastPrices; Print (MsgValidationError TypeError)])
  /\ run = (Ok false, sample_store,
            [SelectLastPrices; Print (MsgValidationError TypeError);
             Print MsgPushing; Print (MsgPushError TypeError)])
  /\ ~ (exists d, In (InsertIndex d) (snd run))
  /\ h200_index_prices (snd (fst run)) = h200_index_prices sample_store.
Proof.
  cbv zeta.
  assert (R : push_to_supabase sample_env (sample_index VNone) sample_store
              = (Ok false, sample_store,
                 [SelectLastPrices; Print (MsgValidationError TypeError);
                  Print MsgPushing; Print (MsgPushError TypeError)]))
    by (vm_compute; reflexivity).
  split; [vm_compute; reflexivity|].
  split; [exact R|]. rewrite R. cbn [fst snd]. split; [|reflexivity].
  intros [d I]. cbn [In] in I.
  repeat (destruct I as [I|I]; [discriminate|]). exact I.
Qed.

(** ** The two insert phases *)

Lemma providers_outcome_failure_is_warned (W : Type) (client : Client W)
  index_id (w1 w2 : W) t2 :
  providers_outcome index_id w1 false w2 t2 ->
  exists t m, t2 = t ++ [Print m] /\ level_of m = WARNING.
Proof.
  intros H. inversion H; subst.
  - exists (Print MsgPushingProviders :: tl), (MsgProviderError e). auto.
  - exists (Print MsgPushingProviders :: tl), MsgNoProviderRecords. auto.
  - exists (Print MsgPushingProviders :: tl ++ [InsertProviderPrices rs]),
           (MsgProviderError e).
    split; [|reflexivity]. cbn [app]. rewrite <- app_assoc. reflexivity.
  - exists (Print MsgPushingProviders :: tl ++ [InsertProviderPrices rs]),
           MsgProvidersNoData.
    split; [|reflexivity]. cbn [app]. rewrite <- app_assoc. reflexivity.
Qed.

Lemma providers_outcome_ids (W : Type) (client : Client W)
  index_id (w1 w2 : W) b t2 rs :
  providers_outcome index_id w1 b w2 t2 ->
  In (InsertProviderPrices rs) t2 ->
  Forall (fun p => PushToSupabase.index_id p = index_id) rs.
Proof.
  assert (P : forall tl, printed tl -> ~ In (InsertProviderPrices rs) tl).
  { intros tl Pt. apply quiet_not_in; [apply printed_quiet; exact Pt|reflexivity]. }
  intros H I. inversion H; subst; cbn [In] in I;
    destruct I as [I|I]; try discriminate;
    apply in_app_or in I; destruct I as [I|I];
    try (exfalso; eapply P; eassumption);
    cbn [In] in I;
    repeat match type of I with
           | _ \/ _ => destruct I as [I|I]
           | InsertProviderPrices _ = InsertProviderPrices _ =>
               inversion I; subst; assumption
           | False => destruct I
           | _ => discriminate
           end.
Qed.

(** C5: once the gate has passed and the progress lines are printed,
    everything turns on the snapshot insert.  If it raises or returns
    no row, [push_to_supabase] returns [False] and its trace ends
    there: no observation insert is sent.  If it returns a row, the
    function returns [True] whatever happens next; the observation
    phase sends at most one insert, every record of which carries the
    id of that row, and when that phase fails its last line is a
    [[WARNING]] and nothing is sent after it (the snapshot row stays). *)
Theorem insert_phases_are_asymmetric
  (W : Type) (client : Client W) (env : environ) (data : index_data)
  (w w0 : W) (t0 : list event) (x hc nc : float) :
  ready env = true ->
  final_index_price data = VNum x ->
  hyperscaler_component data = VNum hc ->
  neocloud_component data = VNum nc ->
  validate_price (VNum x) 0.25 w = (Ok true, w0, t0) ->
  let d := insert_data_of data (VNum x) in
  let sent := t0 ++ publish_header data x hc nc in
  (forall e w1,
      insert_index d w0 = (Raise e, w1) ->
      push_to_supabase env data w
        = (Ok false, w1, sent ++ [Print (MsgPushError e)]))
  /\ (forall w1,
      insert_index d w0 = (Ok [], w1) ->
      push_to_supabase env data w = (Ok false, w1, sent ++ [Print MsgNoData]))
  /\ (forall first rest w1,
      insert_index d w0 = (Ok (first :: rest), w1) ->
      exists b w2 t2,
        push_to_supabase env data w
          = (Ok true, w2, sent ++ Print (MsgPushed (id first)) :: t2)
        /\ providers_outcome (id first) w1 b w2 t2
        /\ (forall rs, In (InsertProviderPrices rs) t2 ->
              Forall (fun p => index_id p = id first) rs)
        /\ (b = false ->
              exists t m, t2 = t ++ [Print m] /\ level_of m = WARNING)).
Proof.
  intros R P Hc Nc V. cbv zeta.
  assert (S : push_to_supabase env data w =
              match publish data (VNum x) w0 with
              | (Ok b', w2, t2) => (Ok b', w2, t0 ++ t2)
              | (Raise e, w2, t2) =>
                  (Ok false, w2, (t0 ++ t2) ++ [Print (MsgPushError e)])
              end).
  { rewrite (push_to_supabase_ready env data w true w0 t0 R)
      by (rewrite P; exact V).
    rewrite P. reflexivity. }
  rewrite (publish_numeric data x hc nc w0 Hc Nc) in S.
  split; [|split].
  - intros e w1 I. rewrite I in S. exact S.
  - intros w1 I. rewrite I in S. rewrite S, app_assoc. reflexivity.
  - intros first rest w1 I. rewrite I in S.
    destruct (push_hyperscaler_prices_outcome data (id first) w1)
      as (b & w2 & t2 & H & O).
    rewrite H in S. exists b, w2, t2.
    split; [rewrite S, app_assoc; reflexivity|].
    split; [exact O|]. split.
    + intros rs In_rs. eapply providers_outcome_ids; eassumption.
    + intros ->. eapply providers_outcome_failure_is_warned; eassumption.
Qed.

Lemma insert_phases_are_asymmetric_witness :
  let data := sample_index (VNum 4.3) in
  let d := insert_data_of data (VNum 4.3) in
  let t0 := [SelectLastPrices;
             Print (MsgValidationCheck 4.00 4.20 4.0999999999999996
                      3.0749999999999997 5.125 0.25 4.3);
             Print (MsgValid 4.8780487804878101)] in
  let sent := t0 ++ publish_header data 4.3 2.5 1.6 in
  push_to_supabase sample_env data index_insert_down
    = (Ok false, index_insert_down,
       sent ++ [Print (MsgPushError (LibraryError "APIError"))])
  /\ exists b w2 t2,
       push_to_supabase sample_env data provider_insert_down
         = (Ok true, w2, sent ++ Print (MsgPushed 3) :: t2)
       /\ providers_outcome 3 (snd (store_insert_index d provider_insert_down))
                            b w2 t2
       /\ (forall rs, In (InsertProviderPrices rs) t2 ->
             Forall (fun p => index_id p = 3) rs)
       /\ (b = false ->
             exists t m, t2 = t ++ [Print m] /\ level_of m = WARNING).
Proof.
  cbv zeta. split.
  - assert (V : validate_price (VNum 4.3) 0.25 index_insert_down
                = (Ok true, index_insert_down,
                   [SelectLastPrices;
                    Print (MsgValidationCheck 4.00 4.20 4.0999999999999996
                             3.0749999999999997 5.125 0.25 4.3);
                    Print (MsgValid 4.8780487804878101)]))
      by (vm_compute; reflexivity).
    apply (proj1 (insert_phases_are_asymmetric
                    store store_client sample_env (sample_index (VNum 4.3))
                    index_insert_down index_insert_down _ 4.3 2.5 1.6
                    eq_refl eq_refl eq_refl eq_refl V)).
    reflexivity.
  - assert (V : validate_price (VNum 4.3) 0.25 provider_insert_down
                = (Ok true, provider_insert_down,
                   [SelectLastPrices;
                    Print (MsgValidationCheck 4.00 4.20 4.0999999999999996
                             3.0749999999999997 5.125 0.25 4.3);
                    Print (MsgValid 4.8780487804878101)]))
      by (vm_compute; reflexivity).
    apply (proj2 (proj2 (insert_phases_are_asymmetric
                    store store_client sample_env (sample_index (VNum 4.3))
                    provider_insert_down provider_insert_down _ 4.3 2.5 1.6
                    eq_refl eq_refl eq_refl eq_refl V))
             {| id := 3;
                row := insert_data_of (sample_index (VNum 4.3)) (VNum 4.3) |}
             []).
    reflexivity.
Defined.

(** ** The in-memory store under the publisher *)

Lemma validate_price_world (W : Type) (client : Client W)
  p tolerance (w w1 : W) r t :
  validate_price p tolerance w = (r, w1, t) ->
  exists rS, select_last_prices w = (rS, w1).
Proof.
  unfold validate_price, Run.try_except, validate_price_try.
  unfold Run.bind, Run.emit, Run.lift, Run.call, Run.ret.
  destruct (select_last_prices w) as [[data|e] w'].
  - intros H. exists (Ok data). f_equal.
    destruct (List.length data <? 2)%nat; [inversion H; reflexivity|].
    destruct (map_res _ data) as [last_prices|e1];
      [|inversion H; reflexivity].
    destruct (truediv _ _) as [avg|e2]; [|inversion H; reflexivity].
    destruct (chained_le _ _ _) as [is_valid|e3]; [|inversion H; reflexivity].
    destruct (format_fixed p) as [shown|e4]; [|inversion H; reflexivity].
    destruct (rbind _ _) as [dev|e5]; inversion H; reflexivity.
  - intros H. exists (Raise e). inversion H. reflexivity.
Qed.

Lemma publish_world (W : Type) (client : Client W)
  data p (w0 w2 : W) r t :
  publish data p w0 = (r, w2, t) ->
  w2 = w0
  \/ exists rI w1,
       insert_index (insert_data_of data p) w0 = (rI, w1)
       /\ (w2 = w1
           \/ exists first rest b t2,
                rI = Ok (first :: rest)
                /\ providers_outcome (id first) w1 b w2 t2).
Proof.
  intros H.
  destruct (format_fixed p) as [x|e] eqn:Fp.
  2:{ left. destruct p; try discriminate;
        rewrite publish_not_numeric in H by reflexivity;
        inversion H; reflexivity. }
  destruct p as [|x'|]; try discriminate. inversion Fp; subst x'.
  revert H. unfold publish.
  unfold Run.bind, Run.emit, Run.lift, Run.call, Run.ret.
  cbn [insert_data_of i_index_price i_hyperscaler_component
       i_neocloud_component i_timestamp format_fixed].
  destruct (format_fixed (hyperscaler_component data)) as [hc|e];
    [|intros H; inversion H; left; reflexivity].
  destruct (format_fixed (neocloud_component data)) as [nc|e];
    [|intros H; inversion H; left; reflexivity].
  fold (insert_data_of data (VNum x)).
  destruct (insert_index (insert_data_of data (VNum x)) w0)
    as [[ret|e] w1] eqn:I.
  - destruct ret as [|first rest].
    + intros H. inversion H; subst. right. exists (Ok []), w2. auto.
    + destruct (push_hyperscaler_prices_outcome data (id first) w1)
        as (b & w2' & t2 & Hp & O).
      rewrite Hp. intros H. inversion H; subst.
      right. exists (Ok (first :: rest)), w1. split; [reflexivity|].
      right. exists first, rest, b, t2. auto.
  - intros H. inversion H; subst. right. exists (Raise e), w2. auto.
Qed.

Lemma push_to_supabase_world (W : Type) (client : Client W)
  env data (w w' : W) r t :
  push_to_supabase env data w = (r, w', t) ->
  w' = w
  \/ exists rS w0,
       select_last_prices w = (rS, w0)
       /\ (w' = w0
           \/ exists d rI w1,
                insert_index d w0 = (rI, w1)
                /\ (w' = w1
                    \/ exists first rest b t2,
                         rI = Ok (first :: rest)
                         /\ providers_outcome (id first) w1 b w' t2)).
Proof.
  intros H.
  destruct (ready env) eqn:R.
  - destruct (validate_price_total (final_index_price data) 0.25 w)
      as (b & w0 & t0 & V & _).
    destruct (validate_price_world _ _ _ _ _ _ _ _ V) as [rS S].
    right. exists rS, w0. split; [exact S|].
    rewrite (push_to_supabase_ready env data w b w0 t0 R V) in H.
    destruct b.
    + destruct (publish data (final_index_price data) w0)
        as [[r2 w2] t2] eqn:P.
      assert (w' = w2) by (destruct r2; inversion H; reflexivity). subst w2.
      destruct (publish_world _ _ _ _ _ _ _ _ P) as [->|(rI & w1 & I & C)];
        [left; reflexivity|].
      right. exists (insert_data_of data (final_index_price data)), rI, w1.
      auto.
    + inversion H. left. reflexivity.
  - destruct (push_to_supabase_not_ready env data w R) as [m P].
    rewrite P in H. inversion H. left. reflexivity.
Qed.

Lemma store_insert_index_spec d s rI s1 :
  store_insert_index d s = (rI, s1) ->
  h200_provider_prices s1 = h200_provider_prices s
  /\ ((s1 = s /\ exists e, rI = Raise e)
      \/ exists r, rI = Ok [r]
                   /\ h200_index_prices s1 = r :: h200_index_prices s).
Proof.
  unfold store_insert_index. destruct (insert_index_fails s) as [e|];
    intros H; inversion H; subst; cbn.
  - split; [reflexivity|]. left. eauto.
  - split; [reflexivity|]. right. eauto.
Qed.

Lemma store_insert_providers_spec rs s rP s2 :
  store_insert_providers rs s = (rP, s2) ->
  h200_index_prices s2 = h200_index_prices s
  /\ (h200_provider_prices s2 = h200_provider_prices s
      \/ h200_provider_prices s2 = rev rs ++ h200_provider_prices s).
Proof.
  unfold store_insert_providers. destruct (insert_providers_fails s) as [e|];
    intros H; inversion H; subst; cbn; auto.
Qed.

Lemma providers_outcome_store index_id (s1 s2 : store) b t2 :
  providers_outcome index_id s1 b s2 t2 ->
  h200_index_prices s2 = h200_index_prices s1
  /\ forall p, In p (h200_provider_prices s2) ->
       In p (h200_provider_prices s1) \/ PushToSupabase.index_id p = index_id.
Proof.
  assert (G : forall rs rP,
             Forall (fun p => PushToSupabase.index_id p = index_id) rs ->
             insert_provider_prices rs s1 = (rP, s2) ->
             h200_index_prices s2 = h200_index_prices s1
             /\ forall p, In p (h200_provider_prices s2) ->
                  In p (h200_provider_prices s1)
                  \/ PushToSupabase.index_id p = index_id).
  { intros rs rP F I.
    destruct (store_insert_providers_spec _ _ _ _ I) as [E [K|K]].
    - split; [exact E|]. intros p Hp. rewrite K in Hp. auto.
    - split; [exact E|]. intros p Hp. rewrite K in Hp.
      apply in_app_or in Hp. destruct Hp as [Hp|Hp]; [|auto].
      right. apply in_rev in Hp. rewrite Forall_forall in F. auto. }
  intros H. inversion H; subst; eauto.
Qed.

(** On the in-memory store, whatever fails: a run never removes a
    snapshot row, and never leaves an observation row without its
    snapshot row. *)
Lemma store_keeps_snapshots_and_integrity env data (s s' : store) r t :
  push_to_supabase env data s = (r, s', t) ->
  incl (h200_index_prices s) (h200_index_prices s')
  /\ (referential_integrity s -> referential_integrity s').
Proof.
  intros H.
  destruct (push_to_supabase_world _ _ _ _ _ _ _ _ H)
    as [->|(rS & s0 & S & C)].
  { split; [apply incl_refl|auto]. }
  assert (s0 = s).
  { cbn in S. unfold store_select in S.
    destruct (select_fails s); inversion S; reflexivity. }
  subst s0.
  destruct C as [->|(d & rI & s1 & I & C)].
  { split; [apply incl_refl|auto]. }
  cbn in I.
  destruct (store_insert_index_spec _ _ _ _ I) as [Pv K].
  assert (Inc : incl (h200_index_prices s) (h200_index_prices s1)).
  { destruct K as [[-> _]|(r0 & _ & E)]; [apply incl_refl|].
    rewrite E. apply incl_tl, incl_refl. }
  assert (RI1 : referential_integrity s -> referential_integrity s1).
  { intros RI p Hp. rewrite Pv in Hp. destruct (RI p Hp) as (i & Hi & E).
    exists i. split; [apply Inc; exact Hi|exact E]. }
  destruct C as [->|(first & rest & b & t2 & -> & O)].
  { split; assumption. }
  destruct (providers_outcome_store _ _ _ _ _ O) as [E P].
  destruct K as [[_ [e K]]|(r0 & K & E1)]; [discriminate|].
  inversion K; subst r0 rest.
  split.
  - rewrite E. exact Inc.
  - intros RI p Hp. destruct (P p Hp) as [Old|New].
    + destruct (RI1 RI p Old) as (i & Hi & Ei).
      exists i. rewrite E. auto.
    + exists first. rewrite E, E1. split; [left; reflexivity|auto].
Qed.

(** The observation insert is rejected: the run still returns [True],
    the new snapshot row is in the store, no observation row is, and
    the last line printed is the warning. *)
Example snapshot_survives_failed_observations :
  let run := push_to_supabase sample_env (sample_index (VNum 4.3))
                              provider_insert_down in
  fst (fst run) = Ok true
  /\ map id (h200_index_prices (snd (fst run))) = [3; 2; 1]
  /\ h200_provider_prices (snd (fst run)) = []
  /\ last (snd run) SelectLastPrices
     = Print (MsgProviderError (LibraryError "APIError")).
Proof. cbv zeta. repeat split; vm_compute; reflexivity. Qed.
(* ================================================================== *)
(** * Further properties: the datastore publisher *)
(* ================================================================== *)

Lemma map_res_length {A B : Type} (f : A -> res B) (l : list A) :
  forall bs, map_res f l = Ok bs -> List.length bs = List.length l.
Proof.
  induction l as [|a l IH]; intros bs H; cbn [map_res] in H.
  - inversion H. reflexivity.
  - destruct (f a) as [b|e]; cbn [rbind] in H; [|discriminate].
    destruct (map_res f l) as [bs'|e]; cbn [rbind] in H; [|discriminate].
    inversion H. cbn [List.length]. f_equal. apply IH. reflexivity.
Qed.

Section SupabaseEntry.
Context {W : Type} {client : Client W} {reader : Reader W}.

Lemma push_to_supabase_total env data (w : W) :
  exists b w' t, push_to_supabase env data w = (Ok b, w', t).
Proof.
  destruct (ready env) eqn:R.
  - destruct (validate_price_total (final_index_price data) 0.25 w)
      as (b & w1 & t1 & V & _).
    rewrite (push_to_supabase_ready env data w b w1 t1 R V).
    destruct b; [|eauto].
    destruct (publish data (final_index_price data) w1) as [[[b'|e] w2] t2]; eauto.
  - destruct (push_to_supabase_not_ready env data w R) as [m H]. eauto.
Qed.

(** The record loop against the list comprehension it amounts to. *)
Lemma provider_records_loop_map_res index_id ts details :
  forall acc (w : W),
  exists tl, printed tl
    /\ provider_records_loop index_id ts details acc w
       = (match map_res (provider_record_of index_id ts) details with
          | Ok rs => Ok (acc ++ rs)
          | Raise e => Raise e
          end, w, tl)
    /\ forall rs, map_res (provider_record_of index_id ts) details = Ok rs ->
                  tl = map provider_line rs.
Proof.
  induction details as [|d rest IH]; intros acc w; cbn [provider_records_loop map_res].
  - exists []. split; [constructor|]. split.
    + unfold Run.ret. rewrite app_nil_r. reflexivity.
    + intros rs H. inversion H. reflexivity.
  - unfold Run.bind, Run.lift, Run.emit.
    destruct (provider_record_of index_id ts d) as [r|e]; cbn [rbind].
    + destruct (IH (acc ++ [r]) w) as (tl & P & E & L). rewrite E.
      exists (provider_line r :: tl).
      split; [|split].
      * constructor; [eexists; reflexivity | exact P].
      * destruct (map_res (provider_record_of index_id ts) rest) as [rs|e];
          cbn [rbind app]; [rewrite <- app_assoc|]; reflexivity.
      * intros rs H.
        destruct (map_res (provider_record_of index_id ts) rest) as [rs'|e];
          cbn [rbind] in H; inversion H; subst.
        cbn [map]. f_equal. apply L. reflexivity.
    + exists []. split; [constructor | split; [reflexivity|]].
      intros rs H. discriminate H.
Qed.

Lemma push_hyperscaler_prices_eq data index_id (w : W) :
  let records := map_res (provider_record_of index_id (timestamp data))
                         (hyperscaler_details data) in
  exists tl,
    printed tl
    /\ (forall rs, records = Ok rs -> tl = map provider_line rs)
    /\ push_hyperscaler_prices data index_id w
       = match records with
         | Ok [] =>
             (Ok false, w,
              Print MsgPushingProviders :: tl ++ [Print MsgNoProviderRecords])
         | Ok rs =>
             match insert_provider_prices rs w with
             | (Ok [], w2) =>
                 (Ok false, w2,
                  Print MsgPushingProviders
                    :: tl ++ [InsertProviderPrices rs; Print MsgProvidersNoData])
             | (Ok returned, w2) =>
                 (Ok true, w2,
                  Print MsgPushingProviders
                    :: tl ++ [InsertProviderPrices rs;
                              Print (MsgProvidersPushed (List.length returned))])
             | (Raise e, w2) =>
                 (Ok false, w2,
                  Print MsgPushingProviders
                    :: tl ++ [InsertProviderPrices rs; Print (MsgProviderError e)])
             end
         | Raise e =>
             (Ok false, w,
              Print MsgPushingProviders :: tl ++ [Print (MsgProviderError e)])
         end.
Proof.
  intros records. subst records.
  destruct (provider_records_loop_map_res index_id (timestamp data)
              (hyperscaler_details data) [] w) as (tl & P & E & L).
  exists tl. split; [exact P|]. split; [exact L|].
  unfold push_hyperscaler_prices, Run.try_except.
  unfold Run.bind at 1. unfold Run.emit at 1.
  unfold Run.bind at 1.
  rewrite E. clear E L.
  destruct (map_res (provider_record_of index_id (timestamp data))
              (hyperscaler_details data)) as [[|r rs]|e]; cbn [app].
  - unfold Run.bind, Run.emit, Run.ret. cbn [app]. reflexivity.
  - unfold Run.bind at 1. unfold Run.emit at 1.
    unfold Run.bind at 1. unfold Run.call.
    destruct (insert_provider_prices (r :: rs) w) as [[[|row rows]|e] w2];
      unfold Run.bind, Run.emit, Run.ret; cbn [app];
      rewrite ?app_nil_r, <- ?app_assoc; cbn [app]; reflexivity.
  - unfold Run.bind, Run.emit, Run.ret. cbn [app]. reflexivity.
Qed.

Lemma publish_true_inserts data p (w w2 : W) t :
  publish data p w = (Ok true, w2, t) ->
  In (InsertIndex (insert_data_of data p)) t.
Proof.
  unfold publish.
  unfold Run.bind, Run.emit, Run.lift, Run.call, Run.ret.
  cbn [i_index_price i_hyperscaler_component i_neocloud_component i_timestamp
       insert_data_of].
  destruct (format_fixed p) as [x|e]; [|discriminate].
  destruct (format_fixed (hyperscaler_component data)) as [hc|e]; [|discriminate].
  destruct (format_fixed (neocloud_component data)) as [nc|e]; [|discriminate].
  destruct (insert_index _ w) as [[[|first rest]|e] w1]; try discriminate.
  - destruct (push_hyperscaler_prices data (id first) w1) as [[[b|e] w3] t3];
      intros H; inversion H; subst; cbn; tauto.
Qed.

End SupabaseEntry.

(** X1: [push_to_supabase] never raises: whatever the client does, the
    run ends with a boolean.  [True] is returned only by a run that
    was ready and sent the snapshot insert; a run that is not ready
    (credentials unset or empty, library missing, client not created)
    leaves the datastore alone and only prints. *)
Theorem push_to_supabase_answers_with_a_boolean
  (W : Type) (client : Client W) (env : environ) (data : index_data) (w : W) :
  exists b w' t,
    push_to_supabase env data w = (Ok b, w', t)
    /\ (b = true ->
        ready env = true
        /\ In (InsertIndex (insert_data_of data (final_index_price data))) t)
    /\ (ready env = false -> b = false /\ w' = w /\ printed t).
Proof.
  destruct (ready env) eqn:R.
  - destruct (validate_price_total (final_index_price data) 0.25 w)
      as (b & w1 & t1 & V & _).
    rewrite (push_to_supabase_ready env data w b w1 t1 R V).
    destruct b.
    + destruct (publish data (final_index_price data) w1)
        as [[[b'|e] w2] t2] eqn:P.
      * exists b', w2, (t1 ++ t2). split; [reflexivity|]. split; [|discriminate].
        intros ->. split; [reflexivity|].
        apply in_or_app. right. eapply publish_true_inserts. exact P.
      * eexists _, _, _. split; [reflexivity|]. split; discriminate.
    + eexists _, _, _. split; [reflexivity|]. split; discriminate.
  - destruct (push_to_supabase_not_ready env data w R) as [m H].
    exists false, w, [Print m]. split; [exact H|]. split; [discriminate|].
    intros _. repeat split. constructor; [eexists; reflexivity | constructor].
Qed.

(** X2: the observation phase is all or nothing.  The rounded records
    are built for every detail before anything is sent: when one field
    of one detail is no number, or there is no detail, no observation
    row is inserted and the datastore is left as it was; otherwise one
    insert carries one record per detail, in the order of the details,
    and the result is [True] exactly when that insert returns rows. *)
Theorem observations_are_inserted_together_or_not_at_all
  (W : Type) (client : Client W) (data : index_data) (index_id : Z) (w : W) :
  let records := map_res (provider_record_of index_id (timestamp data))
                         (hyperscaler_details data) in
  let run := push_hyperscaler_prices data index_id w in
  match records with
  | Ok (r :: rs) =>
      exists b m,
        run = (Ok b, snd (insert_provider_prices (r :: rs) w),
               Print MsgPushingProviders
                 :: map provider_line (r :: rs)
                 ++ [InsertProviderPrices (r :: rs); Print m])
        /\ List.length (r :: rs) = List.length (hyperscaler_details data)
        /\ (b = true <->
            exists row rows,
              fst (insert_provider_prices (r :: rs) w) = Ok (row :: rows))
  | _ =>
      fst run = (Ok false, w) /\ quiet (snd run)
  end.
Proof.
  intros records run. subst records run.
  destruct (push_hyperscaler_prices_eq data index_id w) as (tl & P & L & E).
  rewrite E. clear E.
  destruct (map_res (provider_record_of index_id (timestamp data))
              (hyperscaler_details data)) as [[|r rs]|e] eqn:R.
  - cbn [fst snd]. split; [reflexivity|].
    apply printed_quiet. constructor; [eexists; reflexivity|].
    apply Forall_app. split; [exact P|].
    constructor; [eexists; reflexivity | constructor].
  - specialize (L _ eq_refl). subst tl.
    pose proof (map_res_length _ _ _ R) as Len.
    destruct (insert_provider_prices (r :: rs) w) as [[[|row rows]|e] w2];
      cbn [fst snd].
    + exists false, MsgProvidersNoData. split; [reflexivity|].
      split; [exact Len|]. split; [discriminate|].
      intros (row & rows & H). discriminate H.
    + exists true, (MsgProvidersPushed (List.length (row :: rows))).
      split; [reflexivity|]. split; [exact Len|]. split; [eauto | reflexivity].
    + exists false, (MsgProviderError e). split; [reflexivity|].
      split; [exact Len|]. split; [discriminate|].
      intros (row & rows & H). discriminate H.
  - cbn [fst snd]. split; [reflexivity|].
    apply printed_quiet. constructor; [eexists; reflexivity|].
    apply Forall_app. split; [exact P|].
    constructor; [eexists; reflexivity | constructor].
Qed.

Section SupabaseMain.
Context {W : Type} {client : Client W} {reader : Reader W}.

Lemma verify_push_total env (w : W) :
  exists b w1 t, verify_push env w = (Ok b, w1, t) /\ reads_only t.
Proof.
  unfold verify_push, Run.try_except, reads_only.
  cbv [Run.bind Run.emit Run.ret Run.lift Run.raise Run.call].
  destruct (supabase_installed env);
    [|eexists _, _, _; split; [reflexivity | repeat constructor]].
  destruct (create_client_error env);
    [eexists _, _, _; split; [reflexivity | repeat constructor]|].
  destruct (select_latest w) as [[[|latest rest]|e] w1];
    try (eexists _, _, _; split; [reflexivity | repeat constructor]).
  destruct (getitem latest "id");
    [|eexists _, _, _; split; [reflexivity | repeat constructor]].
  destruct (getitem latest "index_price");
    [|eexists _, _, _; split; [reflexivity | repeat constructor]].
  destruct (getitem latest "timestamp");
    [|eexists _, _, _; split; [reflexivity | repeat constructor]].
  destruct (getitem latest "created_at");
    eexists _, _, _; (split; [reflexivity | repeat constructor]).
Qed.

Lemma main_unpriced env file (w : W) :
  priced file = false ->
  exists r t,
    main env file w = (r, w, t)
    /\ r <> Ok 0
    /\ Forall (fun ev => exists m, ev = Say m) t.
Proof.
  intros U. unfold main.
  destruct file as [| |e|[| |[|] data]]; cbn in U.
  - eexists _, _. split; [cbn; reflexivity|]. split; [discriminate|].
    repeat (constructor; [eexists; reflexivity|]). constructor.
  - eexists _, _. split; [cbn; reflexivity|]. split; [discriminate|].
    repeat (constructor; [eexists; reflexivity|]). constructor.
  - eexists _, _. split; [cbn; reflexivity|]. split; [discriminate|].
    repeat (constructor; [eexists; reflexivity|]). constructor.
  - eexists _, _. split; [cbn; reflexivity|]. split; [discriminate|].
    repeat (constructor; [eexists; reflexivity|]). constructor.
  - eexists _, _. split; [cbn; reflexivity|]. split; [discriminate|].
    repeat (constructor; [eexists; reflexivity|]). constructor.
  - destruct (final_index_price data) as [|x|] eqn:F; try discriminate U.
    + eexists _, _. split.
      * cbv [load_index_data Run.bind Run.emit Run.ret Run.lift Run.raise].
        rewrite F. cbn. reflexivity.
      * split; [discriminate|].
        repeat (constructor; [eexists; reflexivity|]). constructor.
    + eexists _, _. split.
      * cbv [load_index_data Run.bind Run.emit Run.ret Run.lift Run.raise].
        rewrite F. cbn. reflexivity.
      * split; [discriminate|].
        repeat (constructor; [eexists; reflexivity|]). constructor.
  - eexists _, _. split; [cbn; reflexivity|]. split; [discriminate|].
    repeat (constructor; [eexists; reflexivity|]). constructor.
Qed.

Lemma main_priced env data x (w : W) b w1 t1 :
  final_index_price data = VNum x ->
  push_to_supabase env data w = (Ok b, w1, t1) ->
  let header := [Say MsgBanner; Say MsgLoading; Say (MsgLoadedIndex x);
                 Say MsgCounts] in
  if b then
    exists w2 tv,
      main env (Holds (Object true data)) w
        = (Ok 0, w2, header ++ map Pushing t1 ++ tv ++ [Say MsgDone])
      /\ reads_only tv
  else
    main env (Holds (Object true data)) w = (Ok 1, w1, header ++ map Pushing t1).
Proof.
  intros F P header. subst header.
  cbv [main load_index_data Run.bind Run.emit Run.ret Run.lift Run.raise
       Run.relabel].
  rewrite F. cbv [format_fixed]. rewrite P.
  destruct b;
    [change (negb true) with false | change (negb false) with true];
    cbv beta iota.
  - destruct (verify_push_total env w1) as (bv & w2 & tv & V & R).
    destruct (negb (unset (SUPABASE_URL env))
              && negb (unset (SUPABASE_SERVICE_KEY env))); cbv beta iota.
    + exists w2, tv. split; [|exact R].
      rewrite V. cbn [app]. rewrite ?app_nil_r. reflexivity.
    + exists w1, []. split; [|constructor].
      cbn [app]. rewrite ?app_nil_r. reflexivity.
  - cbn [app]. rewrite ?app_nil_r. reflexivity.
Qed.

End SupabaseMain.

(** X3: [verify_push] never raises and only reads.  It returns [True]
    exactly when the library is there, the client is created, the
    query for the newest row returns at least one row and that row has
    the four columns printed ([id], [index_price], [timestamp],
    [created_at]); an import error, a failing client or query, an
    empty table and a missing column all end in [False]. *)
Theorem verify_push_reads_and_answers
  (W : Type) (client : Client W) (reader : Reader W) (env : environ) (w : W) :
  exists b w1 t,
    verify_push env w = (Ok b, w1, t)
    /\ reads_only t
    /\ (b = true <->
        supabase_installed env = true
        /\ create_client_error env = None
        /\ exists latest rest,
             select_latest w = (Ok (latest :: rest), w1)
             /\ printable latest = true).
Proof.
  unfold verify_push, Run.try_except, reads_only.
  destruct (supabase_installed env) eqn:I.
  2:{ eexists _, _, _. split; [cbn; reflexivity|]. split.
      - repeat constructor.
      - split; [discriminate|]. intros (H & _). discriminate H. }
  destruct (create_client_error env) as [e|] eqn:C.
  { eexists _, _, _. split; [cbn; reflexivity|]. split.
    - repeat constructor.
    - split; [discriminate|]. intros (_ & H & _). discriminate H. }
  unfold Run.bind at 1. unfold Run.ret at 1.
  unfold Run.bind at 1. unfold Run.ret at 1.
  unfold Run.bind at 1. unfold Run.emit at 1.
  unfold Run.bind at 1. unfold Run.call.
  destruct (select_latest w) as [[[|latest rest]|e] w1] eqn:S.
  - eexists _, _, _. split; [cbn; reflexivity|]. split.
    + repeat constructor.
    + split; [discriminate|]. intros (_ & _ & l & r & H & _). discriminate H.
  - unfold Run.bind, Run.emit, Run.lift, Run.ret.
    destruct (getitem latest "id") as [v1|e1] eqn:G1.
    2:{ eexists _, _, _. split; [cbn; reflexivity|]. split.
        - repeat constructor.
        - split; [discriminate|].
          intros (_ & _ & l & r & H & K). inversion H; subst.
          unfold printable in K. rewrite ?G1, ?G2, ?G3, ?G4 in K.
          discriminate K. }
    destruct (getitem latest "index_price") as [v2|e2] eqn:G2.
    2:{ eexists _, _, _. split; [cbn; reflexivity|]. split.
        - repeat constructor.
        - split; [discriminate|].
          intros (_ & _ & l & r & H & K). inversion H; subst.
          unfold printable in K. rewrite ?G1, ?G2, ?G3, ?G4 in K.
          discriminate K. }
    destruct (getitem latest "timestamp") as [v3|e3] eqn:G3.
    2:{ eexists _, _, _. split; [cbn; reflexivity|]. split.
        - repeat constructor.
        - split; [discriminate|].
          intros (_ & _ & l & r & H & K). inversion H; subst.
          unfold printable in K. rewrite ?G1, ?G2, ?G3, ?G4 in K.
          discriminate K. }
    destruct (getitem latest "created_at") as [v4|e4] eqn:G4.
    2:{ eexists _, _, _. split; [cbn; reflexivity|]. split.
        - repeat constructor.
        - split; [discriminate|].
          intros (_ & _ & l & r & H & K). inversion H; subst.
          unfold printable in K. rewrite ?G1, ?G2, ?G3, ?G4 in K.
          discriminate K. }
    eexists _, _, _. split; [cbn; reflexivity|]. split.
    + repeat constructor.
    + split; [|reflexivity]. intros _. repeat split.
      exists latest, rest. split; [reflexivity|].
      unfold printable. rewrite G1, G2, G3, G4. reflexivity.
  - eexists _, _, _. split; [cbn; reflexivity|]. split.
    + repeat constructor.
    + split; [discriminate|]. intros (_ & _ & l & r & H & _). discriminate H.
Qed.


(** X4: [main] does not reach the datastore without a priced index.
    When the index file is missing, is no JSON, cannot be read, holds a
    value that is false or no object, or holds an object whose
    [final_index_price] is absent or no number, the process does not
    end with status 0, the datastore is as it was and nothing but
    lines was produced: no query, no insert. *)
Theorem main_needs_a_priced_index
  (W : Type) (client : Client W) (reader : Reader W)
  (env : environ) (file : index_file) (w : W) :
  priced file = false ->
  exists r t,
    main env file w = (r, w, t)
    /\ r <> Ok 0
    /\ Forall (fun ev => exists m, ev = Say m) t.
Proof. apply main_unpriced. Qed.

Lemma main_needs_a_priced_index_witness :
  exists r t,
    main sample_env (sample_file VNone) sample_store = (r, sample_store, t)
    /\ r <> Ok 0
    /\ Forall (fun ev => exists m, ev = Say m) t.
Proof.
  exact (main_needs_a_priced_index
           store store_client store_reader sample_env (sample_file VNone)
           sample_store eq_refl).
Defined.

(** X5: with a priced index, the exit status of [main] is the answer
    of [push_to_supabase] and nothing else.  [False] ends the process
    with status 1 before [verify_push] is tried; [True] lets [main]
    return (status 0) after the [DONE] line, whatever the verification
    finds, and what follows the push only reads. *)
Theorem main_exit_status_is_the_push_result
  (W : Type) (client : Client W) (reader : Reader W)
  (env : environ) (data : index_data) (x : float) (w : W) :
  final_index_price data = VNum x ->
  let header := [Say MsgBanner; Say MsgLoading; Say (MsgLoadedIndex x);
                 Say MsgCounts] in
  exists b w1 t1,
    push_to_supabase env data w = (Ok b, w1, t1)
    /\ if b then
         exists w2 tv,
           main env (Holds (Object true data)) w
             = (Ok 0, w2, header ++ map Pushing t1 ++ tv ++ [Say MsgDone])
           /\ reads_only tv
       else
         main env (Holds (Object true data)) w
           = (Ok 1, w1, header ++ map Pushing t1).
Proof.
  intros F header.
  destruct (push_to_supabase_total env data w) as (b & w1 & t1 & P).
  exists b, w1, t1. split; [exact P|].
  exact (main_priced env data x w b w1 t1 F P).
Qed.

Lemma main_exit_status_is_the_push_result_witness :
  let header := [Say MsgBanner; Say MsgLoading; Say (MsgLoadedIndex 5.20);
                 Say MsgCounts] in
  exists b w1 t1,
    push_to_supabase sample_env (sample_index (VNum 5.20)) sample_store
      = (Ok b, w1, t1)
    /\ if b then
         exists w2 tv,
           main sample_env (sample_file (VNum 5.20)) sample_store
             = (Ok 0, w2, header ++ map Pushing t1 ++ tv ++ [Say MsgDone])
           /\ reads_only tv
       else
         main sample_env (sample_file (VNum 5.20)) sample_store
           = (Ok 1, w1, header ++ map Pushing t1).
Proof.
  exact (main_exit_status_is_the_push_result
           store store_client store_reader sample_env
           (sample_index (VNum 5.20)) 5.20 sample_store eq_refl).
Defined.
(* ================================================================== *)
(** * Properties of the oracle publishers *)
(* ================================================================== *)

Import Web3.

(** ** Fees *)

(** C7: for every observed base fee, both publishers set the priority
  fee to 1 gwei and the max fee to twice the greater of the base fee
  and the priority fee. *)
Theorem dynamic_fee_is_twice_the_greater (base_fee : Z) :
let gwei1 := 1000000000 in
PushToContract._build_dynamic_fee base_fee
  = (2 * Z.max base_fee gwei1, gwei1)
/\ ProviderMarkets._build_dynamic_fee base_fee
  = (2 * Z.max base_fee gwei1, gwei1).
Proof.
cbv zeta.
unfold PushToContract._build_dynamic_fee, ProviderMarkets._build_dynamic_fee.
unfold PushToContract.gwei, ProviderMarkets.gwei.
change (10 ^ 9) with 1000000000.
split; f_equal; lia.
Qed.

(** ** Waiting for the receipt *)

Section ContractScript.
Context {W : Type} {node : Node W}.
Variable self : PushToContract.updater.
Import PushToContract.

(** after a submission, [_send_transaction] is the wait and nothing
    else *)
Lemma contract_send_after_submit func gas_limit (w w1 : W) h ts :
  _submit self func gas_limit w = (Ok h, w1, ts) ->
  _send_transaction self func gas_limit w =
    match eth_wait_for_transaction_receipt h 180 w1 with
    | (Ok r, w2) =>
        (Ok (h, r), w2, ts ++ [Rpc (WaitForTransactionReceipt h 180)])
    | (Raise e, w2) =>
        (Raise e, w2, ts ++ [Rpc (WaitForTransactionReceipt h 180)])
    end.
Proof.
  intros S. unfold _send_transaction, Run.bind at 1. rewrite S.
  unfold Run.bind, Run.emit, Run.call, Run.ret, RECEIPT_TIMEOUT.
  destruct (eth_wait_for_transaction_receipt h 180 w1) as [[r|e] w2];
    cbn [app]; rewrite ?app_nil_r; reflexivity.
Qed.

Lemma get_current_price_total (w : W) :
  exists x w1 t, get_current_price self w = (Ok x, w1, t).
Proof.
  unfold get_current_price, Run.try_except, Run.bind, Run.emit, Run.call,
    Run.lift, Run.ret.
  destruct (call_getPrice H200_ASSET_ID w) as [[raw|e] w1].
  - destruct (int_truediv raw _) as [x|e]; do 3 eexists; reflexivity.
  - do 3 eexists; reflexivity.
Qed.

Lemma verify_update_total price_usd (w : W) :
  exists w1 t, verify_update self price_usd w = (Ok tt, w1, t).
Proof.
  unfold verify_update, Run.bind.
  destruct (get_current_price_total w) as (x & w1 & t & ->).
  unfold Run.emit.
  destruct (PrimFloat.ltb _ _); do 2 eexists; reflexivity.
Qed.

Lemma update_price_after_submit price_usd (w w0 w1 : W) n tp h ts :
  prepare_update self price_usd w = (Ok n, w0, tp) ->
  _submit self (updatePrice H200_ASSET_ID n) 100000 w0 = (Ok h, w1, ts) ->
  let asked := tp ++ Bound (updatePrice H200_ASSET_ID n)
                  :: ts ++ [Rpc (WaitForTransactionReceipt h 180)] in
  (forall e w2,
      eth_wait_for_transaction_receipt h 180 w1 = (Raise e, w2) ->
      update_price self price_usd w = (Raise e, w2, asked))
  /\ (forall r w2,
      eth_wait_for_transaction_receipt h 180 w1 = (Ok r, w2) ->
      exists w3 tv,
        update_price self price_usd w
          = (Ok h, w3, asked ++ Print (MsgConfirmed h (gasUsed r)) :: tv)).
Proof.
  intros P S. cbv zeta.
  pose proof (contract_send_after_submit _ _ _ _ _ _ S) as T.
  split.
  - intros e w2 Wt. rewrite Wt in T.
    unfold update_price, Run.bind at 1. rewrite P.
    unfold Run.bind at 1. unfold Run.emit at 1.
    unfold Run.bind at 1. rewrite T. reflexivity.
  - intros r w2 Wt. rewrite Wt in T.
    destruct (verify_update_total price_usd w2) as (w3 & tv & V).
    exists w3, tv.
    unfold update_price, Run.bind at 1. rewrite P.
    unfold Run.bind at 1. unfold Run.emit at 1.
    unfold Run.bind at 1. rewrite T.
    unfold Run.bind, Run.emit, Run.ret. rewrite V.
    cbn [app]. rewrite ?app_nil_r, <- ?app_assoc. cbn [app].
    rewrite <- ?app_assoc. reflexivity.
Qed.

End ContractScript.

Section MarketsScript.
Context {W : Type} {node : Node W}.
Variable self : ProviderMarkets.updater.
Import ProviderMarkets.

Lemma markets_send_after_submit func gas_limit (w w1 : W) h ts :
  _submit self func gas_limit w = (Ok h, w1, ts) ->
  _send_transaction self func gas_limit w =
    match eth_wait_for_transaction_receipt h 180 w1 with
    | (Ok r, w2) =>
        (Ok (h, r), w2, ts ++ [Rpc (WaitForTransactionReceipt h 180)])
    | (Raise e, w2) =>
        (Raise e, w2, ts ++ [Rpc (WaitForTransactionReceipt h 180)])
    end.
Proof.
  intros S. unfold _send_transaction, Run.bind at 1. rewrite S.
  unfold Run.bind, Run.emit, Run.call, Run.ret, RECEIPT_TIMEOUT.
  destruct (eth_wait_for_transaction_receipt h 180 w1) as [[r|e] w2];
    cbn [app]; rewrite ?app_nil_r; reflexivity.
Qed.

Lemma update_single_price_after_submit provider price_usd info n
  (w w1 : W) h ts :
  lookup (upper provider) H200_PROVIDERS = Some info ->
  scaled price_usd = Ok n ->
  _submit self (updatePrice (asset_id info) n) 100000 w = (Ok h, w1, ts) ->
  let asked := Print (MsgUpdatingProvider (name info) (asset_id info) price_usd)
               :: Bound (updatePrice (asset_id info) n)
               :: ts ++ [Rpc (WaitForTransactionReceipt h 180)] in
  (forall e w2,
      eth_wait_for_transaction_receipt h 180 w1 = (Raise e, w2) ->
      update_single_price self provider price_usd w = (Raise e, w2, asked))
  /\ (forall r w2,
      eth_wait_for_transaction_receipt h 180 w1 = (Ok r, w2) ->
      update_single_price self provider price_usd w
        = (Ok h, w2, asked ++ receipt_lines h r)).
Proof.
  intros L Sc S. cbv zeta.
  pose proof (markets_send_after_submit _ _ _ _ _ _ S) as T.
  unfold update_single_price. rewrite L.
  unfold print_receipt, receipt_lines, Run.bind, Run.lift, Run.emit, Run.ret.
  rewrite Sc.
  split.
  - intros e w2 Wt. rewrite Wt in T. rewrite T. reflexivity.
  - intros r w2 Wt. rewrite Wt in T. rewrite T.
    cbn [app]. rewrite ?app_nil_r, <- ?app_assoc. reflexivity.
Qed.

(** the loop of the batch: it never touches the chain, binds no call,
    and extends the two lists in step *)
Lemma batch_loop_spec items :
  forall ids ns (w w' : W) r t,
    batch_loop items ids ns w = (r, w', t) ->
    w' = w /\ bound_calls t = []
    /\ forall ids' ns', r = Ok (ids', ns') ->
         ids' = ids ++ map asset_of items /\ ns' = ns ++ map scaled_of items.
Proof.
  induction items as [|[provider price] rest IH]; intros ids ns w w' r t H.
  - cbn in H. unfold Run.ret in H. inversion H; subst.
    repeat split; try reflexivity;
      inversion H0; subst; cbn; rewrite app_nil_r; reflexivity.
  - cbn [batch_loop] in H.
    destruct (lookup (upper provider) H200_PROVIDERS) as [info|] eqn:L.
    + unfold Run.bind, Run.lift, Run.emit in H.
      destruct (scaled price) as [n|e] eqn:Sc.
      * destruct (batch_loop rest (ids ++ [asset_id info]) (ns ++ [n]) w)
          as [[r' w''] t'] eqn:B.
        inversion H; subst; clear H.
        destruct (IH _ _ _ _ _ _ B) as (-> & Bt & R).
        split; [reflexivity|]. split; [cbn; exact Bt|].
        intros ids' ns' E. destruct (R _ _ E) as [-> ->].
        cbn [map]. unfold asset_of, scaled_of. cbn [fst snd].
        rewrite L, Sc, <- !app_assoc. split; reflexivity.
      * inversion H; subst. repeat split; try reflexivity; discriminate.
    + unfold Run.raise in H. inversion H; subst.
      repeat split; try reflexivity; discriminate.
Qed.

Lemma batch_loop_publishable items :
  Forall publishable items ->
  forall ids ns (w : W),
  exists t, batch_loop items ids ns w
            = (Ok (ids ++ map asset_of items, ns ++ map scaled_of items), w, t).
Proof.
  induction 1 as [|[provider price] rest [[info L] [n Sc]] _ IH];
    intros ids ns w.
  - exists []. cbn. rewrite !app_nil_r. reflexivity.
  - cbn [fst snd] in L, Sc. cbn [batch_loop]. rewrite L.
    unfold Run.bind, Run.lift, Run.emit. rewrite Sc.
    destruct (IH (ids ++ [asset_id info]) (ns ++ [n]) w) as [t B].
    rewrite B. eexists.
    cbn [map]. unfold asset_of at 2, scaled_of at 2. cbn [fst snd].
    rewrite L, Sc, <- !app_assoc. reflexivity.
Qed.

Lemma bound_calls_app (t1 t2 : list event) :
  bound_calls (t1 ++ t2) = bound_calls t1 ++ bound_calls t2.
Proof.
  induction t1 as [|[c|r|m|v] t1 IH]; cbn; rewrite ?IH; reflexivity.
Qed.

Lemma submit_binds_nothing func gas_limit (w w' : W) r t :
  _submit self func gas_limit w = (r, w', t) -> bound_calls t = [].
Proof.
  unfold _submit, Run.bind, Run.emit, Run.call, Run.ret.
  destruct (eth_gas_price w) as [[fee|e] w1];
    [|intros H; inversion H; reflexivity].
  destruct (_build_dynamic_fee fee) as [max_fee max_priority].
  destruct (eth_get_transaction_count _ w1) as [[count|e] w2];
    [|intros H; inversion H; reflexivity].
  destruct (eth_chain_id w2) as [[chain|e] w3];
    [|intros H; inversion H; reflexivity].
  destruct (build_transaction _ _ w3) as [[tx|e] w4];
    [|intros H; inversion H; reflexivity].
  destruct (sign_transaction tx w4) as [[signed|e] w5];
    [|intros H; inversion H; reflexivity].
  destruct (eth_send_raw_transaction signed w5) as [[h|e] w6];
    intros H; inversion H; reflexivity.
Qed.

Lemma send_binds_nothing func gas_limit (w w' : W) r t :
  _send_transaction self func gas_limit w = (r, w', t) -> bound_calls t = [].
Proof.
  unfold _send_transaction, Run.bind at 1.
  destruct (_submit self func gas_limit w) as [[[h|e] w1] ts] eqn:S;
    pose proof (submit_binds_nothing _ _ _ _ _ _ S) as B.
  - unfold Run.bind, Run.emit, Run.call, Run.ret.
    destruct (eth_wait_for_transaction_receipt h RECEIPT_TIMEOUT w1)
      as [[rc|e] w2]; intros H; inversion H; subst;
      rewrite bound_calls_app, B; reflexivity.
  - intros H; inversion H; subst. exact B.
Qed.

Lemma batch_update_prices_after_submit prices ids ns tl (w w1 : W) h ts :
  batch_loop prices [] [] w = (Ok (ids, ns), w, tl) ->
  _submit self (batchUpdatePrices ids ns)
          (50000 + Z.of_nat (List.length ids) * 30000) w = (Ok h, w1, ts) ->
  let asked := Print MsgBatchHeader
               :: tl ++ Print (MsgBatchTotal (List.length ids))
               :: Bound (batchUpdatePrices ids ns)
               :: ts ++ [Rpc (WaitForTransactionReceipt h 180)] in
  (forall e w2,
      eth_wait_for_transaction_receipt h 180 w1 = (Raise e, w2) ->
      batch_update_prices self prices w = (Raise e, w2, asked))
  /\ (forall r w2,
      eth_wait_for_transaction_receipt h 180 w1 = (Ok r, w2) ->
      batch_update_prices self prices w
        = (Ok h, w2, asked ++ receipt_lines h r)).
Proof.
  intros B S. cbv zeta.
  pose proof (markets_send_after_submit _ _ _ _ _ _ S) as T.
  unfold batch_update_prices.
  unfold print_receipt, receipt_lines, Run.bind, Run.lift, Run.emit, Run.ret.
  rewrite B.
  split.
  - intros e w2 Wt. rewrite Wt in T. rewrite T.
    cbn [app]. rewrite ?app_nil_r, <- ?app_assoc. reflexivity.
  - intros r w2 Wt. rewrite Wt in T. rewrite T.
    cbn [app]. rewrite ?app_nil_r, <- ?app_assoc. cbn [app].
    rewrite <- ?app_assoc. reflexivity.
Qed.

(** what [execute_update] binds *)
Lemma update_single_price_binds provider price (w w' : W) r t :
  update_single_price self provider price w = (r, w', t) ->
  bound_calls t = []
  \/ bound_calls t = [updatePrice (asset_of (provider, price))
                                  (scaled_of (provider, price))].
Proof.
  unfold update_single_price, asset_of, scaled_of. cbn [fst snd].
  destruct (lookup (upper provider) H200_PROVIDERS) as [info|];
    [|intros H; inversion H; left; reflexivity].
  unfold Run.bind at 1. unfold Run.lift at 1.
  destruct (scaled price) as [n|e];
    [|intros H; inversion H; left; reflexivity].
  unfold Run.bind at 1. unfold Run.emit at 1.
  unfold Run.bind at 1. unfold Run.emit at 1.
  unfold Run.bind at 1.
  destruct (_send_transaction self (updatePrice (asset_id info) n) 100000 w)
    as [[[[h rc]|e] w1] ts] eqn:S;
    pose proof (send_binds_nothing _ _ _ _ _ _ S) as B.
  - unfold print_receipt, Run.bind, Run.emit, Run.ret.
    intros H; inversion H; subst. right.
    cbn [app bound_calls]. rewrite bound_calls_app, B. reflexivity.
  - intros H; inversion H; subst. right.
    cbn [app bound_calls]. rewrite B. reflexivity.
Qed.

Lemma batch_update_prices_binds prices (w w' : W) r t :
  batch_update_prices self prices w = (r, w', t) ->
  bound_calls t = []
  \/ bound_calls t = [batchUpdatePrices (map asset_of prices)
                                        (map scaled_of prices)].
Proof.
  unfold batch_update_prices.
  unfold Run.bind at 1. unfold Run.emit at 1.
  unfold Run.bind at 1.
  destruct (batch_loop prices [] [] w) as [[[[ids ns]|e] w0] tl] eqn:L;
    destruct (batch_loop_spec _ _ _ _ _ _ _ L) as (-> & Bl & R).
  - destruct (R _ _ eq_refl) as [-> ->]. cbn [app].
    unfold Run.bind at 1. unfold Run.emit at 1.
    unfold Run.bind at 1. unfold Run.emit at 1.
    unfold Run.bind at 1.
    destruct (_send_transaction self _ _ w) as [[[[h rc]|e] w1] ts] eqn:S;
      pose proof (send_binds_nothing _ _ _ _ _ _ S) as B.
    + unfold print_receipt, Run.bind, Run.emit, Run.ret.
      intros H; inversion H; subst. right.
      cbn [app bound_calls]. rewrite bound_calls_app, Bl.
      cbn [app bound_calls]. rewrite bound_calls_app, B. reflexivity.
    + intros H; inversion H; subst. right.
      cbn [app bound_calls]. rewrite bound_calls_app, Bl.
      cbn [app bound_calls]. rewrite B. reflexivity.
  - intros H; inversion H; subst. left. cbn [app bound_calls]. exact Bl.
Qed.

Lemma update_single_price_publishable provider price (w : W) :
  publishable (provider, price) ->
  exists r w' t,
    update_single_price self provider price w = (r, w', t)
    /\ bound_calls t = [updatePrice (asset_of (provider, price))
                                    (scaled_of (provider, price))].
Proof.
  intros [[info L] [n Sc]]. cbn [fst snd] in L, Sc.
  destruct (update_single_price self provider price w) as [[r w'] t] eqn:U.
  exists r, w', t. split; [reflexivity|].
  revert U. unfold update_single_price, asset_of, scaled_of. cbn [fst snd].
  rewrite L. unfold Run.bind at 1. unfold Run.lift at 1. rewrite Sc.
  unfold Run.bind at 1. unfold Run.emit at 1.
  unfold Run.bind at 1. unfold Run.emit at 1.
  unfold Run.bind at 1.
  destruct (_send_transaction self (updatePrice (asset_id info) n) 100000 w)
    as [[[[h rc]|e] w1] ts] eqn:S;
    pose proof (send_binds_nothing _ _ _ _ _ _ S) as B.
  - unfold print_receipt, Run.bind, Run.emit, Run.ret.
    intros H; inversion H; subst.
    cbn [app bound_calls]. rewrite bound_calls_app, B. reflexivity.
  - intros H; inversion H; subst.
    cbn [app bound_calls]. rewrite B. reflexivity.
Qed.

Lemma batch_update_prices_publishable prices (w : W) :
  Forall publishable prices ->
  exists r w' t,
    batch_update_prices self prices w = (r, w', t)
    /\ bound_calls t = [batchUpdatePrices (map asset_of prices)
                                          (map scaled_of prices)].
Proof.
  intros P.
  destruct (batch_update_prices self prices w) as [[r w'] t] eqn:U.
  exists r, w', t. split; [reflexivity|].
  destruct (batch_update_prices_binds _ _ _ _ _ U) as [N|B]; [|exact B].
  exfalso. revert U N. unfold batch_update_prices.
  unfold Run.bind at 1. unfold Run.emit at 1.
  unfold Run.bind at 1.
  destruct (batch_loop_publishable _ P [] [] w) as [tl ->].
  cbn [app].
  unfold Run.bind at 1. unfold Run.emit at 1.
  unfold Run.bind at 1. unfold Run.emit at 1.
  unfold Run.bind at 1.
  destruct (_send_transaction self _ _ w) as [[[[h rc]|e] w1] ts];
    [unfold print_receipt, Run.bind, Run.emit, Run.ret|];
    intros H N; inversion H; subst;
    cbn [app bound_calls] in N; rewrite bound_calls_app in N;
    cbn [bound_calls] in N;
    destruct (bound_calls tl); discriminate N.
Qed.

End MarketsScript.

(** ** The simulated chain

    Waiting there lasts until the transaction is mined or the timeout
    has elapsed, and both publishers wait with 180 seconds. *)

Lemma chain_wait_timing h T c :
  timing c T (chain_wait h T c) (fun r => status r = mined_status c).
Proof.
  unfold timing, chain_wait.
  destruct (mined_after c) as [d|]; [|split; reflexivity].
  destruct (d <=? T); split; try reflexivity.
  eexists. split; reflexivity.
Qed.

Lemma contract_send_on_chain self func gas_limit c :
  timing c 180
    (fst (PushToContract._send_transaction self func gas_limit c))
    (fun sent => fst sent = tx_hash_of c
                 /\ status (snd sent) = mined_status c).
Proof.
  unfold PushToContract._send_transaction, PushToContract._submit.
  unfold Run.bind, Run.emit, Run.call, Run.ret, PushToContract.RECEIPT_TIMEOUT.
  cbn [eth_gas_price eth_get_transaction_count build_transaction
       sign_transaction eth_send_raw_transaction
       eth_wait_for_transaction_receipt chain_node].
  destruct (PushToContract._build_dynamic_fee (base_fee c)) as [mf mp].
  cbn [fst snd].
  unfold timing, chain_wait.
  cbn [mined_after with_mempool mined_status clock].
  destruct (mined_after c) as [d|]; [|split; reflexivity].
  destruct (d <=? 180); cbn [fst snd]; split; try reflexivity.
  eexists. split; [reflexivity|]. split; reflexivity.
Qed.

Lemma markets_send_on_chain self func gas_limit c :
  timing c 180
    (fst (ProviderMarkets._send_transaction self func gas_limit c))
    (fun sent => fst sent = tx_hash_of c
                 /\ status (snd sent) = mined_status c).
Proof.
  unfold ProviderMarkets._send_transaction, ProviderMarkets._submit.
  unfold Run.bind, Run.emit, Run.call, Run.ret, ProviderMarkets.RECEIPT_TIMEOUT.
  cbn [eth_gas_price eth_get_transaction_count build_transaction
       sign_transaction eth_send_raw_transaction eth_chain_id
       eth_wait_for_transaction_receipt chain_node].
  destruct (ProviderMarkets._build_dynamic_fee (base_fee c)) as [mf mp].
  cbn [fst snd].
  unfold timing, chain_wait.
  cbn [mined_after with_mempool mined_status clock].
  destruct (mined_after c) as [d|]; [|split; reflexivity].
  destruct (d <=? 180); cbn [fst snd]; split; try reflexivity.
  eexists. split; [reflexivity|]. split; reflexivity.
Qed.

(** What each publisher does once a transaction is submitted: it
    waits for the receipt with a timeout of 180 seconds.  Whatever
    that wait raises (a timeout raises [TimeExhausted]) is raised to
    the caller, so a timeout is reported as a failure.  A receipt is
    returned to the caller as a success whatever its status:
    [update_price] does not read the status, [update_single_price] and
    [batch_update_prices] print it ([Status: Failed] when it is not 1)
    and return the transaction hash all the same.  On the simulated
    chain the wait of [_send_transaction] ends when the transaction is
    mined, if that is within 180 seconds, and after 180 seconds with
    [TimeExhausted] otherwise. *)
Theorem timeout_is_a_failure_status_is_not (W : Type) (node : Node W) :
  (forall self price_usd (w w0 w1 : W) n tp h ts,
      PushToContract.prepare_update self price_usd w = (Ok n, w0, tp) ->
      PushToContract._submit
        self (updatePrice PushToContract.H200_ASSET_ID n) 100000 w0
        = (Ok h, w1, ts) ->
      (forall e w2,
          eth_wait_for_transaction_receipt h 180 w1 = (Raise e, w2) ->
          fst (fst (PushToContract.update_price self price_usd w)) = Raise e)
      /\ (forall r w2,
          eth_wait_for_transaction_receipt h 180 w1 = (Ok r, w2) ->
          fst (fst (PushToContract.update_price self price_usd w)) = Ok h))
  /\ (forall self provider price_usd info n (w w1 : W) h ts,
      ProviderMarkets.lookup (upper provider) ProviderMarkets.H200_PROVIDERS
        = Some info ->
      ProviderMarkets.scaled price_usd = Ok n ->
      ProviderMarkets._submit
        self (updatePrice (ProviderMarkets.asset_id info) n) 100000 w
        = (Ok h, w1, ts) ->
      (forall e w2,
          eth_wait_for_transaction_receipt h 180 w1 = (Raise e, w2) ->
          fst (fst (ProviderMarkets.update_single_price
                      self provider price_usd w)) = Raise e)
      /\ (forall r w2,
          eth_wait_for_transaction_receipt h 180 w1 = (Ok r, w2) ->
          exists t,
            ProviderMarkets.update_single_price self provider price_usd w
              = (Ok h, w2,
                 t ++ [ProviderMarkets.Print
                         (ProviderMarkets.MsgStatus (status r =? 1))])))
  /\ (forall self prices ids ns tl (w w1 : W) h ts,
      ProviderMarkets.batch_loop prices [] [] w = (Ok (ids, ns), w, tl) ->
      ProviderMarkets._submit
        self (batchUpdatePrices ids ns)
        (50000 + Z.of_nat (List.length ids) * 30000) w
        = (Ok h, w1, ts) ->
      (forall e w2,
          eth_wait_for_transaction_receipt h 180 w1 = (Raise e, w2) ->
          fst (fst (ProviderMarkets.batch_update_prices self prices w))
            = Raise e)
      /\ (forall r w2,
          eth_wait_for_transaction_receipt h 180 w1 = (Ok r, w2) ->
          exists t,
            ProviderMarkets.batch_update_prices self prices w
              = (Ok h, w2,
                 t ++ [ProviderMarkets.Print
                         (ProviderMarkets.MsgStatus (status r =? 1))])))
  /\ (forall self func gas_limit c,
      timing c 180
        (fst (PushToContract._send_transaction self func gas_limit c))
        (fun sent => fst sent = tx_hash_of c
                     /\ status (snd sent) = mined_status c))
  /\ (forall self func gas_limit c,
      timing c 180
        (fst (ProviderMarkets._send_transaction self func gas_limit c))
        (fun sent => fst sent = tx_hash_of c
                     /\ status (snd sent) = mined_status c)).
Proof.
  split; [|split; [|split; [|split]]];
    [| | |exact contract_send_on_chain|exact markets_send_on_chain].
  - intros self price_usd w w0 w1 n tp h ts P S.
    destruct (update_price_after_submit self price_usd _ _ _ _ _ _ _ P S)
      as [Ra Ok_].
    split.
    + intros e w2 Wt. rewrite (Ra e w2 Wt). reflexivity.
    + intros r w2 Wt. destruct (Ok_ r w2 Wt) as (w3 & tv & ->). reflexivity.
  - intros self provider price_usd info n w w1 h ts L Sc S.
    destruct (update_single_price_after_submit
                self provider price_usd info n _ _ _ _ L Sc S) as [Ra Ok_].
    split.
    + intros e w2 Wt. rewrite (Ra e w2 Wt). reflexivity.
    + intros r w2 Wt. rewrite (Ok_ r w2 Wt).
      unfold ProviderMarkets.receipt_lines. eexists.
      change [ProviderMarkets.Print (ProviderMarkets.MsgTxHash h);
              ProviderMarkets.Print (ProviderMarkets.MsgGasUsed (gasUsed r));
              ProviderMarkets.Print (ProviderMarkets.MsgStatus (status r =? 1))]
        with ([ProviderMarkets.Print (ProviderMarkets.MsgTxHash h);
               ProviderMarkets.Print (ProviderMarkets.MsgGasUsed (gasUsed r))]
              ++ [ProviderMarkets.Print
                    (ProviderMarkets.MsgStatus (status r =? 1))]).
      rewrite app_assoc. reflexivity.
  - intros self prices ids ns tl w w1 h ts B S.
    destruct (batch_update_prices_after_submit
                self prices ids ns tl _ _ _ _ B S) as [Ra Ok_].
    split.
    + intros e w2 Wt. rewrite (Ra e w2 Wt). reflexivity.
    + intros r w2 Wt. rewrite (Ok_ r w2 Wt).
      unfold ProviderMarkets.receipt_lines. eexists.
      change [ProviderMarkets.Print (ProviderMarkets.MsgTxHash h);
              ProviderMarkets.Print (ProviderMarkets.MsgGasUsed (gasUsed r));
              ProviderMarkets.Print (ProviderMarkets.MsgStatus (status r =? 1))]
        with ([ProviderMarkets.Print (ProviderMarkets.MsgTxHash h);
               ProviderMarkets.Print (ProviderMarkets.MsgGasUsed (gasUsed r))]
              ++ [ProviderMarkets.Print
                    (ProviderMarkets.MsgStatus (status r =? 1))]).
      rewrite app_assoc. reflexivity.
Qed.

(** ** One call or a batch *)

(** C6: with exactly one pair, [main] takes [update_single_price] and
    the only contract function bound is [updatePrice] on that pair;
    with two or more it takes [batch_update_prices] and the only one
    bound is [batchUpdatePrices] on two arrays, the asset identifiers
    and the scaled prices of the pairs in order, each as long as the
    set of pairs.  The call is bound whenever the pairs can be
    published (known providers, prices with an integer scaled value);
    otherwise the path raises before binding anything. *)
Theorem one_pair_single_call_more_pairs_batched
  (W : Type) (node : Node W) (self : ProviderMarkets.updater)
  (prices : list (string * float)) (w : W) :
  let run := ProviderMarkets.execute_update self prices w in
  let bound := ProviderMarkets.bound_calls (snd run) in
  let asset_ids := map ProviderMarkets.asset_of prices in
  let new_prices := map ProviderMarkets.scaled_of prices in
  (forall pair, prices = [pair] ->
      run = ProviderMarkets.update_single_price self (fst pair) (snd pair) w
      /\ (bound = []
          \/ bound = [updatePrice (ProviderMarkets.asset_of pair)
                                  (ProviderMarkets.scaled_of pair)]))
  /\ ((2 <= List.length prices)%nat ->
      run = ProviderMarkets.batch_update_prices self prices w
      /\ (bound = [] \/ bound = [batchUpdatePrices asset_ids new_prices]))
  /\ (prices <> [] -> Forall ProviderMarkets.publishable prices ->
      bound <> [])
  /\ List.length asset_ids = List.length prices
  /\ List.length new_prices = List.length prices.
Proof.
  cbv zeta. split; [|split; [|split; [|split]]].
  - intros [provider price] ->. cbn [fst snd].
    unfold ProviderMarkets.execute_update. cbn [List.length Nat.eqb].
    split; [reflexivity|].
    destruct (ProviderMarkets.update_single_price self provider price w)
      as [[r w'] t] eqn:U. cbn [snd].
    exact (update_single_price_binds self _ _ _ _ _ _ U).
  - intros L.
    assert (E : ProviderMarkets.execute_update self prices w
                = ProviderMarkets.batch_update_prices self prices w).
    { unfold ProviderMarkets.execute_update.
      destruct (Nat.eqb_spec (List.length prices) 1) as [C|C]; [lia|].
      reflexivity. }
    rewrite E. split; [reflexivity|].
    destruct (ProviderMarkets.batch_update_prices self prices w)
      as [[r w'] t] eqn:U. cbn [snd].
    exact (batch_update_prices_binds self _ _ _ _ _ U).
  - intros NE P.
    destruct prices as [|[provider price] rest]; [congruence|].
    destruct rest as [|pair' rest].
    + unfold ProviderMarkets.execute_update. cbn [List.length Nat.eqb].
      inversion P as [|x l Pp _]; subst.
      destruct (update_single_price_publishable self provider price w Pp)
        as (r & w' & t & -> & B).
      cbn [snd]. rewrite B. discriminate.
    + unfold ProviderMarkets.execute_update. cbn [List.length Nat.eqb].
      destruct (batch_update_prices_publishable self _ w P)
        as (r & w' & t & -> & B).
      cbn [snd]. rewrite B. discriminate.
  - apply length_map.
  - apply length_map.
Qed.

Lemma one_pair_single_call_more_pairs_batched_witness :
  let self := ProviderMarkets.sample_updater in
  let c := sample_chain (Some 12) 1 in
  let one := [("aws"%string, 2.65%float)] in
  let two := [("AWS"%string, 2.65%float); ("gcp"%string, 4.55%float)] in
  ProviderMarkets.bound_calls
    (snd (ProviderMarkets.execute_update self one c)) <> []
  /\ ProviderMarkets.bound_calls
       (snd (ProviderMarkets.execute_update self two c)) <> []
  /\ ProviderMarkets.execute_update self two c
     = ProviderMarkets.batch_update_prices self two c.
Proof.
  cbv zeta.
  assert (P : forall k v n info,
             ProviderMarkets.lookup (upper k) ProviderMarkets.H200_PROVIDERS
               = Some info ->
             ProviderMarkets.scaled v = Ok n ->
             ProviderMarkets.publishable (k, v)).
  { intros k v n info L S. split; [exists info; exact L|exists n; exact S]. }
  split; [|split].
  - apply (proj1 (proj2 (proj2 (one_pair_single_call_more_pairs_batched
             chain chain_node ProviderMarkets.sample_updater
             [("aws"%string, 2.65%float)] (sample_chain (Some 12) 1)))));
      [discriminate|].
    constructor; [|constructor].
    eapply P; vm_compute; reflexivity.
  - apply (proj1 (proj2 (proj2 (one_pair_single_call_more_pairs_batched
             chain chain_node ProviderMarkets.sample_updater
             [("AWS"%string, 2.65%float); ("gcp"%string, 4.55%float)]
             (sample_chain (Some 12) 1)))));
      [discriminate|].
    constructor; [|constructor; [|constructor]];
      eapply P; vm_compute; reflexivity.
  - apply (proj1 (proj2 (one_pair_single_call_more_pairs_batched
             chain chain_node ProviderMarkets.sample_updater
             [("AWS"%string, 2.65%float); ("gcp"%string, 4.55%float)]
             (sample_chain (Some 12) 1)))).
    cbn [List.length]. lia.
Defined.

(** The calls of the two paths on the sample chain. *)
Example single_call_on_sample_chain :
  ProviderMarkets.bound_calls
    (snd (ProviderMarkets.execute_update
            ProviderMarkets.sample_updater [("aws"%string, 2.65%float)]
            (sample_chain (Some 12) 1)))
  = [updatePrice
       "0xb377854a672b5274c99b24e7fe27d9661c60c8b697ca4f974208162655716b3e"
       2650000000000000000].
Proof. vm_compute. reflexivity. Qed.

Example batched_call_on_sample_chain :
  ProviderMarkets.bound_calls
    (snd (ProviderMarkets.execute_update
            ProviderMarkets.sample_updater
            [("AWS"%string, 2.65%float); ("gcp"%string, 4.55%float)]
            (sample_chain (Some 12) 1)))
  = [batchUpdatePrices
       ["0xb377854a672b5274c99b24e7fe27d9661c60c8b697ca4f974208162655716b3e";
        "0x0ba2d87db04ca970c41ab4334516ce12e74356d71ee96e228fb1ba5d519aaaf4"]%string
       [2650000000000000000; 4550000000000000000]].
Proof. vm_compute. reflexivity. Qed.

(** An unknown provider stops the batch before any call is bound. *)
Example unknown_provider_binds_nothing :
  ProviderMarkets.execute_update
    ProviderMarkets.sample_updater
    [("AWS"%string, 2.65%float); ("FOO"%string, 4.55%float)]
    (sample_chain (Some 12) 1)
  = (Raise ValueError, sample_chain (Some 12) 1,
     [ProviderMarkets.Print ProviderMarkets.MsgBatchHeader;
      ProviderMarkets.Print (ProviderMarkets.MsgBatchLine "AWS" 2.65)]).
Proof. vm_compute. reflexivity. Qed.

Lemma timeout_is_a_failure_status_is_not_witness :
  fst (fst (ProviderMarkets.update_single_price
              ProviderMarkets.sample_updater "AWS" 2.65
              (sample_chain (Some 200) 1)))
  = Raise TimeExhausted
  /\ (exists t,
        ProviderMarkets.update_single_price
          ProviderMarkets.sample_updater "AWS" 2.65 (sample_chain (Some 12) 0)
        = (Ok "0xa1"%string,
           snd (chain_wait "0xa1" 180
                  (snd (fst (ProviderMarkets._submit
                               ProviderMarkets.sample_updater
                               (updatePrice
                                  (ProviderMarkets.asset_of
                                     ("AWS"%string, 2.65%float))
                                  2650000000000000000)
                               100000 (sample_chain (Some 12) 0))))),
           t ++ [ProviderMarkets.Print (ProviderMarkets.MsgStatus false)]))
  /\ fst (fst (PushToContract.update_price
                 PushToContract.sample_updater 3.6 (sample_chain None 1)))
     = Raise TimeExhausted.
Proof.
  pose (aws := {| ProviderMarkets.asset_id :=
                    ProviderMarkets.asset_of ("AWS"%string, 2.65%float);
                  ProviderMarkets.name := "AWS H200";
                  ProviderMarkets.default_price := 2.65 |}).
  assert (L : ProviderMarkets.lookup (upper "AWS")
                                     ProviderMarkets.H200_PROVIDERS
              = Some aws) by (vm_compute; reflexivity).
  assert (Sc : ProviderMarkets.scaled 2.65 = Ok 2650000000000000000)
    by (vm_compute; reflexivity).
  split; [|split].
  - pose (c := sample_chain (Some 200) 1).
    pose (run := ProviderMarkets._submit
                   ProviderMarkets.sample_updater
                   (updatePrice (ProviderMarkets.asset_id aws)
                                2650000000000000000)
                   100000 c).
    assert (S : run = (Ok "0xa1"%string, snd (fst run), snd run))
      by (vm_compute; reflexivity).
    pose proof (proj1 (proj1 (proj2 (timeout_is_a_failure_status_is_not
                                       chain chain_node))
                         ProviderMarkets.sample_updater "AWS"%string
                         2.65%float aws 2650000000000000000 c
                         (snd (fst run)) "0xa1"%string (snd run) L Sc S))
      as T.
    apply (T TimeExhausted (snd (chain_wait "0xa1" 180 (snd (fst run))))).
    vm_compute. reflexivity.
  - pose (c := sample_chain (Some 12) 0).
    pose (run := ProviderMarkets._submit
                   ProviderMarkets.sample_updater
                   (updatePrice (ProviderMarkets.asset_id aws)
                                2650000000000000000)
                   100000 c).
    assert (S : run = (Ok "0xa1"%string, snd (fst run), snd run))
      by (vm_compute; reflexivity).
    pose proof (proj2 (proj1 (proj2 (timeout_is_a_failure_status_is_not
                                       chain chain_node))
                         ProviderMarkets.sample_updater "AWS"%string
                         2.65%float aws 2650000000000000000 c
                         (snd (fst run)) "0xa1"%string (snd run) L Sc S))
      as T.
    apply (T {| status := 0; gasUsed := 48211 |}
             (snd (chain_wait "0xa1" 180 (snd (fst run))))).
    vm_compute. reflexivity.
  - pose (c := sample_chain None 1).
    pose (before := PushToContract.prepare_update
                      PushToContract.sample_updater 3.6%float c).
    pose (run := PushToContract._submit
                   PushToContract.sample_updater
                   (updatePrice PushToContract.H200_ASSET_ID
                                3600000000000000000)
                   100000 c).
    assert (P : before = (Ok 3600000000000000000, c, snd before))
      by (vm_compute; reflexivity).
    assert (S : run = (Ok "0xa1"%string, snd (fst run), snd run))
      by (vm_compute; reflexivity).
    pose proof (proj1 (proj1 (timeout_is_a_failure_status_is_not
                                chain chain_node)
                         PushToContract.sample_updater 3.6%float c c
                         (snd (fst run)) 3600000000000000000 (snd before)
                         "0xa1"%string (snd run) P S))
      as T.
    apply (T TimeExhausted (snd (chain_wait "0xa1" 180 (snd (fst run))))).
    vm_compute. reflexivity.
Defined.

(** C4, at the input where the code departs from it: a transaction
    that is mined with status 0.  Each publisher returns the
    transaction hash as on success; the provider markets print
    [Status: Failed] and go on.  Each [main] then prints its success
    banner and exits with status 0, although the price on chain is the
    old one: the non-success status is not reported as a failure. *)
Theorem reverted_transaction_is_returned_as_success :
  let c := sample_chain (Some 12) 0 in
  let two := [("AWS"%string, 2.65%float); ("GCP"%string, 4.55%float)] in
  let contract_run :=
    PushToContract.main_update PushToContract.sample_updater 3.6 c in
  let markets_run :=
    ProviderMarkets.main_update (calendar := four_digit_years)
                                ProviderMarkets.sample_updater two c in
  fst (fst (PushToContract.update_price PushToContract.sample_updater 3.6 c))
    = Ok "0xa1"%string
  /\ fst (fst contract_run) = Ok 0
  /\ In (PushToContract.Print (PushToContract.MsgSuccess "0xa1"))
        (snd contract_run)
  /\ oracle (snd (fst contract_run)) = oracle c
  /\ fst (fst (ProviderMarkets.update_single_price
                 ProviderMarkets.sample_updater "AWS" 2.65 c))
     = Ok "0xa1"%string
  /\ fst (fst (ProviderMarkets.batch_update_prices
                 ProviderMarkets.sample_updater two c))
     = Ok "0xa1"%string
  /\ fst (fst markets_run) = Ok 0
  /\ In (ProviderMarkets.Print (ProviderMarkets.MsgStatus false))
        (snd markets_run)
  /\ In (ProviderMarkets.Print (ProviderMarkets.MsgSuccess "0xa1"))
        (snd markets_run)
  /\ oracle (snd (fst markets_run)) = oracle c.
Proof.
  cbv zeta.
  repeat match goal with |- _ /\ _ => split end;
    try (vm_compute; reflexivity);
    vm_compute; repeat (try (left; reflexivity); right).
Qed.
(* ================================================================== *)
(** * Further properties: the chain publishers *)
(* ================================================================== *)

(** ** The update log *)

(** X6: the update log never grows beyond 100 entries and always ends
    with the update just made.  What is written is the old list with
    the new entry appended, cut at the front: nothing is reordered,
    and nothing is dropped while the old list has fewer than 100
    entries.  A log file that is missing, cannot be read or holds no
    list is replaced by a log of the new entry alone. *)
Theorem update_log_keeps_the_last_hundred
  (entry : Type) (file : UpdateLog.log_file entry) (log_entry : entry) :
  let old := UpdateLog.read_logs file in
  let written := UpdateLog.logs_to_write file log_entry in
  (List.length written <= 100)%nat
  /\ (exists kept, written = kept ++ [log_entry])
  /\ (exists dropped,
        old ++ [log_entry] = dropped ++ written
        /\ List.length dropped = (List.length old + 1 - 100)%nat)
  /\ match file with
     | UpdateLog.Logs _ => True
     | _ => written = [log_entry]
     end.
Proof.
  intros old written. subst old written.
  unfold UpdateLog.logs_to_write, last_items.
  set (old := UpdateLog.read_logs file).
  rewrite length_app. cbn [List.length].
  repeat split.
  - rewrite length_skipn, length_app. cbn [List.length]. lia.
  - exists (skipn (List.length old + 1 - 100) old).
    rewrite skipn_app.
    replace (List.length old + 1 - 100 - List.length old)%nat with 0%nat by lia.
    reflexivity.
  - exists (firstn (List.length old + 1 - 100) (old ++ [log_entry])).
    split.
    + symmetry. apply firstn_skipn.
    + rewrite length_firstn, length_app. cbn [List.length]. lia.
  - destruct file; try exact I; reflexivity.
Qed.

(** ** What is submitted *)

(** Case analysis on the calls of a run, innermost first. *)
Ltac run_cases :=
  repeat match goal with
  | |- context [match ?x with _ => _ end] =>
      lazymatch x with
      | context [match _ with _ => _ end] => fail
      | _ => destruct x
      end
  end.

Section ContractSends.
Context {W : Type} {node : Node W}.
Variable self : PushToContract.updater.
Import PushToContract.

Lemma contract_main_update_sends price (w : W) :
  (List.length
     (sent_transactions (snd (main_update self price w))) <= 1)%nat.
Proof.
  cbv [main_update update_price prepare_update get_current_price verify_update
       log_update _send_transaction _submit
       Run.try_except Run.bind Run.emit Run.ret Run.lift Run.call Run.raise].
  run_cases; cbn [snd app sent_transactions List.length]; lia.
Qed.

(** [main_update] in terms of [update_price] and of the block number
    read for the log. *)
Lemma contract_main_update_eq price (w : W) :
  main_update self price w
  = match update_price self price w with
    | (Ok h, w1, tu) =>
        match eth_block_number w1 with
        | (Ok _, w2) =>
            (Ok 0, w2,
             tu ++ [Rpc BlockNumber; Print MsgLogged; Print (MsgSuccess h)])
        | (Raise e, w2) =>
            (Ok 1, w2, tu ++ [Rpc BlockNumber; Print (MsgUpdateFailed e)])
        end
    | (Raise e, w1, tu) => (Ok 1, w1, tu ++ [Print (MsgUpdateFailed e)])
    end.
Proof.
  unfold main_update, Run.try_except.
  unfold Run.bind at 1.
  destruct (update_price self price w) as [[[h|e] w1] tu]; [|reflexivity].
  cbv [log_update Run.bind Run.emit Run.ret Run.call].
  destruct (eth_block_number w1) as [[n|e] w2]; cbn [app];
    rewrite <- ?app_assoc; reflexivity.
Qed.

End ContractSends.

Section MarketsSends.
Context {W : Type} {node : Node W} {views : Views W} {calendar : Calendar}.
Variable self : ProviderMarkets.updater.
Import ProviderMarkets.

Lemma markets_sent_app (t1 t2 : list event) :
  sent_transactions (t1 ++ t2) = sent_transactions t1 ++ sent_transactions t2.
Proof.
  induction t1 as [|[c|[]|m|v] t1 IH]; cbn [app sent_transactions];
    rewrite ?IH; reflexivity.
Qed.

Lemma markets_reads_send_nothing (t : list event) :
  reads_and_prints t -> sent_transactions t = [].
Proof.
  induction 1 as [|ev t [[m ->]|[v ->]] _ IH]; [reflexivity | exact IH..].
Qed.

Lemma markets_printed_reads (t : list event) :
  printed t -> reads_and_prints t.
Proof.
  intros P. eapply Forall_impl; [|exact P]. intros ev H. left. exact H.
Qed.

Lemma markets_reads_app (t1 t2 : list event) :
  reads_and_prints t1 -> reads_and_prints t2 -> reads_and_prints (t1 ++ t2).
Proof. intros H1 H2. apply Forall_app. split; assumption. Qed.

Lemma markets_reads_map (t : list view) : reads_and_prints (map Read t).
Proof.
  induction t as [|v t IH]; constructor; [right; eexists; reflexivity|exact IH].
Qed.

Lemma markets_printed_sends_nothing (t : list event) :
  printed t -> sent_transactions t = [].
Proof.
  induction 1 as [|ev t [m ->] _ IH]; [reflexivity | exact IH].
Qed.

Lemma markets_printed_app (t1 t2 : list event) :
  printed t1 -> printed t2 -> printed (t1 ++ t2).
Proof. intros H1 H2. apply Forall_app. split; assumption. Qed.

Lemma markets_printed_cons m (t : list event) :
  printed t -> printed (Print m :: t).
Proof. intros H. constructor; [eexists; reflexivity | exact H]. Qed.

(** The price checks of [main]: they stop at the first price that is
    not above zero, and ask nothing of the node. *)
Lemma validate_prices_spec prices :
  forall (w : W),
  exists t,
    printed t
    /\ validate_prices prices w
       = (Ok (if existsb (fun pair => PrimFloat.leb (snd pair) 0) prices
              then Some 1 else None), w, t).
Proof.
  induction prices as [|[provider price] rest IH]; intros w;
    cbn [validate_prices existsb snd].
  - exists []. split; [constructor | reflexivity].
  - destruct (PrimFloat.leb price 0); cbn [orb].
    + eexists. split; [|cbv [Run.bind Run.emit Run.ret]; reflexivity].
      cbn [app]. apply markets_printed_cons. constructor.
    + destruct (IH w) as (t & P & E).
      cbv [Run.bind Run.emit Run.ret]. 
      destruct (PrimFloat.ltb 100 price); rewrite E; eexists;
        (split; [|reflexivity]); cbn [app].
      * apply markets_printed_cons. rewrite ?app_nil_r. exact P.
      * rewrite ?app_nil_r. exact P.
Qed.

Lemma batch_loop_printed items :
  forall ids ns (w w' : W) r t,
    batch_loop items ids ns w = (r, w', t) -> w' = w /\ printed t.
Proof.
  induction items as [|[provider price] rest IH]; intros ids ns w w' r t;
    cbn [batch_loop].
  - intros H. inversion H. split; [reflexivity | constructor].
  - destruct (lookup (upper provider) H200_PROVIDERS) as [info|].
    + cbv [Run.bind Run.lift Run.emit].
      destruct (scaled price) as [n|e].
      * destruct (batch_loop rest (ids ++ [asset_id info]) (ns ++ [n]) w)
          as [[r1 w1] t1] eqn:B.
        destruct (IH _ _ _ _ _ _ B) as [-> P].
        intros H. inversion H; subst. split; [reflexivity|].
        cbn [app]. apply markets_printed_cons. exact P.
      * intros H. inversion H. split; [reflexivity | constructor].
    + intros H. inversion H. split; [reflexivity | constructor].
Qed.

Lemma markets_single_sends provider price (w : W) :
  (List.length
     (sent_transactions (snd (update_single_price self provider price w)))
   <= 1)%nat.
Proof.
  cbv [update_single_price print_receipt _send_transaction _submit
       Run.try_except Run.bind Run.emit Run.ret Run.lift Run.call Run.raise].
  run_cases; cbn [snd app sent_transactions List.length]; lia.
Qed.

Lemma markets_batch_sends prices (w : W) :
  (List.length
     (sent_transactions (snd (batch_update_prices self prices w)))
   <= 1)%nat.
Proof.
  unfold batch_update_prices.
  unfold Run.bind at 1. unfold Run.emit at 1.
  unfold Run.bind at 1.
  destruct (batch_loop prices [] [] w) as [[r w1] tl] eqn:B.
  destruct (batch_loop_printed _ _ _ _ _ _ _ B) as [-> P].
  destruct r as [[ids ns]|e].
  - cbv [print_receipt _send_transaction _submit
         Run.try_except Run.bind Run.emit Run.ret Run.lift Run.call Run.raise].
    run_cases; cbn [snd app sent_transactions];
      rewrite ?markets_sent_app, ?(markets_printed_sends_nothing tl P);
      cbn [snd app sent_transactions List.length]; lia.
  - cbn [snd app sent_transactions].
    rewrite ?app_nil_r, ?(markets_printed_sends_nothing tl P). cbn. lia.
Qed.

Lemma markets_execute_sends prices (w : W) :
  (List.length
     (sent_transactions (snd (execute_update self prices w))) <= 1)%nat.
Proof.
  unfold execute_update.
  destruct (List.length prices =? 1)%nat.
  - destruct prices as [|[provider price] rest].
    + cbn. lia.
    + apply markets_single_sends.
  - apply markets_batch_sends.
Qed.

(** The rows of the price display: lines only, and the world is not
    touched. *)
Lemma display_rows_spec prices :
  forall (w : W),
  exists r t, display_rows prices w = (r, w, t) /\ printed t.
Proof.
  induction prices as [|[provider data] rest IH]; intros w;
    cbn [display_rows].
  - exists (Ok tt), []. split; [reflexivity | constructor].
  - destruct (IH w) as (r & t & E & P).
    cbv [Run.bind Run.emit Run.lift Run.ret].
    destruct (0 <? price_raw data).
    + destruct (price_usd data) as [price|e].
      * destruct (updated_at_str data) as [updated|e]; cbn [app].
        -- rewrite E. eexists _, _. split; [reflexivity|].
           apply markets_printed_cons. exact P.
        -- eexists _, _. split; [reflexivity | constructor].
      * eexists _, _. split; [reflexivity | constructor].
    + rewrite E. cbn [app]. eexists _, _. split; [reflexivity|].
      apply markets_printed_cons. exact P.
Qed.

(** The price display reads and prints, nothing else. *)
Lemma display_current_prices_quiet (w : W) :
  exists r w' t,
    display_current_prices w = (r, w', t) /\ reads_and_prints t.
Proof.
  unfold display_current_prices.
  unfold Run.bind at 1. unfold Run.relabel.
  destruct (get_current_prices w) as [[[prices|e] w1] tg].
  - destruct (display_rows_spec prices w1) as (r & t & E & P).
    cbv [Run.bind Run.emit]. rewrite E.
    destruct r as [[]|e]; eexists _, _, _; (split; [reflexivity|]);
      (apply markets_reads_app; [apply markets_reads_map|]);
      apply markets_printed_reads; cbn [app];
      apply markets_printed_cons; rewrite ?app_nil_r; try exact P.
    apply markets_printed_app; [exact P|].
    apply markets_printed_cons. constructor.
  - eexists _, _, _. split; [reflexivity | apply markets_reads_map].
Qed.

(** [main_update] in terms of the price checks, of the two price
    displays, of [execute_update], of the block number read for the
    log and of the log entries. *)
Lemma markets_main_update_eq prices (w : W) :
  exists tv,
    printed tv
    /\ main_update self prices w
       = if existsb (fun pair => PrimFloat.leb (snd pair) 0) prices
         then (Ok 1, w, tv)
         else
           match display_current_prices w with
           | (Raise e, w0, td) => (Raise e, w0, tv ++ td)
           | (Ok _, w0, td) =>
               match execute_update self prices w0 with
               | (Ok h, w1, te) =>
                   match eth_block_number w1 with
                   | (Ok _, w2) =>
                       match log_entries prices with
                       | Ok _ =>
                           let done :=
                             tv ++ td ++ te
                                ++ [Rpc BlockNumber; Print MsgLogged;
                                    Print (MsgSuccess h)] in
                           match display_current_prices w2 with
                           | (Ok _, w3, td') => (Ok 0, w3, done ++ td')
                           | (Raise e, w3, td') =>
                               (Ok 1, w3,
                                done ++ td' ++ [Print (MsgUpdateFailed e)])
                           end
                       | Raise e =>
                           (Ok 1, w2,
                            tv ++ td ++ te
                               ++ [Rpc BlockNumber;
                                   Print (MsgUpdateFailed e)])
                       end
                   | (Raise e, w2) =>
                       (Ok 1, w2,
                        tv ++ td ++ te
                           ++ [Rpc BlockNumber; Print (MsgUpdateFailed e)])
                   end
               | (Raise e, w1, te) =>
                   (Ok 1, w1, tv ++ td ++ te ++ [Print (MsgUpdateFailed e)])
               end
           end.
Proof.
  destruct (validate_prices_spec prices w) as (tv & P & V).
  exists tv. split; [exact P|].
  unfold main_update.
  unfold Run.bind at 1. rewrite V.
  destruct (existsb (fun pair => PrimFloat.leb (snd pair) 0) prices).
  - cbv [Run.ret]. rewrite app_nil_r. reflexivity.
  - unfold Run.bind at 1.
    destruct (display_current_prices w) as [[[[]|e] w0] td]; [|reflexivity].
    unfold Run.try_except.
    unfold Run.bind at 1.
    destruct (execute_update self prices w0) as [[[h|e] w1] te].
    + unfold Run.bind at 1.
      unfold log_update.
      cbv [Run.bind Run.emit Run.ret Run.call Run.lift].
      destruct (eth_block_number w1) as [[n|e] w2].
      * destruct (log_entries prices) as [entries|e].
        -- cbv zeta.
           destruct (display_current_prices w2) as [[[[]|e] w3] td'];
             cbn [app]; rewrite ?app_nil_r, <- ?app_assoc; cbn [app];
             reflexivity.
        -- cbn [app]; rewrite ?app_nil_r, <- ?app_assoc; cbn [app].
           reflexivity.
      * cbn [app]; rewrite ?app_nil_r, <- ?app_assoc; cbn [app]. reflexivity.
    + cbv [Run.bind Run.emit Run.ret]. cbn [app].
      rewrite ?app_nil_r, <- ?app_assoc. reflexivity.
Qed.

End MarketsSends.

(** ** Prices that cannot be scaled *)

Lemma int_of_float_mul_nan (x scale : float) :
  Prim2SF x = S754_nan -> int_of_float (x * scale) = Raise ValueError.
Proof.
  intros H. unfold int_of_float. rewrite mul_spec, H. reflexivity.
Qed.

Lemma int_of_float_mul_infinity (x scale : float) s :
  Prim2SF x = S754_infinity s ->
  exists e, int_of_float (x * scale) = Raise e.
Proof.
  intros H. unfold int_of_float. rewrite mul_spec, H.
  destruct (Prim2SF scale) as [s'|s'| |s' m e']; cbn; eauto.
Qed.

Lemma markets_scaled_not_finite price :
  not_finite price -> exists e, ProviderMarkets.scaled price = Raise e.
Proof.
  unfold ProviderMarkets.scaled.
  destruct (float_of_int (10 ^ ProviderMarkets.PRICE_DECIMALS)) as [scale|e];
    cbn [rbind]; [|eauto].
  intros [H|[s H]].
  - rewrite (int_of_float_mul_nan _ _ H). eauto.
  - apply (int_of_float_mul_infinity _ _ _ H).
Qed.

Section MarketsUnscalable.
Context {W : Type} {node : Node W} {views : Views W} {calendar : Calendar}.
Variable self : ProviderMarkets.updater.
Import ProviderMarkets.

Lemma batch_loop_unscalable items provider price e :
  In (provider, price) items ->
  scaled price = Raise e ->
  forall ids ns (w : W),
  exists e' t, batch_loop items ids ns w = (Raise e', w, t) /\ printed t.
Proof.
  intros I S.
  induction items as [|[p x] rest IH]; [contradiction|]; intros ids ns w.
  cbn [batch_loop].
  destruct (lookup (upper p) H200_PROVIDERS) as [info|].
  2:{ eexists _, _. split; [reflexivity | constructor]. }
  cbv [Run.bind Run.lift Run.emit].
  destruct (scaled x) as [n|e0] eqn:Sx.
  2:{ eexists _, _. split; [reflexivity | constructor]. }
  destruct I as [I|I].
  - inversion I; subst. rewrite S in Sx. discriminate Sx.
  - destruct (IH I (ids ++ [asset_id info]) (ns ++ [n]) w) as (e' & t & E & P).
    rewrite E. eexists _, _. split; [reflexivity|].
    cbn [app]. apply markets_printed_cons. exact P.
Qed.

Lemma execute_update_unscalable prices provider price e (w : W) :
  In (provider, price) prices ->
  scaled price = Raise e ->
  exists e' t, execute_update self prices w = (Raise e', w, t) /\ printed t.
Proof.
  intros I S. unfold execute_update.
  destruct (List.length prices =? 1)%nat eqn:L.
  - destruct prices as [|[p x] [|second rest]]; try discriminate L.
    destruct I as [I|[]]. inversion I; subst.
    unfold update_single_price.
    destruct (lookup (upper provider) H200_PROVIDERS) as [info|].
    + cbv [Run.bind Run.lift]. rewrite S.
      eexists _, _. split; [reflexivity | constructor].
    + eexists _, _. split; [reflexivity | constructor].
  - unfold batch_update_prices.
    destruct (batch_loop_unscalable _ _ _ _ I S [] [] w) as (e' & t & E & P).
    cbv [Run.bind Run.emit]. rewrite E.
    eexists _, _. split; [reflexivity|].
    cbn [app]. apply markets_printed_cons. exact P.
Qed.

Lemma main_update_unscalable prices provider price e (w : W) :
  In (provider, price) prices ->
  scaled price = Raise e ->
  exists r w' t,
    main_update self prices w = (r, w', t)
    /\ reads_and_prints t
    /\ (r = Ok 1
        \/ exists e', r = Raise e'
                      /\ fst (fst (display_current_prices w)) = Raise e').
Proof.
  intros I S.
  destruct (markets_main_update_eq self prices w) as (tv & P & E).
  rewrite E. clear E.
  destruct (existsb (fun pair => PrimFloat.leb (snd pair) 0) prices).
  { eexists _, _, _. split; [reflexivity|].
    split; [apply markets_printed_reads; exact P | left; reflexivity]. }
  destruct (display_current_prices_quiet w) as (r & w0 & td & D & Q).
  rewrite D.
  destruct r as [[]|e0].
  - destruct (execute_update_unscalable _ _ _ _ w0 I S) as (e' & t & E & Pt).
    rewrite E. eexists _, _, _. split; [reflexivity|].
    split; [|left; reflexivity].
    apply markets_reads_app; [apply markets_printed_reads; exact P|].
    apply markets_reads_app; [exact Q|].
    apply markets_printed_reads.
    apply markets_printed_app; [exact Pt|].
    apply markets_printed_cons. constructor.
  - eexists _, _, _. split; [reflexivity|].
    split; [|right; exists e0; split; reflexivity].
    apply markets_reads_app; [apply markets_printed_reads; exact P | exact Q].
Qed.

End MarketsUnscalable.

Section ContractUnscalable.
Context {W : Type} {node : Node W}.
Variable self : PushToContract.updater.
Import PushToContract.

Lemma contract_update_price_not_finite price (w : W) :
  not_finite price ->
  exists e, update_price self price w = (Raise e, w, []).
Proof.
  intros N.
  cbv [update_price prepare_update Run.bind Run.lift].
  destruct (float_of_int (10 ^ Z.of_N (decimals self))) as [scale|e];
    [|eauto].
  destruct N as [H|[s H]].
  - rewrite (int_of_float_mul_nan _ _ H). eauto.
  - destruct (int_of_float_mul_infinity _ scale _ H) as [e E].
    rewrite E. eauto.
Qed.

Lemma contract_built_fields price (w : W) :
  Forall (fun cp =>
            (exists n, fst cp = updatePrice H200_ASSET_ID n)
            /\ chainId (snd cp) = 11155111
            /\ publisher_fields (address self) 100000 (snd cp))
         (built (snd (main_update self price w))).
Proof.
  cbv [main_update update_price prepare_update get_current_price verify_update
       log_update _send_transaction _submit _build_dynamic_fee gwei
       publisher_fields
       Run.try_except Run.bind Run.emit Run.ret Run.lift Run.call Run.raise].
  run_cases; cbn [snd app built]; repeat constructor; cbn [fst snd];
    try (eexists; reflexivity); cbn [maxFeePerGas maxPriorityFeePerGas]; lia.
Qed.

End ContractUnscalable.

Section MarketsBuilt.
Context {W : Type} {node : Node W}.
Variable self : ProviderMarkets.updater.
Import ProviderMarkets.

Lemma markets_built_app (t1 t2 : list event) :
  built (t1 ++ t2) = built t1 ++ built t2.
Proof.
  induction t1 as [|[c|[]|m|v] t1 IH]; cbn [app built]; rewrite ?IH;
    reflexivity.
Qed.

Lemma markets_printed_builds_nothing (t : list event) :
  printed t -> built t = [].
Proof.
  induction 1 as [|ev t [m ->] _ IH]; [reflexivity | exact IH].
Qed.

Lemma markets_single_built provider price (w : W) :
  Forall (fun cp => publisher_fields (address self) 100000 (snd cp))
         (built (snd (update_single_price self provider price w))).
Proof.
  cbv [update_single_price print_receipt _send_transaction _submit
       _build_dynamic_fee gwei publisher_fields
       Run.try_except Run.bind Run.emit Run.ret Run.lift Run.call Run.raise].
  run_cases; cbn [snd app built]; repeat constructor; cbn [fst snd];
    cbn [maxFeePerGas maxPriorityFeePerGas]; lia.
Qed.

Lemma markets_batch_built prices (w : W) :
  Forall (fun cp => publisher_fields (address self)
                      (50000 + Z.of_nat (List.length prices) * 30000) (snd cp))
         (built (snd (batch_update_prices self prices w))).
Proof.
  unfold batch_update_prices.
  unfold Run.bind at 1. unfold Run.emit at 1.
  unfold Run.bind at 1.
  destruct (batch_loop prices [] [] w) as [[r w1] tl] eqn:B.
  destruct (batch_loop_printed _ _ _ _ _ _ _ B) as [-> P].
  destruct (batch_loop_spec prices _ _ _ _ _ _ B) as (_ & _ & S).
  destruct r as [[ids ns]|e].
  - destruct (S ids ns eq_refl) as [-> _]. cbn [app].
    rewrite length_map.
    cbv [print_receipt _send_transaction _submit _build_dynamic_fee gwei
         publisher_fields
         Run.try_except Run.bind Run.emit Run.ret Run.lift Run.call Run.raise].
    run_cases; cbn [snd app built];
      rewrite ?markets_built_app, ?(markets_printed_builds_nothing tl P);
      cbn [snd app built]; repeat constructor; cbn [fst snd];
      cbn [maxFeePerGas maxPriorityFeePerGas]; lia.
  - cbn [snd app built].
    rewrite ?app_nil_r, ?(markets_printed_builds_nothing tl P). constructor.
Qed.

End MarketsBuilt.

(** X7: a run of either chain publisher submits at most one
    transaction, whatever the node answers: there is no retry and no
    second submission after a failure. *)
Theorem a_run_submits_at_most_one_transaction
  (W : Type) (node : Node W) (views : Views W) (calendar : Calendar) :
  (forall self price (w : W),
      (List.length
         (PushToContract.sent_transactions
            (snd (PushToContract.main_update self price w))) <= 1)%nat)
  /\ (forall self prices (w : W),
      (List.length
         (ProviderMarkets.sent_transactions
            (snd (ProviderMarkets.main_update self prices w))) <= 1)%nat).
Proof.
  split.
  - intros self price w. apply contract_main_update_sends.
  - intros self prices w.
    destruct (markets_main_update_eq self prices w) as (tv & P & E).
    rewrite E. clear E.
    destruct (existsb (fun pair => PrimFloat.leb (snd pair) 0) prices).
    { cbn [snd]. rewrite (markets_printed_sends_nothing tv P). cbn. lia. }
    destruct (display_current_prices_quiet w) as (r & w0 & td & D & Q).
    rewrite D.
    destruct r as [[]|e0].
    2:{ cbn [snd].
        rewrite markets_sent_app, (markets_printed_sends_nothing tv P),
          (markets_reads_send_nothing td Q).
        cbn. lia. }
    pose proof (markets_execute_sends self prices w0) as S.
    destruct (ProviderMarkets.execute_update self prices w0)
      as [[[h|e] w1] te]; cbn [snd] in S.
    + destruct (eth_block_number w1) as [[n|e] w2];
        [destruct (ProviderMarkets.log_entries prices);
         [cbv zeta;
          destruct (display_current_prices_quiet w2)
            as (r' & w3 & td' & D' & Q');
          rewrite D'; destruct r' as [[]|e']|]|];
        cbn [snd];
        rewrite ?markets_sent_app, (markets_printed_sends_nothing tv P),
          (markets_reads_send_nothing td Q),
          ?(markets_reads_send_nothing td' Q');
        cbn [ProviderMarkets.sent_transactions app]; rewrite ?app_nil_r;
        exact S.
    + cbn [snd].
      rewrite ?markets_sent_app, (markets_printed_sends_nothing tv P),
        (markets_reads_send_nothing td Q).
      cbn [ProviderMarkets.sent_transactions app]. rewrite ?app_nil_r.
      exact S.
Qed.

(** X8: one price that is not above zero stops the whole update of the
    provider markets: the run ends with status 1, the node is asked
    nothing and only lines are printed, also when every other price of
    the dict is fine. *)
Theorem a_price_not_above_zero_stops_the_update
  (W : Type) (node : Node W) (views : Views W) (calendar : Calendar)
  (self : ProviderMarkets.updater)
  (prices : list (string * float)) (w : W) :
  existsb (fun pair => PrimFloat.leb (snd pair) 0) prices = true ->
  exists t,
    ProviderMarkets.main_update self prices w = (Ok 1, w, t)
    /\ ProviderMarkets.printed t.
Proof.
  intros H.
  destruct (markets_main_update_eq self prices w) as (tv & P & E).
  rewrite E, H. exists tv. split; [reflexivity | exact P].
Qed.

Lemma a_price_not_above_zero_stops_the_update_witness :
  exists t,
    ProviderMarkets.main_update
      (calendar := four_digit_years)
      ProviderMarkets.sample_updater
      [("AWS"%string, 2.65%float); ("GCP"%string, (-1)%float)]
      (sample_chain (Some 12) 1)
    = (Ok 1, sample_chain (Some 12) 1, t)
    /\ ProviderMarkets.printed t.
Proof.
  exact (a_price_not_above_zero_stops_the_update
           chain chain_node chain_views four_digit_years
           ProviderMarkets.sample_updater
           [("AWS"%string, 2.65%float); ("GCP"%string, (-1)%float)]
           (sample_chain (Some 12) 1) eq_refl).
Defined.

(** X9: a price that is a NaN or an infinity is never sent.  Its
    scaled value does not exist ([int()] raises), which happens before
    the nonce is asked for: the single-asset publisher raises at once
    with nothing printed and its run ends with status 1.  A run of the
    provider markets that has such a price anywhere in its dict only
    reads and prints: nothing is built, signed or sent.  It ends with
    status 1, or with the exception of the first price display when
    that display raises. *)
Theorem a_price_that_is_no_number_is_never_sent
  (W : Type) (node : Node W) (views : Views W) (calendar : Calendar) :
  (forall self price (w : W),
      not_finite price ->
      exists e,
        PushToContract.update_price self price w = (Raise e, w, [])
        /\ PushToContract.main_update self price w
           = (Ok 1, w, [PushToContract.Print (PushToContract.MsgUpdateFailed e)]))
  /\ (forall self prices provider price (w : W),
      In (provider, price) prices ->
      not_finite price ->
      exists r w' t,
        ProviderMarkets.main_update self prices w = (r, w', t)
        /\ ProviderMarkets.reads_and_prints t
        /\ (r = Ok 1
            \/ exists e,
                 r = Raise e
                 /\ fst (fst (ProviderMarkets.display_current_prices w))
                    = Raise e)).
Proof.
  split.
  - intros self price w N.
    destruct (contract_update_price_not_finite self price w N) as [e E].
    exists e. split; [exact E|].
    rewrite contract_main_update_eq, E. reflexivity.
  - intros self prices provider price w I N.
    destruct (markets_scaled_not_finite price N) as [e S].
    exact (main_update_unscalable self prices provider price e w I S).
Qed.

Lemma a_price_that_is_no_number_is_never_sent_witness :
  (exists e,
      PushToContract.update_price PushToContract.sample_updater nan
        (sample_chain (Some 12) 1)
      = (Raise e, sample_chain (Some 12) 1, [])
      /\ PushToContract.main_update PushToContract.sample_updater nan
           (sample_chain (Some 12) 1)
         = (Ok 1, sample_chain (Some 12) 1,
            [PushToContract.Print (PushToContract.MsgUpdateFailed e)]))
  /\ (exists r w' t,
        ProviderMarkets.main_update
          (calendar := four_digit_years)
          ProviderMarkets.sample_updater
          [("AWS"%string, 2.65%float); ("GCP"%string, infinity)]
          (sample_chain (Some 12) 1)
        = (r, w', t)
        /\ ProviderMarkets.reads_and_prints t
        /\ (r = Ok 1
            \/ exists e,
                 r = Raise e
                 /\ fst (fst (ProviderMarkets.display_current_prices
                                (calendar := four_digit_years)
                                (sample_chain (Some 12) 1)))
                    = Raise e)).
Proof.
  split.
  - exact (proj1 (a_price_that_is_no_number_is_never_sent
                    chain chain_node chain_views four_digit_years)
             PushToContract.sample_updater nan (sample_chain (Some 12) 1)
             (or_introl eq_refl)).
  - exact (proj2 (a_price_that_is_no_number_is_never_sent
                    chain chain_node chain_views four_digit_years)
             ProviderMarkets.sample_updater
             [("AWS"%string, 2.65%float); ("GCP"%string, infinity)]
             "GCP"%string infinity (sample_chain (Some 12) 1)
             (or_intror (or_introl eq_refl))
             (or_intror (ex_intro _ false eq_refl))).
Defined.

(** X10: the exit status of a chain publisher is no verdict on the
    chain.  The block number for the log is read after the receipt and
    inside the same [try]: when that request fails, the run ends with
    status 1 and the [UPDATE FAILED] line although the transaction was
    submitted and its receipt received.  In the provider markets the
    same holds when the price display that follows the success banner
    raises: the banner is printed, then the failure, and the status
    is 1. *)
Theorem a_failure_after_the_receipt_is_reported_as_failure
  (W : Type) (node : Node W) (views : Views W) (calendar : Calendar) :
  (forall self price (w w1 w2 : W) h tu e,
      PushToContract.update_price self price w = (Ok h, w1, tu) ->
      eth_block_number w1 = (Raise e, w2) ->
      PushToContract.main_update self price w
      = (Ok 1, w2,
         tu ++ [PushToContract.Rpc BlockNumber;
                PushToContract.Print (PushToContract.MsgUpdateFailed e)]))
  /\ (forall self prices (w w0 w1 w2 : W) td h te e,
      existsb (fun pair => PrimFloat.leb (snd pair) 0) prices = false ->
      ProviderMarkets.display_current_prices w = (Ok tt, w0, td) ->
      ProviderMarkets.execute_update self prices w0 = (Ok h, w1, te) ->
      eth_block_number w1 = (Raise e, w2) ->
      exists tv,
        ProviderMarkets.printed tv
        /\ ProviderMarkets.main_update self prices w
           = (Ok 1, w2,
              tv ++ td ++ te
                 ++ [ProviderMarkets.Rpc BlockNumber;
                     ProviderMarkets.Print
                       (ProviderMarkets.MsgUpdateFailed e)]))
  /\ (forall self prices (w w0 w1 w2 w3 : W) td h te n entries td' e,
      existsb (fun pair => PrimFloat.leb (snd pair) 0) prices = false ->
      ProviderMarkets.display_current_prices w = (Ok tt, w0, td) ->
      ProviderMarkets.execute_update self prices w0 = (Ok h, w1, te) ->
      eth_block_number w1 = (Ok n, w2) ->
      ProviderMarkets.log_entries prices = Ok entries ->
      ProviderMarkets.display_current_prices w2 = (Raise e, w3, td') ->
      exists tv,
        ProviderMarkets.printed tv
        /\ ProviderMarkets.main_update self prices w
           = (Ok 1, w3,
              (tv ++ td ++ te
                  ++ [ProviderMarkets.Rpc BlockNumber;
                      ProviderMarkets.Print ProviderMarkets.MsgLogged;
                      ProviderMarkets.Print (ProviderMarkets.MsgSuccess h)])
              ++ td'
              ++ [ProviderMarkets.Print
                    (ProviderMarkets.MsgUpdateFailed e)])).
Proof.
  split; [|split].
  - intros self price w w1 w2 h tu e U B.
    rewrite contract_main_update_eq, U, B. reflexivity.
  - intros self prices w w0 w1 w2 td h te e V D X B.
    destruct (markets_main_update_eq self prices w) as (tv & P & E).
    exists tv. split; [exact P|].
    rewrite E, V, D, X, B. reflexivity.
  - intros self prices w w0 w1 w2 w3 td h te n entries td' e V D X B L D'.
    destruct (markets_main_update_eq self prices w) as (tv & P & E).
    exists tv. split; [exact P|].
    rewrite E, V, D, X, B, L. cbv zeta. rewrite D'. reflexivity.
Qed.

Lemma a_failure_after_the_receipt_is_reported_as_failure_witness :
  let w := {| behind := sample_chain (Some 12) 1; submitted := false |} in
  let late := with_clock (sample_chain (Some 12) 1) 253402300800 in
  let aws := [("AWS"%string, 2.65%float)] in
  let run :=
    PushToContract.main_update PushToContract.sample_updater 3.6%float w in
  let stalled :=
    ProviderMarkets.main_update (calendar := four_digit_years)
                                ProviderMarkets.sample_updater aws w in
  let undisplayed :=
    ProviderMarkets.main_update (calendar := four_digit_years)
                                ProviderMarkets.sample_updater aws late in
  (fst (fst run) = Ok 1
   /\ read_price (oracle (behind (snd (fst run))))
                 PushToContract.H200_ASSET_ID
      = 3600000000000000000
   /\ read_price (oracle (behind w)) PushToContract.H200_ASSET_ID
      = 3530000000000000000)
  /\ (fst (fst stalled) = Ok 1
      /\ List.length (ProviderMarkets.sent_transactions (snd stalled)) = 1%nat)
  /\ (fst (fst undisplayed) = Ok 1
      /\ List.length (ProviderMarkets.sent_transactions (snd undisplayed))
         = 1%nat
      /\ In (ProviderMarkets.Print (ProviderMarkets.MsgSuccess "0xa1"))
            (snd undisplayed)).
Proof.
  intros w late aws run stalled undisplayed.
  pose (T := a_failure_after_the_receipt_is_reported_as_failure).
  split; [|split].
  - pose (sent := PushToContract.update_price
                    PushToContract.sample_updater 3.6%float w).
    assert (U : PushToContract.update_price
                  PushToContract.sample_updater 3.6%float w
                = (Ok "0xa1"%string, snd (fst sent), snd sent))
      by (vm_compute; reflexivity).
    assert (B : eth_block_number (snd (fst sent))
                = (Raise ConnectionError, snd (fst sent)))
      by (vm_compute; reflexivity).
    pose proof (proj1 (T stalling stalling_node stalling_views
                         four_digit_years)
                  PushToContract.sample_updater 3.6%float w _ _ _ _ _ U B)
      as R.
    subst run. rewrite R. cbn [fst snd].
    split; [reflexivity|]. split; vm_compute; reflexivity.
  - pose (shown := ProviderMarkets.display_current_prices
                     (calendar := four_digit_years) w).
    pose (sent := ProviderMarkets.execute_update
                    ProviderMarkets.sample_updater aws (snd (fst shown))).
    assert (V : existsb (fun pair => PrimFloat.leb (snd pair) 0) aws = false)
      by (vm_compute; reflexivity).
    assert (D : ProviderMarkets.display_current_prices
                  (calendar := four_digit_years) w
                = (Ok tt, snd (fst shown), snd shown))
      by (vm_compute; reflexivity).
    assert (X : ProviderMarkets.execute_update
                  ProviderMarkets.sample_updater aws (snd (fst shown))
                = (Ok "0xa1"%string, snd (fst sent), snd sent))
      by (vm_compute; reflexivity).
    assert (B : eth_block_number (snd (fst sent))
                = (Raise ConnectionError, snd (fst sent)))
      by (vm_compute; reflexivity).
    destruct (proj1 (proj2 (T stalling stalling_node stalling_views
                              four_digit_years))
                ProviderMarkets.sample_updater aws w _ _ _ _ _ _ _ V D X B)
      as (tv & P & R).
    subst stalled. split; [rewrite R; reflexivity|].
    vm_compute. reflexivity.
  - pose (shown := ProviderMarkets.display_current_prices
                     (calendar := four_digit_years) late).
    pose (sent := ProviderMarkets.execute_update
                    ProviderMarkets.sample_updater aws (snd (fst shown))).
    pose (logged := eth_block_number (snd (fst sent))).
    pose (again := ProviderMarkets.display_current_prices
                     (calendar := four_digit_years) (snd logged)).
    assert (V : existsb (fun pair => PrimFloat.leb (snd pair) 0) aws = false)
      by (vm_compute; reflexivity).
    assert (D : ProviderMarkets.display_current_prices
                  (calendar := four_digit_years) late
                = (Ok tt, snd (fst shown), snd shown))
      by (vm_compute; reflexivity).
    assert (X : ProviderMarkets.execute_update
                  ProviderMarkets.sample_updater aws (snd (fst shown))
                = (Ok "0xa1"%string, snd (fst sent), snd sent))
      by (vm_compute; reflexivity).
    assert (B : eth_block_number (snd (fst sent)) = (Ok 101, snd logged))
      by (vm_compute; reflexivity).
    assert (L : ProviderMarkets.log_entries aws
                = Ok [("AWS"%string, 2650000000000000000,
                       "0xb377854a672b5274c99b24e7fe27d9661c60c8b697ca4f974208162655716b3e"%string)])
      by (vm_compute; reflexivity).
    assert (D' : ProviderMarkets.display_current_prices
                   (calendar := four_digit_years) (snd logged)
                 = (Raise ValueError, snd (fst again), snd again))
      by (vm_compute; reflexivity).
    destruct (proj2 (proj2 (T chain chain_node chain_views four_digit_years))
                ProviderMarkets.sample_updater aws late _ _ _ _ _ _ _ _ _ _ _
                V D X B L D')
      as (tv & P & R).
    subst undisplayed. split; [rewrite R; reflexivity|].
    split; [vm_compute; reflexivity|].
    vm_compute. repeat (try (left; reflexivity); right).
Defined.

(** X11: what the publishers put into the transaction they build.
    Every parameter dict passed to [build_transaction] is sent from
    the updater's address with a priority fee of one gwei and a fee
    cap of at least twice that; the single-asset publisher always
    binds [updatePrice] for the H200 asset with gas limit 100000 and
    chain id 11155111; the provider markets use gas limit 100000 for
    one pair and 50000 plus 30000 per pair for more. *)
Theorem built_transactions_carry_fee_and_gas_limit
  (W : Type) (node : Node W) :
  (forall self price (w : W),
      Forall (fun cp =>
                (exists n,
                    fst cp = updatePrice PushToContract.H200_ASSET_ID n)
                /\ chainId (snd cp) = 11155111
                /\ publisher_fields (PushToContract.address self) 100000
                                    (snd cp))
             (PushToContract.built
                (snd (PushToContract.main_update self price w))))
  /\ (forall self prices (w : W),
      let n := List.length prices in
      Forall (fun cp =>
                publisher_fields
                  (ProviderMarkets.address self)
                  (if (n =? 1)%nat then 100000
                   else 50000 + Z.of_nat n * 30000)
                  (snd cp))
             (ProviderMarkets.built
                (snd (ProviderMarkets.execute_update self prices w)))).
Proof.
  split.
  - intros self price w. apply contract_built_fields.
  - intros self prices w n. subst n.
    unfold ProviderMarkets.execute_update.
    destruct (List.length prices =? 1)%nat.
    + destruct prices as [|[provider price] rest].
      * constructor.
      * apply markets_single_built.
    + apply markets_batch_built.
Qed.

(** Case analysis on the calls of a run, innermost first, keeping
    what each call answered. *)
Ltac run_cases_eqn :=
  repeat match goal with
  | |- context [match ?x with _ => _ end] =>
      lazymatch x with
      | context [match _ with _ => _ end] => fail
      | _ => destruct x eqn:?
      end
  end.

Ltac find_in := cbn [In]; repeat first [left; reflexivity | right].

Section ContractMain.
Context {W : Type} {node : Node W} {views : Views W}.
Import PushToContract.

Lemma contract_submitted_by_app (t1 t2 : list main_event) :
  submitted_by (t1 ++ t2) = submitted_by t1 ++ submitted_by t2.
Proof. apply flat_map_app. Qed.

Lemma contract_submitted_by_methods (t : list event) :
  submitted_by (map Method t) = sent_transactions t.
Proof.
  unfold submitted_by.
  induction t as [|ev t IH]; [reflexivity|].
  cbn [map flat_map]. rewrite IH. destruct ev as [c|[]|m]; reflexivity.
Qed.

Lemma contract_init_spec cfg (w w' : W) r t :
  __init__ cfg w = (r, w', t) ->
  submitted_by t = []
  /\ forall self, r = Ok (Started self) ->
       In (Viewed (IsConnected true)) t
       /\ In (Viewed (IsAssetRegistered H200_ASSET_ID (Ok true))) t.
Proof.
  cbv [__init__ is_asset_registered get_current_price
       Run.try_except Run.bind Run.emit Run.ret Run.lift Run.call Run.raise
       Run.relabel Run.ask].
  run_cases_eqn; intros H; inversion H; subst; clear H;
    (split; [reflexivity|]); intros self S; try discriminate S;
    repeat match goal with
           | H : negb ?b = false |- _ => destruct b; [clear H | discriminate H]
           end;
    split; find_in.
Qed.

Lemma contract_initialize_and_update cfg price (w0 : W) :
  exists r w2 t2,
    initialize_and_update cfg price w0 = (r, w2, t2)
    /\ (List.length (submitted_by t2) <= 1)%nat
    /\ (submitted_by t2 <> [] ->
        In (Viewed (IsConnected true)) t2
        /\ In (Viewed (IsAssetRegistered H200_ASSET_ID (Ok true))) t2).
Proof.
  unfold initialize_and_update.
  unfold Run.bind at 1. unfold Run.try_except.
  destruct (__init__ cfg w0) as [[[st|e] w1] ti] eqn:I;
    destruct (contract_init_spec _ _ _ _ _ I) as [Si Vi].
  - destruct st as [self|code].
    + destruct (Vi self eq_refl) as [V1 V2].
      unfold Run.relabel.
      pose proof (contract_main_update_sends self price w1) as S1.
      destruct (main_update self price w1) as [[r2 w2] tm].
      cbn [snd] in S1.
      eexists _, _, _. split; [reflexivity|]. split.
      * rewrite contract_submitted_by_app, Si, contract_submitted_by_methods.
        exact S1.
      * intros _. split; apply in_or_app; left; assumption.
    + eexists _, _, _. split; [reflexivity|].
      cbn [app]. rewrite app_nil_r, Si. split; [cbn; lia|].
      intros H. exfalso. apply H. reflexivity.
  - eexists _, _, _. split; [reflexivity|].
    rewrite !contract_submitted_by_app, Si. cbn. split; [lia|].
    intros H. exfalso. apply H. reflexivity.
Qed.

Lemma contract_main_eq cfg price (w : W) :
  main cfg price w
  = if unset (PRIVATE_KEY cfg) then (Ok 1, w, [Say MsgNoPrivateKey])
    else if PrimFloat.leb price 0 then (Ok 1, w, [Say (MsgNotPositive price)])
    else if PrimFloat.ltb 100 price then
      match stdin cfg with
      | None =>
          (Raise (LibraryError "EOFError"), w, [Say (MsgUnusuallyHigh price)])
      | Some response =>
          if String.eqb (lower response) "y" then
            let '(r, w2, t2) := initialize_and_update cfg price w in
            (r, w2, Say (MsgUnusuallyHigh price) :: t2)
          else (Ok 0, w, [Say (MsgUnusuallyHigh price); Say MsgAborted])
      end
    else initialize_and_update cfg price w.
Proof.
  unfold main.
  destruct (unset (PRIVATE_KEY cfg)); [reflexivity|].
  destruct (PrimFloat.leb price 0); [reflexivity|].
  cbv [Run.bind Run.emit Run.ret Run.raise].
  destruct (PrimFloat.ltb 100 price).
  - destruct (stdin cfg) as [response|]; [|reflexivity].
    destruct (String.eqb (lower response) "y"); cbn [negb app].
    + destruct (initialize_and_update cfg price w) as [[r w2] t2].
      rewrite ?app_nil_r. reflexivity.
    + reflexivity.
  - cbn [negb]. destruct (initialize_and_update cfg price w) as [[r w2] t2].
    reflexivity.
Qed.

End ContractMain.

(** X12: a run of [main] of the single-asset publisher submits at most
    one transaction, and it submits one only with a private key set,
    for a price above zero, confirmed with [y] when it is above 100,
    from a node that said it is connected and for an asset the
    contract reported as registered. *)
Theorem the_contract_run_submits_only_a_checked_price
  (W : Type) (node : Node W) (views : Views W)
  (cfg : PushToContract.config) (price : float) (w : W) :
  let t := snd (PushToContract.main cfg price w) in
  (List.length (PushToContract.submitted_by t) <= 1)%nat
  /\ (PushToContract.submitted_by t <> [] ->
      PushToContract.unset (PushToContract.PRIVATE_KEY cfg) = false
      /\ PrimFloat.leb price 0 = false
      /\ (PrimFloat.ltb 100 price = true ->
          exists response,
            PushToContract.stdin cfg = Some response
            /\ String.eqb (lower response) "y" = true)
      /\ In (PushToContract.Viewed (IsConnected true)) t
      /\ In (PushToContract.Viewed
               (IsAssetRegistered PushToContract.H200_ASSET_ID (Ok true))) t).
Proof.
  intros t. subst t. rewrite contract_main_eq.
  destruct (contract_initialize_and_update cfg price w)
    as (r & w2 & t2 & E & S1 & V).
  rewrite E. clear E.
  destruct (PushToContract.unset (PushToContract.PRIVATE_KEY cfg)) eqn:K.
  { cbn. split; [lia|]. intros H. exfalso. apply H. reflexivity. }
  destruct (PrimFloat.leb price 0) eqn:L.
  { cbn. split; [lia|]. intros H. exfalso. apply H. reflexivity. }
  destruct (PrimFloat.ltb 100 price) eqn:H100.
  - destruct (PushToContract.stdin cfg) as [response|] eqn:I.
    2:{ cbn. split; [lia|]. intros H. exfalso. apply H. reflexivity. }
    destruct (String.eqb (lower response) "y") eqn:Y.
    + cbn [snd].
      change (PushToContract.submitted_by
                (PushToContract.Say (PushToContract.MsgUnusuallyHigh price)
                 :: t2))
        with (PushToContract.submitted_by t2).
      split; [exact S1|]. intros H. destruct (V H) as [V1 V2].
      split; [reflexivity|]. split; [reflexivity|].
      split; [intros _; eauto|]. split; right; assumption.
    + cbn. split; [lia|]. intros H. exfalso. apply H. reflexivity.
  - cbn [snd].
    split; [exact S1|]. intros H. destruct (V H) as [V1 V2].
    split; [reflexivity|]. split; [reflexivity|].
    split; [intros D; discriminate D|]. split; assumption.
Qed.

(** ** Dicts *)

Lemma dict_setitem_keys {A : Type} (d : list (string * A)) key value :
  forall k, In k (map fst (dict_setitem d key value)) ->
            k = key \/ In k (map fst d).
Proof.
  induction d as [|[k0 v0] d IH]; intros k; cbn [dict_setitem map fst In].
  - intros [H|[]]. left. symmetry. exact H.
  - destruct (String.eqb k0 key) eqn:E; cbn [map fst In].
    + intros H. right. exact H.
    + intros [H|H]; [right; left; exact H|].
      destruct (IH k H) as [H1|H1]; [left | right; right]; assumption.
Qed.

Lemma dict_setitem_NoDup {A : Type} (d : list (string * A)) key value :
  NoDup (map fst d) -> NoDup (map fst (dict_setitem d key value)).
Proof.
  induction d as [|[k0 v0] d IH]; cbn [dict_setitem map fst]; intros N.
  - constructor; [intros [] | constructor].
  - inversion N as [|? ? Hn Nd]; subst.
    destruct (String.eqb k0 key) eqn:E; cbn [map fst].
    + constructor; assumption.
    + constructor; [|apply IH; exact Nd].
      intros H. destruct (dict_setitem_keys _ _ _ _ H) as [H1|H1].
      * subst. rewrite String.eqb_refl in E. discriminate E.
      * apply Hn. exact H1.
Qed.

Lemma dict_setitem_values {A : Type} (P : string * A -> Prop)
  (d : list (string * A)) key value :
  Forall P d -> P (key, value) -> Forall P (dict_setitem d key value).
Proof.
  intros F Pk.
  induction d as [|[k0 v0] d IH]; cbn [dict_setitem].
  - constructor; [exact Pk | constructor].
  - inversion F; subst.
    destruct (String.eqb k0 key) eqn:E.
    + apply String.eqb_eq in E. subst. constructor; assumption.
    + constructor; [assumption | apply IH; assumption].
Qed.

Lemma dict_setitem_not_empty {A : Type} (d : list (string * A)) key value :
  dict_setitem d key value <> [].
Proof.
  destruct d as [|[k0 v0] d]; cbn [dict_setitem]; [discriminate|].
  destruct (String.eqb k0 key); discriminate.
Qed.

(** ** Reading the oracle *)

Section MarketsReading.
Context {W : Type} {views : Views W}.
Import ProviderMarkets.


End MarketsReading.


(** ** Prices read from files *)

Section MarketsFiles.
Import ProviderMarkets.

Lemma index_price_of_stored entry k p :
  index_price_of entry = Ok (Some (k, p)) ->
  stored_key k
  /\ exists name v,
       entry = Detail (Some (JStr name)) (Some v)
       /\ dict_get provider_name_map name = Some k
       /\ round_price v = Ok p.
Proof.
  unfold index_price_of.
  destruct entry as [|provider effective_price]; [discriminate|].
  destruct provider as [[| | |s| |]|]; cbn [jtruthy negb orb];
    try discriminate.
  - destruct b; cbn; [|discriminate].
    destruct effective_price as [[]|]; cbn; discriminate.
  - destruct (truthy x); cbn; [|discriminate].
    destruct effective_price as [[]|]; cbn; discriminate.
  - destruct (String.eqb s "") eqn:Es; cbn [negb orb]; [discriminate|].
    destruct effective_price as [v|]; cbn [is_null]; [|discriminate].
    destruct (is_null v) eqn:Nv; [discriminate|].
    cbn [map_get rbind].
    destruct (dict_get provider_name_map s) as [our|] eqn:G; [|discriminate].
    assert (K : stored_key our).
    { revert G. unfold provider_name_map. cbn [dict_get].
      repeat match goal with
             | |- context [if ?b then _ else _] => destruct b
             end;
        intros H; inversion H; split; reflexivity. }
    destruct K as [K1 K2].
    destruct (negb (String.eqb our "")
              && match lookup our H200_PROVIDERS with
                 | Some _ => true
                 | None => false
                 end); [|discriminate].
    destruct (round_price v) as [q|e] eqn:R; cbn [rbind]; [|discriminate].
    intros H. inversion H; subst. split; [split; assumption|].
    exists s, v. auto.
  - destruct empty; cbn; [discriminate|].
    destruct effective_price as [[]|]; cbn; discriminate.
  - destruct empty; cbn; [discriminate|].
    destruct effective_price as [[]|]; cbn; discriminate.
Qed.

Lemma index_loop_spec all_details details :
  forall acc prices,
    incl details all_details ->
    index_loop details acc = Ok prices ->
    NoDup (map fst acc) ->
    Forall (from_index_entry all_details) acc ->
    NoDup (map fst prices) /\ Forall (from_index_entry all_details) prices.
Proof.
  induction details as [|entry rest IH]; intros acc prices I; cbn [index_loop].
  - intros H N F. inversion H; subst. auto.
  - destruct (index_price_of entry) as [[[k p]|]|e] eqn:E; cbn [rbind];
      try discriminate.
    + intros H N F.
      apply (IH (dict_setitem acc k p) prices).
      * intros x Hx. apply I. right. exact Hx.
      * exact H.
      * apply dict_setitem_NoDup. exact N.
      * apply dict_setitem_values; [exact F|].
        destruct (index_price_of_stored _ _ _ E) as (K & name & v & -> & G & R).
        split; [exact K|]. exists name, v. split; [|auto].
        apply I. left. reflexivity.
    + intros H N F. apply (IH acc prices); auto.
      intros x Hx. apply I. right. exact Hx.
Qed.

Lemma index_loop_raises details :
  forall acc,
    (exists e, index_loop details acc = Raise e)
    <-> Exists (fun entry => exists e, index_price_of entry = Raise e) details.
Proof.
  induction details as [|entry rest IH]; intros acc; cbn [index_loop].
  - split; [intros [e H]; discriminate H | intros H; inversion H].
  - destruct (index_price_of entry) as [[[k p]|]|e] eqn:E; cbn [rbind].
    + rewrite IH. split; [intros H; right; exact H|].
      intros H. inversion H as [? ? [e H1]|]; subst; [|assumption].
      rewrite E in H1. discriminate H1.
    + rewrite IH. split; [intros H; right; exact H|].
      intros H. inversion H as [? ? [e H1]|]; subst; [|assumption].
      rewrite E in H1. discriminate H1.
    + split; [intros _; left; eauto | intros _; eauto].
Qed.

Lemma known_stored k : known k = true -> stored_key k.
Proof.
  intros K. split; [exact K|].
  revert K. unfold known, H200_PROVIDERS. cbn [lookup].
  repeat match goal with
         | |- context [if String.eqb ?a k then _ else _] =>
             destruct (String.eqb a k) eqn:?
         end;
    try discriminate;
    match goal with
    | H : String.eqb _ k = true |- _ => apply String.eqb_eq in H; subst k
    end; reflexivity.
Qed.

Lemma csv_loop_spec all_rows rows :
  forall acc lines lines' prices,
    incl rows all_rows ->
    csv_loop rows acc lines = (lines', Ok prices) ->
    NoDup (map fst acc) ->
    Forall (from_csv_row all_rows) acc ->
    NoDup (map fst prices) /\ Forall (from_csv_row all_rows) prices.
Proof.
  induction rows as [|row rest IH]; intros acc lines lines' prices I;
    cbn [csv_loop].
  - intros H N F. inversion H; subst. auto.
  - assert (I' : incl rest all_rows)
      by (intros x Hx; apply I; right; exact Hx).
    destruct row as [pf xf]. cbn [Provider Price].
    destruct pf as [| |ptext]; cbn [field_text]; try discriminate;
      destruct xf as [| |xtext]; cbn [field_text]; try discriminate.
    + (* no provider column *)
      cbn [upper strip strip_with drop_while rstrip_with String.eqb orb].
      intros H N F. apply (IH acc lines lines' prices); auto.
    + cbn [upper strip strip_with drop_while rstrip_with String.eqb orb].
      intros H N F. apply (IH acc lines lines' prices); auto.
    + (* no price column *)
      change (strip "") with ""%string.
      rewrite orb_true_r.
      intros H N F. apply (IH acc lines lines' prices); auto.
    + destruct (String.eqb (strip (upper ptext)) ""
                || String.eqb (strip xtext) "").
      { intros H N F. apply (IH acc lines lines' prices); auto. }
      destruct (lookup (strip (upper ptext)) H200_PROVIDERS) as [info|] eqn:L.
      2:{ intros H N F. eapply (IH acc); eauto. }
      destruct (float_of_str (strip xtext)) as [x|e] eqn:Fx.
      2:{ intros H N F. eapply (IH acc); eauto. }
      intros H N F.
      apply (IH (dict_setitem acc (strip (upper ptext)) x) lines lines' prices);
        auto.
      * apply dict_setitem_NoDup. exact N.
      * apply dict_setitem_values; [exact F|].
        split.
        -- apply known_stored. unfold known. cbn [fst]. rewrite L. reflexivity.
        -- exists ptext, xtext. split; [|auto].
           apply I. left. reflexivity.
Qed.

Lemma csv_loop_raises rows :
  forall acc lines,
    (forall lines' e,
        csv_loop rows acc lines = (lines', Raise e) ->
        e = LibraryError "AttributeError" /\ Exists short rows)
    /\ (Exists short rows ->
        exists lines',
          csv_loop rows acc lines = (lines', Raise (LibraryError "AttributeError"))).
Proof.
  induction rows as [|row rest IH]; intros acc lines; cbn [csv_loop].
  - split; [intros ? ? H; discriminate H | intros H; inversion H].
  - assert (Step : forall acc0 lines0,
               (forall lines' e,
                   csv_loop rest acc0 lines0 = (lines', Raise e) ->
                   e = LibraryError "AttributeError" /\ Exists short (row :: rest))
               /\ (Provider row <> NoValue -> Price row <> NoValue ->
                   Exists short (row :: rest) ->
                   exists lines',
                     csv_loop rest acc0 lines0
                     = (lines', Raise (LibraryError "AttributeError")))).
    { intros acc0 lines0. destruct (IH acc0 lines0) as [IH1 IH2]. split.
      - intros lines' e H. destruct (IH1 lines' e H) as [-> X].
        split; [reflexivity | right; exact X].
      - intros P X H. apply IH2.
        inversion H as [? ? [S|S]|]; subst; [contradiction | contradiction |].
        assumption. }
    destruct row as [pf xf]. cbn [Provider Price] in *.
    destruct pf as [| |ptext]; cbn [field_text].
    2:{ split.
        - intros ? ? H. inversion H. split; [reflexivity|].
          left. left. reflexivity.
        - intros _. eauto. }
    all: destruct xf as [| |xtext]; cbn [field_text].
    all: try (split;
              [intros ? ? H; inversion H; split; [reflexivity|];
               left; right; reflexivity
              |intros _; eauto]).
    all: repeat match goal with
                | |- context [if ?b then _ else _] => destruct b
                | |- context [match lookup ?k ?t with _ => _ end] =>
                    destruct (lookup k t)
                | |- context [match float_of_str ?x with _ => _ end] =>
                    destruct (float_of_str x)
                end.
    all: match goal with
         | |- context [csv_loop _ ?a ?l] => destruct (Step a l) as [S1 S2]
         end.
    all: split; [exact S1 | apply S2; discriminate].
Qed.

End MarketsFiles.

Lemma stored_key_publishable (pair : string * float) :
  ProviderMarkets.stored_key (fst pair) ->
  (exists n, ProviderMarkets.scaled (snd pair) = Ok n) ->
  ProviderMarkets.publishable pair.
Proof.
  intros [K U] S. split; [|exact S].
  rewrite U. unfold ProviderMarkets.known in K.
  destruct (ProviderMarkets.lookup (fst pair) ProviderMarkets.H200_PROVIDERS)
    as [info|]; [eauto | discriminate K].
Qed.

(** X14: what [read_prices_from_index] returns.  A dict is returned
    only for an index object with details, and then it is not empty,
    has each provider once, and every pair in it is the mapped name
    ([AWS], [AZURE], [COREWEAVE], [GCP] or [ORACLE]) of a detail of
    the file with that detail's [effective_price] rounded to four
    decimals.  Such a pair is accepted by both update paths as soon as
    its price has a scaled value: the unknown-provider error cannot
    occur for prices read from the index. *)
Theorem index_prices_are_rounded_prices_of_mapped_providers
  (file : ProviderMarkets.index_content)
  (lines : list ProviderMarkets.reader_message)
  (prices : list (string * float)) :
  ProviderMarkets.read_prices_from_index file = (lines, Ok (Some prices)) ->
  exists details,
    file = ProviderMarkets.IndexDict details
    /\ prices <> []
    /\ NoDup (map fst prices)
    /\ Forall (ProviderMarkets.from_index_entry details) prices
    /\ Forall (fun pair =>
                 (exists n, ProviderMarkets.scaled (snd pair) = Ok n) ->
                 ProviderMarkets.publishable pair) prices.
Proof.
  unfold ProviderMarkets.read_prices_from_index.
  destruct file as [| |e| |details]; try discriminate.
  destruct details as [|entry rest]; [discriminate|].
  destruct (ProviderMarkets.index_loop (entry :: rest) []) as [[|first more]|e]
    eqn:L; try discriminate.
  intros H. inversion H; subst.
  exists (entry :: rest).
  destruct (index_loop_spec (entry :: rest) (entry :: rest) [] _
              (incl_refl _) L (NoDup_nil _) (Forall_nil _)) as [N F].
  split; [reflexivity|]. split; [discriminate|]. split; [exact N|].
  split; [exact F|].
  eapply Forall_impl; [|exact F].
  intros pair [K _] S. apply stored_key_publishable; assumption.
Qed.

Lemma index_prices_are_rounded_prices_of_mapped_providers_witness :
  exists details,
    ProviderMarkets.IndexDict
      [ProviderMarkets.Detail (Some (ProviderMarkets.JStr "Google Cloud"))
                              (Some (ProviderMarkets.JNum 4.55123));
       ProviderMarkets.Detail (Some (ProviderMarkets.JStr "aws"))
                              (Some (ProviderMarkets.JNum 1));
       ProviderMarkets.Detail (Some (ProviderMarkets.JStr "AWS"))
                              (Some (ProviderMarkets.JNum 2.65))]
    = ProviderMarkets.IndexDict details
    /\ [("GCP"%string, 4.5512%float); ("AWS"%string, 2.65%float)] <> []
    /\ NoDup (map fst [("GCP"%string, 4.5512%float); ("AWS"%string, 2.65%float)])
    /\ Forall (ProviderMarkets.from_index_entry details)
              [("GCP"%string, 4.5512%float); ("AWS"%string, 2.65%float)]
    /\ Forall (fun pair =>
                 (exists n, ProviderMarkets.scaled (snd pair) = Ok n) ->
                 ProviderMarkets.publishable pair)
              [("GCP"%string, 4.5512%float); ("AWS"%string, 2.65%float)].
Proof.
  assert (R : ProviderMarkets.read_prices_from_index
                (ProviderMarkets.IndexDict
                   [ProviderMarkets.Detail
                      (Some (ProviderMarkets.JStr "Google Cloud"))
                      (Some (ProviderMarkets.JNum 4.55123));
                    ProviderMarkets.Detail
                      (Some (ProviderMarkets.JStr "aws"))
                      (Some (ProviderMarkets.JNum 1));
                    ProviderMarkets.Detail
                      (Some (ProviderMarkets.JStr "AWS"))
                      (Some (ProviderMarkets.JNum 2.65))])
              = ([ProviderMarkets.MsgPricesRead
                    [("GCP"%string, 4.5512%float); ("AWS"%string, 2.65%float)]],
                 Ok (Some [("GCP"%string, 4.5512%float);
                           ("AWS"%string, 2.65%float)])))
    by (vm_compute; reflexivity).
  exact (index_prices_are_rounded_prices_of_mapped_providers _ _ _ R).
Defined.

(** X15: one malformed detail aborts the index read.  The reader
    raises exactly when some entry of [hyperscaler_details] makes its
    turn of the loop raise, whatever the other entries hold; an entry
    that is no object does ([AttributeError]), and so does an entry
    with a mapped provider name whose [effective_price] is a string
    ([TypeError] from [round]). *)
Theorem a_malformed_detail_aborts_the_index_read
  (details : list ProviderMarkets.index_entry) :
  ((exists e,
       snd (ProviderMarkets.read_prices_from_index
              (ProviderMarkets.IndexDict details)) = Raise e)
   <-> Exists (fun entry =>
                 exists e, ProviderMarkets.index_price_of entry = Raise e)
              details)
  /\ ProviderMarkets.index_price_of ProviderMarkets.NotADict
     = Raise (LibraryError "AttributeError")
  /\ forall name k text,
       dict_get ProviderMarkets.provider_name_map name = Some k ->
       ProviderMarkets.index_price_of
         (ProviderMarkets.Detail (Some (ProviderMarkets.JStr name))
                                 (Some (ProviderMarkets.JStr text)))
       = Raise TypeError.
Proof.
  split; [|split; [reflexivity|]].
  - unfold ProviderMarkets.read_prices_from_index.
    destruct details as [|entry rest].
    + cbn [snd]. split; [intros [e H]; discriminate H | intros H; inversion H].
    + rewrite <- (index_loop_raises (entry :: rest) []).
      destruct (ProviderMarkets.index_loop (entry :: rest) [])
        as [[|first more]|e]; cbn [snd];
        (split; [intros [e' H]; try discriminate H; eauto
                |intros [e' H]; try discriminate H; eauto]).
  - intros name k text G.
    unfold ProviderMarkets.index_price_of.
    assert (T : ProviderMarkets.jtruthy (ProviderMarkets.JStr name) = true).
    { cbn [ProviderMarkets.jtruthy].
      destruct (String.eqb name "") eqn:E; [|reflexivity].
      apply String.eqb_eq in E. subst name. discriminate G. }
    rewrite T. cbn [negb orb ProviderMarkets.is_null ProviderMarkets.map_get rbind].
    rewrite G.
    destruct (known_stored k) as [K _].
    { revert G. unfold ProviderMarkets.provider_name_map. cbn [dict_get].
      repeat match goal with
             | |- context [if ?b then _ else _] => destruct b
             end; intros H; inversion H; reflexivity. }
    destruct (String.eqb k "") eqn:E.
    { apply String.eqb_eq in E. subst k. cbv in K. discriminate K. }
    unfold ProviderMarkets.known in K.
    destruct (ProviderMarkets.lookup k ProviderMarkets.H200_PROVIDERS);
      [|discriminate K].
    reflexivity.
Qed.

(** X16: what [read_prices_from_csv] returns.  A dict is returned only
    for a file with rows, and then it is not empty, has each provider
    once, and every pair in it comes from a row with both fields: its
    key is that row's provider, upper-cased and stripped, and a key of
    [H200_PROVIDERS]; its price is what [float] reads in the row's
    stripped price.  Rows with an empty field, an unknown provider or
    a price that is no number contribute nothing. *)
Theorem csv_prices_are_parsed_prices_of_known_providers
  (file : ProviderMarkets.csv_content)
  (lines : list ProviderMarkets.reader_message)
  (prices : list (string * float)) :
  ProviderMarkets.read_prices_from_csv file = (lines, Ok (Some prices)) ->
  exists rows,
    file = ProviderMarkets.CsvRows rows
    /\ prices <> []
    /\ NoDup (map fst prices)
    /\ Forall (ProviderMarkets.from_csv_row rows) prices
    /\ Forall (fun pair =>
                 (exists n, ProviderMarkets.scaled (snd pair) = Ok n) ->
                 ProviderMarkets.publishable pair) prices.
Proof.
  unfold ProviderMarkets.read_prices_from_csv.
  destruct file as [|e|rows]; try discriminate.
  destruct rows as [|row rest]; [discriminate|].
  destruct (ProviderMarkets.csv_loop (row :: rest) [] [])
    as [lines' [[|first more]|e]] eqn:L; try discriminate.
  intros H. inversion H; subst.
  exists (row :: rest).
  destruct (csv_loop_spec (row :: rest) (row :: rest) [] [] _ _
              (incl_refl _) L (NoDup_nil _) (Forall_nil _)) as [N F].
  split; [reflexivity|]. split; [discriminate|]. split; [exact N|].
  split; [exact F|].
  eapply Forall_impl; [|exact F].
  intros pair [K _] S. apply stored_key_publishable; assumption.
Qed.

Lemma csv_prices_are_parsed_prices_of_known_providers_witness :
  let rows :=
    [{| ProviderMarkets.Provider := ProviderMarkets.Text " aws ";
        ProviderMarkets.Price := ProviderMarkets.Text " 1e1 " |};
     {| ProviderMarkets.Provider := ProviderMarkets.Text "foo";
        ProviderMarkets.Price := ProviderMarkets.Text "1" |};
     {| ProviderMarkets.Provider := ProviderMarkets.Text "AZURE";
        ProviderMarkets.Price := ProviderMarkets.Text "abc" |};
     {| ProviderMarkets.Provider := ProviderMarkets.Text "";
        ProviderMarkets.Price := ProviderMarkets.Text "" |};
     {| ProviderMarkets.Provider := ProviderMarkets.Text "AWS";
        ProviderMarkets.Price := ProviderMarkets.Text "2.65" |}] in
  exists rows',
    ProviderMarkets.CsvRows rows = ProviderMarkets.CsvRows rows'
    /\ [("AWS"%string, 2.65%float)] <> []
    /\ NoDup (map fst [("AWS"%string, 2.65%float)])
    /\ Forall (ProviderMarkets.from_csv_row rows') [("AWS"%string, 2.65%float)]
    /\ Forall (fun pair =>
                 (exists n, ProviderMarkets.scaled (snd pair) = Ok n) ->
                 ProviderMarkets.publishable pair)
              [("AWS"%string, 2.65%float)].
Proof.
  intros rows.
  assert (R : ProviderMarkets.read_prices_from_csv (ProviderMarkets.CsvRows rows)
              = ([ProviderMarkets.MsgUnknownProvider "FOO";
                  ProviderMarkets.MsgInvalidPrice "AZURE" "abc";
                  ProviderMarkets.MsgPricesRead [("AWS"%string, 2.65%float)]],
                 Ok (Some [("AWS"%string, 2.65%float)])))
    by (vm_compute; reflexivity).
  exact (csv_prices_are_parsed_prices_of_known_providers _ _ _ R).
Defined.

(** X17: a CSV row that is shorter than the header makes the reader
    raise.  [csv.DictReader] gives such a row [None] for the missing
    field, on which [.upper()] or [.strip()] is called outside every
    [try]: the reader raises [AttributeError] exactly when the file has
    such a row, whatever the other rows hold, and it raises nothing
    else. *)
Theorem a_short_csv_row_makes_the_reader_raise
  (rows : list ProviderMarkets.csv_row) :
  (forall e,
      snd (ProviderMarkets.read_prices_from_csv (ProviderMarkets.CsvRows rows))
        = Raise e ->
      e = LibraryError "AttributeError")
  /\ (Exists ProviderMarkets.short rows
      <-> snd (ProviderMarkets.read_prices_from_csv
                 (ProviderMarkets.CsvRows rows))
          = Raise (LibraryError "AttributeError")).
Proof.
  unfold ProviderMarkets.read_prices_from_csv.
  destruct rows as [|row rest].
  { cbn [snd]. split; [intros e H; discriminate H|].
    split; [intros H; inversion H | intros H; discriminate H]. }
  destruct (csv_loop_raises (row :: rest) [] []) as [R1 R2].
  destruct (ProviderMarkets.csv_loop (row :: rest) [] [])
    as [lines [[|first more]|e]] eqn:L; cbn [snd].
  - split; [intros e H; discriminate H|].
    split; [|intros H; discriminate H].
    intros X. destruct (R2 X) as [lines' H]. discriminate H.
  - split; [intros e H; discriminate H|].
    split; [|intros H; discriminate H].
    intros X. destruct (R2 X) as [lines' H]. discriminate H.
  - destruct (R1 lines e eq_refl) as [-> X].
    split; [intros e H; inversion H; reflexivity|].
    split; [reflexivity | intros _; exact X].
Qed.

(** ** The command line *)

Lemma dict_get_setitem {A : Type} (d : list (string * A)) key value k :
  dict_get (dict_setitem d key value) k
  = if String.eqb key k then Some value else dict_get d k.
Proof.
  induction d as [|[k0 v0] d IH]; cbn [dict_setitem dict_get].
  - destruct (String.eqb key k); reflexivity.
  - destruct (String.eqb k0 key) eqn:E; cbn [dict_get].
    + apply String.eqb_eq in E. subst k0.
      destruct (String.eqb key k); reflexivity.
    + destruct (String.eqb k0 k) eqn:E0.
      * apply String.eqb_eq in E0. subst k0. rewrite String.eqb_sym, E.
        reflexivity.
      * exact IH.
Qed.

Section MarketsSelection.
Import ProviderMarkets.

Lemma pair_up_NoDup providers :
  forall prices acc,
    NoDup (map fst acc) -> NoDup (map fst (pair_up providers prices acc)).
Proof.
  induction providers as [|p ps IH]; intros [|x xs] acc N; cbn [pair_up];
    try exact N.
  apply IH. apply dict_setitem_NoDup. exact N.
Qed.

Lemma pair_up_not_empty providers :
  forall prices acc, acc <> [] -> pair_up providers prices acc <> [].
Proof.
  induction providers as [|p ps IH]; intros [|x xs] acc N; cbn [pair_up];
    try exact N.
  apply IH. apply dict_setitem_not_empty.
Qed.

(** The price a key ends with: that of the last pair that names it,
    or the one it had. *)
Lemma pair_up_get providers :
  forall prices acc k x,
    dict_get (pair_up providers prices acc) k = Some x
    <-> (exists before p after,
            combine providers prices = before ++ (p, x) :: after
            /\ upper p = k
            /\ Forall (fun later => upper (fst later) <> k) after)
        \/ (Forall (fun later => upper (fst later) <> k)
                   (combine providers prices)
            /\ dict_get acc k = Some x).
Proof.
  assert (Nil : forall acc k x,
             dict_get acc k = Some x
             <-> (exists before (p : string) after,
                     @nil (string * float) = before ++ (p, x) :: after
                     /\ upper p = k
                     /\ Forall (fun later => upper (fst later) <> k) after)
                 \/ (Forall (fun later : string * float => upper (fst later) <> k) []
                     /\ dict_get acc k = Some x)).
  { intros acc k x. split.
    - intros H. right. split; [constructor | exact H].
    - intros [(before & p & after & E & _)|[_ H]]; [|exact H].
      destruct before; discriminate E. }
  induction providers as [|p ps IH]; intros [|x0 xs] acc k x;
    cbn [pair_up combine]; try apply Nil.
  rewrite IH, dict_get_setitem. split.
  - intros [(before & q & after & E & U & F)|[F G]].
    + left. exists ((p, x0) :: before), q, after. rewrite E.
      split; [reflexivity|]. split; assumption.
    + destruct (String.eqb (upper p) k) eqn:K.
      * apply String.eqb_eq in K. inversion G; subst x0.
        left. exists [], p, (combine ps xs).
        split; [reflexivity|]. split; assumption.
      * apply String.eqb_neq in K. right. split; [|exact G].
        constructor; [exact K | exact F].
  - intros [(before & q & after & E & U & F)|[F G]].
    + destruct before as [|b before]; cbn [app] in E; inversion E; subst.
      * right. split; [exact F|]. rewrite String.eqb_refl. reflexivity.
      * left. exists before, q, after. split; [assumption|].
        split; [reflexivity | exact F].
    + inversion F as [|? ? K F']; subst. cbn [fst] in K.
      right. split; [exact F'|].
      apply String.eqb_neq in K. rewrite K. exact G.
Qed.

End MarketsSelection.

(** X18: [--provider] and [--price] given a different number of times
    end the selection with status 1.  Given the same number of times
    they are paired in order under the upper-cased provider: the
    selection is not empty and has each provider once, with the price
    of the last pair that names it. *)
Theorem a_repeated_provider_keeps_its_last_price
  (cfg : ProviderMarkets.config) (a : ProviderMarkets.args)
  (providers : list string) (prices : list float) :
  ProviderMarkets.unset (ProviderMarkets.from_index a) = true ->
  ProviderMarkets.unset (ProviderMarkets.csv a) = true ->
  ProviderMarkets.all a = false ->
  ProviderMarkets.arg_provider a = Some providers ->
  ProviderMarkets.arg_price a = Some prices ->
  providers <> [] ->
  prices <> [] ->
  if Nat.eqb (List.length providers) (List.length prices) then
    exists selected,
      ProviderMarkets.prices_to_update cfg a
      = ([], Ok (ProviderMarkets.Selected selected))
      /\ selected <> []
      /\ NoDup (map fst selected)
      /\ forall k x,
           dict_get selected k = Some x
           <-> exists before p after,
                 combine providers prices = before ++ (p, x) :: after
                 /\ upper p = k
                 /\ Forall (fun later => upper (fst later) <> k) after
  else
    ProviderMarkets.prices_to_update cfg a
    = ([ProviderMarkets.MsgCountsDiffer], Ok (ProviderMarkets.Stop 1)).
Proof.
  intros I C A P X Np Nx.
  unfold ProviderMarkets.prices_to_update. rewrite I, C, A, P, X. cbn [negb].
  destruct providers as [|p ps]; [contradiction|].
  destruct prices as [|x xs]; [contradiction|].
  destruct (Nat.eqb (List.length (p :: ps)) (List.length (x :: xs)));
    cbn [negb]; [|reflexivity].
  eexists. split; [reflexivity|].
  split.
  { cbn [ProviderMarkets.pair_up]. apply pair_up_not_empty.
    apply dict_setitem_not_empty. }
  split; [apply pair_up_NoDup; constructor|].
  intros k x1. rewrite pair_up_get. split.
  - intros [H|[_ H]]; [exact H | discriminate H].
  - intros H. left. exact H.
Qed.

Lemma a_repeated_provider_keeps_its_last_price_witness :
  exists selected,
    ProviderMarkets.prices_to_update
      ProviderMarkets.sample_config
      {| ProviderMarkets.csv := None;
         ProviderMarkets.from_index := None;
         ProviderMarkets.arg_provider := Some ["aws"; "GCP"; "AWS"]%string;
         ProviderMarkets.arg_price := Some [2.5; 4.6; 2.75]%float;
         ProviderMarkets.all := false;
         ProviderMarkets.oracle := None; ProviderMarkets.aws := None;
         ProviderMarkets.coreweave := None; ProviderMarkets.gcp := None;
         ProviderMarkets.azure := None |}
    = ([], Ok (ProviderMarkets.Selected selected))
    /\ selected <> []
    /\ NoDup (map fst selected)
    /\ forall k x,
         dict_get selected k = Some x
         <-> exists before p after,
               combine ["aws"; "GCP"; "AWS"]%string [2.5; 4.6; 2.75]%float
               = before ++ (p, x) :: after
               /\ upper p = k
               /\ Forall (fun later => upper (fst later) <> k) after.
Proof.
  exact (a_repeated_provider_keeps_its_last_price
           ProviderMarkets.sample_config
           {| ProviderMarkets.csv := None;
              ProviderMarkets.from_index := None;
              ProviderMarkets.arg_provider := Some ["aws"; "GCP"; "AWS"]%string;
              ProviderMarkets.arg_price := Some [2.5; 4.6; 2.75]%float;
              ProviderMarkets.all := false;
              ProviderMarkets.oracle := None; ProviderMarkets.aws := None;
              ProviderMarkets.coreweave := None; ProviderMarkets.gcp := None;
              ProviderMarkets.azure := None |}
           ["aws"; "GCP"; "AWS"]%string [2.5; 4.6; 2.75]%float
           eq_refl eq_refl eq_refl eq_refl eq_refl
           ltac:(discriminate) ltac:(discriminate)).
Defined.

(** X19: with [--all], the selection holds the providers whose flag is
    given with a price that is not zero, in the order ORACLE, AWS,
    COREWEAVE, GCP, AZURE: a flag of [0] counts as not given, and
    when no flag is left the selection ends with status 1. *)
Theorem all_selects_the_flags_that_are_not_zero
  (cfg : ProviderMarkets.config) (a : ProviderMarkets.args) :
  ProviderMarkets.unset (ProviderMarkets.from_index a) = true ->
  ProviderMarkets.unset (ProviderMarkets.csv a) = true ->
  ProviderMarkets.all a = true ->
  let given :=
    flat_map (fun flag : string * option float =>
                match snd flag with
                | Some price => if truthy price then [(fst flag, price)] else []
                | None => []
                end)
             [("ORACLE"%string, ProviderMarkets.oracle a);
              ("AWS"%string, ProviderMarkets.aws a);
              ("COREWEAVE"%string, ProviderMarkets.coreweave a);
              ("GCP"%string, ProviderMarkets.gcp a);
              ("AZURE"%string, ProviderMarkets.azure a)] in
  ProviderMarkets.prices_to_update cfg a
  = match given with
    | [] => ([ProviderMarkets.MsgAllNeedsAPrice], Ok (ProviderMarkets.Stop 1))
    | _ :: _ => ([], Ok (ProviderMarkets.Selected given))
    end.
Proof.
  intros I C A given. subst given.
  unfold ProviderMarkets.prices_to_update. rewrite I, C, A. cbn [negb].
  unfold ProviderMarkets.with_flag. cbn [flat_map fst snd].
  destruct (ProviderMarkets.oracle a) as [x1|];
    [destruct (truthy x1)|];
    (destruct (ProviderMarkets.aws a) as [x2|];
     [destruct (truthy x2)|]);
    (destruct (ProviderMarkets.coreweave a) as [x3|];
     [destruct (truthy x3)|]);
    (destruct (ProviderMarkets.gcp a) as [x4|];
     [destruct (truthy x4)|]);
    (destruct (ProviderMarkets.azure a) as [x5|];
     [destruct (truthy x5)|]);
    reflexivity.
Qed.

Lemma all_selects_the_flags_that_are_not_zero_witness :
  ProviderMarkets.prices_to_update
    ProviderMarkets.sample_config
    {| ProviderMarkets.csv := None;
       ProviderMarkets.from_index := None;
       ProviderMarkets.arg_provider := None;
       ProviderMarkets.arg_price := None;
       ProviderMarkets.all := true;
       ProviderMarkets.oracle := None;
       ProviderMarkets.aws := Some 0%float;
       ProviderMarkets.coreweave := None;
       ProviderMarkets.gcp := Some 4.55%float;
       ProviderMarkets.azure := Some (-1)%float |}
  = ([], Ok (ProviderMarkets.Selected
               [("GCP"%string, 4.55%float); ("AZURE"%string, (-1)%float)])).
Proof.
  exact (all_selects_the_flags_that_are_not_zero
           ProviderMarkets.sample_config
           {| ProviderMarkets.csv := None;
              ProviderMarkets.from_index := None;
              ProviderMarkets.arg_provider := None;
              ProviderMarkets.arg_price := None;
              ProviderMarkets.all := true;
              ProviderMarkets.oracle := None;
              ProviderMarkets.aws := Some 0%float;
              ProviderMarkets.coreweave := None;
              ProviderMarkets.gcp := Some 4.55%float;
              ProviderMarkets.azure := Some (-1)%float |}
           eq_refl eq_refl eq_refl).
Defined.

(** ** A run of the provider markets, from the command line on *)

Section MarketsMain.
Context {W : Type} {node : Node W} {views : Views W} {calendar : Calendar}.
Import ProviderMarkets.

Lemma markets_single_ok self provider price (w w' : W) h t :
  update_single_price self provider price w = (Ok h, w', t) ->
  List.length (sent_transactions t) = 1%nat.
Proof.
  cbv [update_single_price print_receipt _send_transaction _submit
       Run.try_except Run.bind Run.emit Run.ret Run.lift Run.call Run.raise].
  run_cases; intros H; inversion H; subst; reflexivity.
Qed.

Lemma markets_batch_ok self prices (w w' : W) h t :
  batch_update_prices self prices w = (Ok h, w', t) ->
  List.length (sent_transactions t) = 1%nat.
Proof.
  unfold batch_update_prices.
  unfold Run.bind at 1. unfold Run.emit at 1.
  unfold Run.bind at 1.
  destruct (batch_loop prices [] [] w) as [[r w1] tl] eqn:B.
  destruct (batch_loop_printed _ _ _ _ _ _ _ B) as [-> P].
  destruct r as [[ids ns]|e].
  - cbv [print_receipt _send_transaction _submit
         Run.try_except Run.bind Run.emit Run.ret Run.lift Run.call Run.raise].
    run_cases; intros H; inversion H; subst;
      cbn [app sent_transactions];
      rewrite ?markets_sent_app, ?(markets_printed_sends_nothing tl P);
      reflexivity.
  - intros H. discriminate H.
Qed.

Lemma markets_execute_ok self prices (w w' : W) h t :
  execute_update self prices w = (Ok h, w', t) ->
  List.length (sent_transactions t) = 1%nat.
Proof.
  unfold execute_update.
  destruct (List.length prices =? 1)%nat.
  - destruct prices as [|[provider price] rest].
    + intros H. discriminate H.
    + apply markets_single_ok.
  - apply markets_batch_ok.
Qed.

(** What [main] does once the prices are selected. *)
Lemma markets_main_update_outcomes self prices (w : W) :
  exists r w' t,
    main_update self prices w = (r, w', t)
    /\ (List.length (sent_transactions t) <= 1)%nat
    /\ (sent_transactions t <> [] ->
        existsb (fun pair => PrimFloat.leb (snd pair) 0) prices = false)
    /\ match r with
       | Ok code =>
           (code = 0 /\ List.length (sent_transactions t) = 1%nat)
           \/ code = 1
       | Raise e =>
           sent_transactions t = []
           /\ existsb (fun pair => PrimFloat.leb (snd pair) 0) prices = false
           /\ fst (fst (display_current_prices w)) = Raise e
       end.
Proof.
  destruct (markets_main_update_eq self prices w) as (tv & P & E).
  rewrite E. clear E.
  destruct (existsb (fun pair => PrimFloat.leb (snd pair) 0) prices).
  { eexists _, _, _. split; [reflexivity|].
    rewrite (markets_printed_sends_nothing tv P).
    split; [cbn; lia|]. split; [intros H; exfalso; apply H; reflexivity|].
    right. reflexivity. }
  destruct (display_current_prices_quiet w) as (r & w0 & td & D & Q).
  rewrite D.
  destruct r as [[]|e0].
  2:{ eexists _, _, _. split; [reflexivity|].
      rewrite markets_sent_app, (markets_printed_sends_nothing tv P),
        (markets_reads_send_nothing td Q).
      cbn [app List.length fst].
      split; [lia|]. split; [reflexivity|].
      split; [reflexivity|]. split; reflexivity. }
  pose proof (markets_execute_sends self prices w0) as S.
  destruct (execute_update self prices w0) as [[[h|e] w1] te] eqn:X;
    cbn [snd] in S.
  - pose proof (markets_execute_ok _ _ _ _ _ _ X) as S1.
    destruct (eth_block_number w1) as [[n|e] w2];
      [destruct (log_entries prices);
       [cbv zeta;
        destruct (display_current_prices_quiet w2)
          as (r' & w3 & td' & D' & Q');
        rewrite D'; destruct r' as [[]|e']|]|];
      (eexists _, _, _; split; [reflexivity|]);
      rewrite ?markets_sent_app, (markets_printed_sends_nothing tv P),
        (markets_reads_send_nothing td Q),
        ?(markets_reads_send_nothing td' Q');
      cbn [sent_transactions app]; rewrite ?app_nil_r;
      (split; [exact S|]); (split; [reflexivity|]);
      first [left; split; [reflexivity | exact S1] | right; reflexivity].
  - eexists _, _, _. split; [reflexivity|].
    rewrite ?markets_sent_app, (markets_printed_sends_nothing tv P),
      (markets_reads_send_nothing td Q).
    cbn [sent_transactions app]. rewrite ?app_nil_r.
    split; [exact S|]. split; [reflexivity|]. right. reflexivity.
Qed.

Lemma markets_submitted_by_app (t1 t2 : list main_event) :
  submitted_by (t1 ++ t2) = submitted_by t1 ++ submitted_by t2.
Proof. apply flat_map_app. Qed.

Lemma markets_submitted_by_methods (t : list event) :
  submitted_by (map Method t) = sent_transactions t.
Proof.
  unfold submitted_by.
  induction t as [|ev t IH]; [reflexivity|].
  cbn [map flat_map]. rewrite IH. destruct ev as [c|[]|m|v]; reflexivity.
Qed.

Lemma markets_submitted_by_says (lines : list main_message) :
  submitted_by (map Say lines) = [].
Proof. induction lines as [|m lines IH]; [reflexivity | exact IH]. Qed.

(** The constructor submits nothing, and it returns only from a node
    that says it is connected. *)
Lemma markets_init_spec cfg (w w' : W) r t :
  __init__ cfg w = (r, w', t) ->
  submitted_by t = []
  /\ forall self, r = Ok self -> In (Viewed (IsConnected true)) t.
Proof.
  cbv [__init__
       Run.try_except Run.bind Run.emit Run.ret Run.lift Run.call Run.raise
       Run.relabel Run.ask].
  run_cases_eqn; intros H; inversion H; subst; clear H;
    (split; [reflexivity|]); intros self S; try discriminate S;
    repeat match goal with
           | H : negb ?b = false |- _ => destruct b; [clear H | discriminate H]
           end;
    find_in.
Qed.

(** A selection is never empty. *)
Lemma markets_selected_not_empty cfg a prices :
  snd (prices_to_update cfg a) = Ok (Selected prices) -> prices <> [].
Proof.
  assert (O : forall read, or_exit read = Selected prices -> prices <> []).
  { intros [[|first rest]|]; cbn [or_exit]; intros H; inversion H.
    discriminate. }
  unfold prices_to_update.
  destruct (negb (unset (from_index a))).
  { destruct (read_prices_from_index (index_file cfg)) as [lines [read|e]];
      cbn [snd]; intros H; inversion H. eapply O. eassumption. }
  destruct (negb (unset (csv a))).
  { destruct (read_prices_from_csv (csv_file cfg)) as [lines [read|e]];
      cbn [snd]; intros H; inversion H. eapply O. eassumption. }
  destruct (all a).
  { match goal with
    | |- context [match ?d with [] => _ | _ :: _ => _ end] =>
        destruct d as [|first rest] eqn:D
    end; cbn [snd]; intros H; inversion H. discriminate. }
  destruct (arg_provider a) as [[|p ps]|];
    try (cbn [snd]; intros H; discriminate H).
  destruct (arg_price a) as [[|x xs]|];
    try (cbn [snd]; intros H; discriminate H).
  destruct (negb (Nat.eqb (List.length (p :: ps)) (List.length (x :: xs))));
    cbn [snd]; intros H; inversion H.
  apply pair_up_not_empty. discriminate.
Qed.

(** [main] once the key is there, in terms of the constructor, of the
    selection and of the update. *)
Lemma markets_main_eq cfg a (w : W) :
  main cfg a w
  = if unset (PRIVATE_KEY cfg) then (Ok 1, w, [Say MsgNoPrivateKey])
    else
      match __init__ cfg w with
      | (Ok self, w1, ti) =>
          match prices_to_update cfg a with
          | (lines, Ok (Selected prices)) =>
              let '(r, w2, tm) := main_update self prices w1 in
              (r, w2, ti ++ map Say lines ++ map Method tm)
          | (lines, Ok (Stop code)) => (Ok code, w1, ti ++ map Say lines)
          | (lines, Raise e) => (Raise e, w1, ti ++ map Say lines)
          end
      | (Raise ConnectionError, w1, ti) =>
          (Ok 1, w1, ti ++ [Say MsgConnectionError])
      | (Raise e, w1, ti) => (Raise e, w1, ti)
      end.
Proof.
  unfold main.
  destruct (unset (PRIVATE_KEY cfg)); [reflexivity|].
  unfold Run.bind at 1. unfold Run.try_except. unfold Run.bind at 1.
  destruct (__init__ cfg w) as [[[self|e] w1] ti].
  - cbv [Run.ret]. rewrite !app_nil_r.
    destruct (prices_to_update cfg a) as [lines [[prices|code]|e]];
      cbv [Run.bind Run.tell Run.lift Run.ret Run.relabel Run.raise].
    + destruct (main_update self prices w1) as [[r w2] tm].
      rewrite ?app_nil_r. reflexivity.
    + rewrite ?app_nil_r. reflexivity.
    + rewrite ?app_nil_r. reflexivity.
  - destruct e; cbv [Run.bind Run.emit Run.ret Run.raise];
      rewrite ?app_nil_r; reflexivity.
Qed.

End MarketsMain.

(** X20: a run of [main] of the provider markets submits at most one
    transaction, and it submits one only with a private key set, from
    a node that said it is connected, and for a selection that is not
    empty and whose prices are all above zero: an empty batch is never
    sent. *)
Theorem the_markets_run_submits_only_a_checked_selection
  (W : Type) (node : Node W) (views : Views W) (calendar : Calendar)
  (cfg : ProviderMarkets.config) (a : ProviderMarkets.args) (w : W) :
  let t := snd (ProviderMarkets.main cfg a w) in
  (List.length (ProviderMarkets.submitted_by t) <= 1)%nat
  /\ (ProviderMarkets.submitted_by t <> [] ->
      ProviderMarkets.unset (ProviderMarkets.PRIVATE_KEY cfg) = false
      /\ In (ProviderMarkets.Viewed (IsConnected true)) t
      /\ exists prices,
           snd (ProviderMarkets.prices_to_update cfg a)
           = Ok (ProviderMarkets.Selected prices)
           /\ prices <> []
           /\ existsb (fun pair => PrimFloat.leb (snd pair) 0) prices = false).
Proof.
  intros t. subst t. rewrite markets_main_eq.
  destruct (ProviderMarkets.unset (ProviderMarkets.PRIVATE_KEY cfg)).
  { cbn. split; [lia|]. intros H. exfalso. apply H. reflexivity. }
  destruct (ProviderMarkets.__init__ cfg w) as [[[self|e] w1] ti] eqn:I;
    destruct (markets_init_spec _ _ _ _ _ I) as [Si Vi].
  - pose proof (markets_selected_not_empty cfg a) as N.
    destruct (ProviderMarkets.prices_to_update cfg a)
      as [lines [[prices|code]|e]]; cbn [snd] in N |- *.
    + destruct (markets_main_update_outcomes self prices w1)
        as (r & w2 & tm & E & S & P & _).
      rewrite E. cbn [snd].
      rewrite !markets_submitted_by_app, Si, markets_submitted_by_says,
        markets_submitted_by_methods.
      cbn [app]. split; [exact S|].
      intros H. split; [reflexivity|].
      split; [apply in_or_app; left; exact (Vi self eq_refl)|].
      exists prices. split; [reflexivity|].
      split; [exact (N prices eq_refl) | exact (P H)].
    + rewrite markets_submitted_by_app, Si, markets_submitted_by_says.
      cbn. split; [lia|]. intros H. exfalso. apply H. reflexivity.
    + rewrite markets_submitted_by_app, Si, markets_submitted_by_says.
      cbn. split; [lia|]. intros H. exfalso. apply H. reflexivity.
  - destruct e; cbn [snd];
      rewrite ?markets_submitted_by_app, Si; cbn;
      (split; [lia|]); intros H; exfalso; apply H; reflexivity.
Qed.

(** X21: how a run of [main] of the provider markets can end, once
    [parse_args] has returned for a command line without [--show].
    An exit status is 0 or 1, and it is 0 only after exactly one
    transaction was submitted.  An exception leaves [main] from three
    places only, each before anything is submitted: the constructor,
    of whose exceptions only [ConnectionError] is turned into status
    1; the reader of the index or CSV file; and the first display of
    the current prices, which is outside the [try].  What the update
    or the second display raises never leaves [main]. *)
Theorem the_markets_run_handles_only_connection_errors
  (W : Type) (node : Node W) (views : Views W) (calendar : Calendar)
  (cfg : ProviderMarkets.config) (a : ProviderMarkets.args) (w : W) :
  let started := fst (fst (ProviderMarkets.__init__ cfg w)) in
  let selected := snd (ProviderMarkets.prices_to_update cfg a) in
  let ended := fst (fst (ProviderMarkets.main cfg a w)) in
  let t := snd (ProviderMarkets.main cfg a w) in
  (forall code,
      ended = Ok code ->
      (code = 0 /\ List.length (ProviderMarkets.submitted_by t) = 1%nat)
      \/ code = 1)
  /\ (ProviderMarkets.unset (ProviderMarkets.PRIVATE_KEY cfg) = true ->
      ProviderMarkets.main cfg a w
      = (Ok 1, w, [ProviderMarkets.Say ProviderMarkets.MsgNoPrivateKey]))
  /\ (ProviderMarkets.unset (ProviderMarkets.PRIVATE_KEY cfg) = false ->
      (started = Raise ConnectionError ->
       ended = Ok 1 /\ ProviderMarkets.submitted_by t = [])
      /\ (forall e,
             e <> ConnectionError ->
             started = Raise e ->
             ended = Raise e /\ ProviderMarkets.submitted_by t = [])
      /\ (forall self e,
             started = Ok self ->
             selected = Raise e ->
             ended = Raise e /\ ProviderMarkets.submitted_by t = []))
  /\ (forall e,
      ended = Raise e ->
      ProviderMarkets.submitted_by t = []
      /\ ((e <> ConnectionError /\ started = Raise e)
          \/ ((exists self, started = Ok self) /\ selected = Raise e)
          \/ ((exists self, started = Ok self)
              /\ (exists prices,
                     selected = Ok (ProviderMarkets.Selected prices))
              /\ fst (fst (ProviderMarkets.display_current_prices
                             (snd (fst (ProviderMarkets.__init__ cfg w)))))
                 = Raise e))).
Proof.
  intros started selected ended t. subst started selected ended t.
  rewrite markets_main_eq.
  destruct (ProviderMarkets.unset (ProviderMarkets.PRIVATE_KEY cfg)).
  { split; [intros code H; inversion H; right; reflexivity|].
    split; [reflexivity|].
    split; [intros H; discriminate H | intros e H; discriminate H]. }
  destruct (ProviderMarkets.__init__ cfg w) as [[[self|e] w1] ti] eqn:I;
    destruct (markets_init_spec _ _ _ _ _ I) as [Si Vi]; cbn [fst snd].
  - assert (S1 : forall code,
               snd (ProviderMarkets.prices_to_update cfg a)
               = Ok (ProviderMarkets.Stop code) -> code = 1).
    { intros code. unfold ProviderMarkets.prices_to_update.
      assert (O : forall read,
                 ProviderMarkets.or_exit read = ProviderMarkets.Stop code ->
                 code = 1).
      { intros [[|first rest]|]; cbn [ProviderMarkets.or_exit]; intros H;
          inversion H; reflexivity. }
      repeat match goal with
             | |- context [match ?x with _ => _ end] =>
                 lazymatch x with
                 | context [match _ with _ => _ end] => fail
                 | _ => destruct x eqn:?
                 end
             | |- context [if ?x then _ else _] =>
                 lazymatch x with
                 | context [if _ then _ else _] => fail
                 | context [match _ with _ => _ end] => fail
                 | _ => destruct x eqn:?
                 end
             end;
        cbn [snd]; intros H; inversion H; subst; try reflexivity;
        eapply O; eassumption. }
    destruct (ProviderMarkets.prices_to_update cfg a)
      as [lines [[prices|code]|e]]; cbn [snd] in S1 |- *.
    + destruct (markets_main_update_outcomes self prices w1)
        as (r & w2 & tm & E & S & P & R).
      rewrite E. cbn [fst snd].
      rewrite !markets_submitted_by_app, Si, markets_submitted_by_says,
        markets_submitted_by_methods.
      cbn [app].
      split.
      { intros code' H. subst r. exact R. }
      split; [intros H; discriminate H|].
      split.
      { intros _. split; [intros H; discriminate H|].
        split; [intros e _ H; discriminate H
               | intros self' e _ H; discriminate H]. }
      intros e H. subst r. destruct R as (R1 & _ & R3).
      split; [exact R1|]. right. right.
      split; [exists self; reflexivity|].
      split; [exists prices; reflexivity | exact R3].
    + cbn [fst snd].
      split; [intros code' H; inversion H; subst; right;
              exact (S1 code' eq_refl)|].
      split; [intros H; discriminate H|].
      split; [|intros e H; discriminate H].
      intros _.
      split; [intros H; discriminate H|].
      split; [intros e _ H; discriminate H | intros self' e _ H; discriminate H].
    + cbn [fst snd].
      rewrite markets_submitted_by_app, Si, markets_submitted_by_says.
      split; [intros code' H; discriminate H|].
      split; [intros H; discriminate H|].
      split.
      { intros _.
        split; [intros H; discriminate H|].
        split; [intros e' _ H; discriminate H|].
        intros self' e' _ H. inversion H; subst. split; reflexivity. }
      intros e' H. inversion H; subst. split; [reflexivity|].
      right. left. split; [exists self; reflexivity | reflexivity].
  - assert (Sc : ProviderMarkets.submitted_by
                   (ti ++ [ProviderMarkets.Say ProviderMarkets.MsgConnectionError])
                 = []).
    { rewrite markets_submitted_by_app, Si. reflexivity. }
    destruct e; cbn [fst snd];
      first
        [ solve
            [ split; [intros code' H; inversion H; right; reflexivity|];
              split; [intros H; discriminate H|];
              split;
              [ intros _;
                split; [intros _; split; [reflexivity | exact Sc]|];
                split;
                [ intros e' N H; inversion H; subst;
                  exfalso; apply N; reflexivity
                | intros self' e' H; discriminate H ]
              | intros e' H; discriminate H ] ]
        | solve
            [ split; [intros code' H; discriminate H|];
              split; [intros H; discriminate H|];
              split;
              [ intros _;
                split; [intros H; discriminate H|];
                split;
                [ intros e' N H; inversion H; subst;
                  split; [reflexivity | exact Si]
                | intros self' e' H; discriminate H ]
              | intros e' H; inversion H; subst;
                split; [exact Si|];
                left; split; [discriminate | reflexivity] ] ] ].
Qed.

Lemma the_markets_run_handles_only_connection_errors_witness :
  let aws_id :=
    "0xb377854a672b5274c99b24e7fe27d9661c60c8b697ca4f974208162655716b3e"%string in
  let w := with_oracle (with_clock (sample_chain (Some 12) 1) 253402300800)
                       [(aws_id, 2600000000000000000)] in
  let a := {| ProviderMarkets.csv := None;
              ProviderMarkets.from_index := None;
              ProviderMarkets.arg_provider := Some ["AWS"%string];
              ProviderMarkets.arg_price := Some [2.65%float];
              ProviderMarkets.all := false;
              ProviderMarkets.oracle := None; ProviderMarkets.aws := None;
              ProviderMarkets.coreweave := None; ProviderMarkets.gcp := None;
              ProviderMarkets.azure := None |} in
  let run := ProviderMarkets.main (calendar := four_digit_years)
                                  ProviderMarkets.sample_config a w in
  fst (fst run) = Raise ValueError
  /\ ProviderMarkets.submitted_by (snd run) = []
  /\ ((ValueError <> ConnectionError
       /\ fst (fst (ProviderMarkets.__init__ ProviderMarkets.sample_config w))
          = Raise ValueError)
      \/ ((exists self,
              fst (fst (ProviderMarkets.__init__
                          ProviderMarkets.sample_config w)) = Ok self)
          /\ snd (ProviderMarkets.prices_to_update
                    ProviderMarkets.sample_config a) = Raise ValueError)
      \/ ((exists self,
              fst (fst (ProviderMarkets.__init__
                          ProviderMarkets.sample_config w)) = Ok self)
          /\ (exists prices,
                 snd (ProviderMarkets.prices_to_update
                        ProviderMarkets.sample_config a)
                 = Ok (ProviderMarkets.Selected prices))
          /\ fst (fst (ProviderMarkets.display_current_prices
                         (calendar := four_digit_years)
                         (snd (fst (ProviderMarkets.__init__
                                      ProviderMarkets.sample_config w)))))
             = Raise ValueError)).
Proof.
  intros aws_id w a run.
  assert (E : fst (fst run) = Raise ValueError) by (vm_compute; reflexivity).
  split; [exact E|].
  exact (proj2 (proj2 (proj2
           (the_markets_run_handles_only_connection_errors
              chain chain_node chain_views four_digit_years
              ProviderMarkets.sample_config a w)))
           ValueError E).
Defined.

(* ================================================================== *)
(** * Properties of the scrapers *)
(* ================================================================== *)

Import Scraper.

(** ** Plausible prices *)

Lemma gcp_validate_one entry price :
  Scraper.reads_as entry price ->
  GCP._validate_prices [entry]
  = PrimFloat.ltb 5 price && PrimFloat.ltb price 25.
Proof.
  destruct entry as [variant price_str].
  intros [E (group & S & F)]. cbn [fst snd] in E, S.
  cbn [GCP._validate_prices GCP._validate_loop].
  rewrite E, S, F.
  destruct (PrimFloat.ltb 5 price && PrimFloat.ltb price 25); reflexivity.
Qed.

Lemma hyperbolic_validate_one entry price :
  Scraper.reads_as entry price ->
  Hyperbolic._validate_prices [entry]
  = PrimFloat.ltb 1.0 price && PrimFloat.ltb price 10.0.
Proof.
  destruct entry as [variant price_str].
  intros [E (group & S & F)]. cbn [fst snd] in E, S.
  cbn [Hyperbolic._validate_prices Hyperbolic._validate_loop].
  rewrite E, S, F.
  destruct (PrimFloat.ltb 1.0 price && PrimFloat.ltb price 10.0); reflexivity.
Qed.

(** a rejected dict goes the way of an empty one *)
Lemma gcp_rejected_is_not_found method_name prices rest :
  GCP._validate_prices prices = false ->
  GCP.get_h200_prices ((method_name, Ok prices) :: rest)
  = GCP.get_h200_prices ((method_name, Ok []) :: rest).
Proof.
  intros V. unfold GCP.get_h200_prices. cbn [GCP.methods_loop].
  rewrite V, andb_false_r. reflexivity.
Qed.

Lemma hyperbolic_rejected_is_not_found method_name prices rest :
  Hyperbolic._validate_prices prices = false ->
  Hyperbolic.get_h200_prices ((method_name, Ok prices) :: rest)
  = Hyperbolic.get_h200_prices ((method_name, Ok []) :: rest).
Proof.
  intros V. unfold Hyperbolic.get_h200_prices. cbn [Hyperbolic.methods_loop].
  rewrite V, andb_false_r. reflexivity.
Qed.

Lemma gcp_all_fail methods :
  Forall GCP.fails methods -> fst (GCP.methods_loop methods) = [].
Proof.
  induction 1 as [|[method_name outcome] rest F _ IH]; [reflexivity|].
  unfold GCP.fails in F. cbn [snd] in F. cbn [GCP.methods_loop].
  destruct outcome as [prices|e].
  - rewrite F, andb_false_r.
    destruct (GCP.methods_loop rest) as [h t]. exact IH.
  - destruct (GCP.methods_loop rest) as [h t]. exact IH.
Qed.

Lemma hyperbolic_all_fail methods :
  Forall Hyperbolic.fails methods ->
  fst (Hyperbolic.methods_loop methods) = [].
Proof.
  induction 1 as [|[method_name outcome] rest F _ IH]; [reflexivity|].
  unfold Hyperbolic.fails in F. cbn [snd] in F.
  cbn [Hyperbolic.methods_loop].
  destruct outcome as [prices|e].
  - rewrite F, andb_false_r.
    destruct (Hyperbolic.methods_loop rest) as [h t]. exact IH.
  - destruct (Hyperbolic.methods_loop rest) as [h t]. exact IH.
Qed.

(** What the plausibility test of the two scrapers is: an open
    interval, 5 to 25 for GCP and 1.0 to 10.0 for Hyperbolic.  The
    value read from the only entry of a result is plausible exactly
    when it lies strictly between the bounds.  A result that
    [_validate_prices] refuses is treated as the empty result of a
    method that found nothing, and when every method fails that way
    the scraper returns the empty dict: no price is published. *)
Theorem plausibility_is_an_open_interval :
  (forall entry price,
      Scraper.reads_as entry price ->
      GCP._validate_prices [entry]
        = PrimFloat.ltb 5 price && PrimFloat.ltb price 25
      /\ Hyperbolic._validate_prices [entry]
         = PrimFloat.ltb 1.0 price && PrimFloat.ltb price 10.0)
  /\ (forall method_name prices rest,
      (GCP._validate_prices prices = false ->
       GCP.get_h200_prices ((method_name, Ok prices) :: rest)
       = GCP.get_h200_prices ((method_name, Ok []) :: rest))
      /\ (Hyperbolic._validate_prices prices = false ->
          Hyperbolic.get_h200_prices ((method_name, Ok prices) :: rest)
          = Hyperbolic.get_h200_prices ((method_name, Ok []) :: rest)))
  /\ (forall methods,
      (Forall GCP.fails methods ->
       fst (GCP.get_h200_prices methods) = Ok [])
      /\ (Forall Hyperbolic.fails methods ->
          fst (Hyperbolic.get_h200_prices methods) = [])).
Proof.
  split; [|split].
  - intros entry price R. split.
    + apply gcp_validate_one. exact R.
    + apply hyperbolic_validate_one. exact R.
  - intros method_name prices rest. split.
    + apply gcp_rejected_is_not_found.
    + apply hyperbolic_rejected_is_not_found.
  - intros methods. split.
    + intros F. pose proof (gcp_all_fail methods F) as E.
      unfold GCP.get_h200_prices.
      destruct (GCP.methods_loop methods) as [h t]. cbn [fst] in E.
      rewrite E. reflexivity.
    + intros F. pose proof (hyperbolic_all_fail methods F) as E.
      unfold Hyperbolic.get_h200_prices.
      destruct (Hyperbolic.methods_loop methods) as [h t]. cbn [fst] in E.
      rewrite E. reflexivity.
Qed.

Lemma plausibility_is_an_open_interval_witness :
  (GCP._validate_prices [("A3-Ultra (Google Cloud)"%string, "$10.78/hr"%string)]
   = PrimFloat.ltb 5 10.78 && PrimFloat.ltb 10.78 25
   /\ Hyperbolic._validate_prices
        [("A3-Ultra (Google Cloud)"%string, "$10.78/hr"%string)]
      = PrimFloat.ltb 1.0 10.78 && PrimFloat.ltb 10.78 10.0)
  /\ Hyperbolic.get_h200_prices
       [("Selenium Scraper"%string,
         Ok [("H200 (Hyperbolic)"%string, "$55.00/hr"%string)]);
        ("Hyperbolic Website Scraping"%string, Raise ConnectionError)]
     = Hyperbolic.get_h200_prices
         [("Selenium Scraper"%string, Ok []);
          ("Hyperbolic Website Scraping"%string, Raise ConnectionError)]
  /\ fst (Hyperbolic.get_h200_prices
            [("Selenium Scraper"%string,
              Ok [("H200 (Hyperbolic)"%string, "$55.00/hr"%string)]);
             ("Hyperbolic Website Scraping"%string, Raise ConnectionError)])
     = [].
Proof.
  split; [|split].
  - apply (proj1 plausibility_is_an_open_interval
             ("A3-Ultra (Google Cloud)"%string, "$10.78/hr"%string)
             10.78%float).
    split; [vm_compute; reflexivity|].
    exists "10.78"%string. split; vm_compute; reflexivity.
  - apply (proj2 (proj1 (proj2 plausibility_is_an_open_interval)
                    "Selenium Scraper"%string
                    [("H200 (Hyperbolic)"%string, "$55.00/hr"%string)]
                    [("Hyperbolic Website Scraping"%string,
                      Raise ConnectionError)])).
    vm_compute. reflexivity.
  - apply (proj2 (proj2 (proj2 plausibility_is_an_open_interval)
                    [("Selenium Scraper"%string,
                      Ok [("H200 (Hyperbolic)"%string, "$55.00/hr"%string)]);
                     ("Hyperbolic Website Scraping"%string,
                      Raise ConnectionError)])).
    constructor; [vm_compute; reflexivity|].
    constructor; [exact I|constructor].
Defined.

(** The bounds themselves are not plausible for the code: 10.0 lies in
    the closed interval from 1.0 to 10.0 and 25.0 in the one from 5 to
    25, but neither scraper accepts them, and a scraper whose only
    result is such a value returns the empty dict. *)
Lemma bounds_are_not_plausible :
  spec_plausible 1.0 10.0 10.0 = true
  /\ Scraper.reads_as ("H200 (Hyperbolic)"%string, "$10.00/hr"%string) 10.0
  /\ Hyperbolic._validate_prices
       [("H200 (Hyperbolic)"%string, "$10.00/hr"%string)] = false
  /\ fst (Hyperbolic.get_h200_prices
            [("Selenium Scraper"%string,
              Ok [("H200 (Hyperbolic)"%string, "$10.00/hr"%string)])])
     = []
  /\ spec_plausible 5 25 25 = true
  /\ Scraper.reads_as ("A3-Ultra (Google Cloud)"%string, "$25.00/hr"%string) 25
  /\ GCP._validate_prices
       [("A3-Ultra (Google Cloud)"%string, "$25.00/hr"%string)] = false
  /\ fst (GCP.get_h200_prices
            [("Vantage Instance Pricing"%string,
              Ok [("A3-Ultra (Google Cloud)"%string, "$25.00/hr"%string)])])
     = Ok [].
Proof.
  split; [vm_compute; reflexivity|].
  split.
  { split; [vm_compute; reflexivity|].
    exists "10.00"%string. split; vm_compute; reflexivity. }
  split; [vm_compute; reflexivity|].
  split; [vm_compute; reflexivity|].
  split; [vm_compute; reflexivity|].
  split.
  { split; [vm_compute; reflexivity|].
    exists "25.00"%string. split; vm_compute; reflexivity. }
  split; vm_compute; reflexivity.
Qed.


(** ** Monthly prices *)

(** C9: the per-GPU monthly price is divided by 730 and the quotient
    multiplied by the exchange rate; for one GPU at 213,500 rupees a
    month and a rate of 0.012 the hourly price in USD is
    [213500 / 730 * 0.012], the double 3.5095890410958903, published
    as ["$3.51/hr"]. *)
Theorem monthly_price_is_divided_by_730_then_converted :
  (forall all_prices_inr inr_to_usd avg_inr_monthly,
      truediv (Py.sum all_prices_inr)
              (float_of_Z (Z.of_nat (List.length all_prices_inr)))
        = Ok avg_inr_monthly ->
      AceCloud.usd_hourly all_prices_inr inr_to_usd
      = Ok (avg_inr_monthly,
            (avg_inr_monthly / 730)%float,
            (avg_inr_monthly / 730 * inr_to_usd)%float))
  /\ AceCloud._try_pricing_page
       (AceCloud.Content true (Some [AceCloud.sample_row]))
     = [213500%float]
  /\ AceCloud.usd_hourly [213500%float] 0.012
     = Ok (213500%float, (213500 / 730)%float, (213500 / 730 * 0.012)%float)
  /\ (213500 / 730 * 0.012)%float = 3.5095890410958903%float
  /\ AceCloud.get_h200_prices
       [AceCloud.ApiJson (Some 0.012%float)]
       (AceCloud.Content true (Some [AceCloud.sample_row])) []
     = Ok (Some {| AceCloud.h200_acecloud := "$3.51/hr";
                   AceCloud._inr_monthly := 213500;
                   AceCloud._exchange_rate := 0.012;
                   AceCloud._all_prices_inr := [213500%float] |}).
Proof.
  split.
  { intros all_prices_inr inr_to_usd avg_inr_monthly A.
    unfold AceCloud.usd_hourly, AceCloud.hours_per_month.
    rewrite A. reflexivity. }
  split; [vm_compute; reflexivity|].
  split; [vm_compute; reflexivity|].
  split; vm_compute; reflexivity.
Qed.

Lemma monthly_price_is_divided_by_730_then_converted_witness :
  AceCloud.usd_hourly [427000%float; 213500%float] 0.012
  = Ok (320250%float, (320250 / 730)%float, (320250 / 730 * 0.012)%float).
Proof.
  apply (proj1 monthly_price_is_divided_by_730_then_converted
           [427000%float; 213500%float] 0.012%float 320250%float).
  vm_compute. reflexivity.
Defined.
(* ================================================================== *)
(** * Further properties: the provider scrapers *)
(* ================================================================== *)

(** ** The AceCloud scraper *)

Section AceCloudPage.
Import AceCloud.

(** A row whose price is divided by a GPU count of zero. *)
Lemma acecloud_extract_rows_zero rows :
  forall r prices,
    In r rows ->
    (5 <= cells r)%nat ->
    mentions_h200 r = true ->
    gpu_count r = 0 ->
    monthly_price r <> None ->
    exists e, _extract_rows rows prices = Raise e.
Proof.
  induction rows as [|r0 rest IH]; intros r prices I C M G P; [destruct I|].
  cbn [_extract_rows].
  destruct I as [->|I].
  - apply Nat.leb_le in C. rewrite C, M, G. cbn [andb].
    destruct (monthly_price r) as [monthly|]; [|contradiction].
    exists ZeroDivisionError. reflexivity.
  - destruct ((5 <=? cells r0)%nat && mentions_h200 r0);
      [|exact (IH r prices I C M G P)].
    destruct (monthly_price r0) as [monthly|];
      [|exact (IH r prices I C M G P)].
    destruct (rbind (float_of_int (gpu_count r0)) (truediv monthly))
      as [per_gpu_price|e]; cbn [rbind].
    + exact (IH r _ I C M G P).
    + exists e. reflexivity.
Qed.

Lemma acecloud_rate_is_the_first_usable replies :
  forall rate,
    get_inr_to_usd_rate replies = Some rate ->
    exists before after,
      replies = before ++ ApiJson (Some rate) :: after
      /\ truthy rate = true
      /\ Forall (fun reply => get_inr_to_usd_rate [reply] = None) before.
Proof.
  induction replies as [|reply rest IH]; intros rate; cbn [get_inr_to_usd_rate];
    [intros H; discriminate H|].
  assert (Skip : get_inr_to_usd_rate [reply] = None ->
                 get_inr_to_usd_rate rest = Some rate ->
                 exists before after,
                   reply :: rest = before ++ ApiJson (Some rate) :: after
                   /\ truthy rate = true
                   /\ Forall (fun reply => get_inr_to_usd_rate [reply] = None)
                             before).
  { intros U H. destruct (IH rate H) as (before & after & E & T & F).
    exists (reply :: before), after. rewrite E.
    split; [reflexivity|]. split; [exact T|]. constructor; assumption. }
  destruct reply as [e|code|[usd|]]; try (apply Skip; reflexivity).
  destruct (truthy usd) eqn:T.
  - intros H. inversion H; subst.
    exists [], rest. split; [reflexivity|]. split; [exact T | constructor].
  - apply Skip. cbn [get_inr_to_usd_rate]. rewrite T. reflexivity.
Qed.

End AceCloudPage.

(** X22: one table row with a GPU count of 0 loses every price of the
    AceCloud pricing page.  The division by the count raises
    [ZeroDivisionError], which only the handler of [_try_pricing_page]
    catches: the method returns the empty list, also when other rows
    are fine, and [get_h200_prices] goes on as for a page without H200
    data. *)
Theorem a_gpu_count_of_zero_discards_the_page
  (rows : list AceCloud.table_row) (r : AceCloud.table_row)
  (replies : list AceCloud.api_reply) (selenium : list float) :
  In r rows ->
  (5 <= AceCloud.cells r)%nat ->
  AceCloud.mentions_h200 r = true ->
  AceCloud.gpu_count r = 0 ->
  AceCloud.monthly_price r <> None ->
  (exists e, AceCloud._extract_from_table (Some rows) = Raise e)
  /\ AceCloud._try_pricing_page (AceCloud.Content true (Some rows)) = []
  /\ AceCloud.get_h200_prices replies (AceCloud.Content true (Some rows))
                              selenium
     = AceCloud.get_h200_prices replies (AceCloud.Content false None)
                                selenium.
Proof.
  intros I C M G P.
  destruct (acecloud_extract_rows_zero rows r [] I C M G P) as [e E].
  assert (T : AceCloud._try_pricing_page (AceCloud.Content true (Some rows))
              = []).
  { cbn [AceCloud._try_pricing_page AceCloud._extract_from_table].
    rewrite E. reflexivity. }
  split; [exists e; exact E|]. split; [exact T|].
  unfold AceCloud.get_h200_prices. rewrite T. reflexivity.
Qed.

Lemma a_gpu_count_of_zero_discards_the_page_witness :
  let rows :=
    [AceCloud.sample_row;
     {| AceCloud.cells := 6; AceCloud.mentions_h200 := true;
        AceCloud.gpu_count := 0;
        AceCloud.monthly_price := Some 427000%float |}] in
  (exists e, AceCloud._extract_from_table (Some rows) = Raise e)
  /\ AceCloud._try_pricing_page (AceCloud.Content true (Some rows)) = []
  /\ AceCloud.get_h200_prices [AceCloud.ApiJson (Some 0.012%float)]
                              (AceCloud.Content true (Some rows)) []
     = AceCloud.get_h200_prices [AceCloud.ApiJson (Some 0.012%float)]
                                (AceCloud.Content false None) [].
Proof.
  intros rows.
  refine (a_gpu_count_of_zero_discards_the_page
            rows
            {| AceCloud.cells := 6; AceCloud.mentions_h200 := true;
               AceCloud.gpu_count := 0;
               AceCloud.monthly_price := Some 427000%float |}
            [AceCloud.ApiJson (Some 0.012%float)] [] _ _ eq_refl eq_refl _).
  - right. left. reflexivity.
  - cbn. lia.
  - discriminate.
Defined.

(** X23: what the AceCloud scraper builds its result from.  It returns
    the empty dict exactly when no endpoint gave a usable rate or
    neither method found a price.  A result carries the rate of the
    first endpoint that answered with a rate that is not zero, and the
    prices of the pricing page when it found any, those of Selenium
    otherwise: the two are never mixed. *)
Theorem acecloud_uses_the_first_rate_and_the_first_prices
  (replies : list AceCloud.api_reply) (p : AceCloud.page)
  (selenium : list float) :
  (AceCloud.get_h200_prices replies p selenium = Ok None
   <-> AceCloud.get_inr_to_usd_rate replies = None
       \/ (AceCloud._try_pricing_page p = [] /\ selenium = []))
  /\ forall r,
       AceCloud.get_h200_prices replies p selenium = Ok (Some r) ->
       (exists before after,
           replies
           = before
             ++ AceCloud.ApiJson (Some (AceCloud._exchange_rate r)) :: after
           /\ truthy (AceCloud._exchange_rate r) = true
           /\ Forall (fun reply => AceCloud.get_inr_to_usd_rate [reply] = None)
                     before)
       /\ AceCloud._all_prices_inr r
          = match AceCloud._try_pricing_page p with
            | [] => selenium
            | found => found
            end
       /\ AceCloud._all_prices_inr r <> [].
Proof.
  unfold AceCloud.get_h200_prices.
  pose proof (acecloud_rate_is_the_first_usable replies) as R.
  destruct (AceCloud.get_inr_to_usd_rate replies) as [rate|].
  2:{ split; [|intros r H; discriminate H].
      split; [intros _; left; reflexivity | reflexivity]. }
  specialize (R rate eq_refl).
  cbn [AceCloud.methods_loop].
  destruct (AceCloud._try_pricing_page p) as [|x xs].
  - destruct selenium as [|y ys].
    + split; [|intros r H; discriminate H].
      split; [intros _; right; split; reflexivity | reflexivity].
    + cbn [app].
      destruct (AceCloud.usd_hourly (y :: ys) rate) as [[[m h] u]|e];
        cbn [rbind].
      * split.
        { split; [intros H; discriminate H|].
          intros [H|[_ H]]; discriminate H. }
        intros r H. inversion H; subst. cbn.
        split; [exact R|]. split; [reflexivity | discriminate].
      * split; [|intros r H; discriminate H].
        split; [intros H; discriminate H|].
        intros [H|[_ H]]; discriminate H.
  - cbn [app].
    destruct (AceCloud.usd_hourly (x :: xs) rate) as [[[m h] u]|e];
      cbn [rbind].
    + split.
      { split; [intros H; discriminate H|].
        intros [H|[H _]]; discriminate H. }
      intros r H. inversion H; subst. cbn.
      split; [exact R|]. split; [reflexivity | discriminate].
    + split; [|intros r H; discriminate H].
      split; [intros H; discriminate H|].
      intros [H|[H _]]; discriminate H.
Qed.

(** ** The method loops of the GCP and Hyperbolic scrapers *)

Lemma gcp_first_plausible before :
  forall name prices after,
    Forall GCP.fails before ->
    GCP._validate_prices prices = true ->
    GCP.methods_loop (before ++ (name, Ok prices) :: after)
    = GCP.methods_loop (before ++ [(name, Ok prices)])
    /\ fst (GCP.methods_loop (before ++ (name, Ok prices) :: after))
       = Scraper.dict_update [] prices.
Proof.
  induction before as [|[n0 o0] before IH]; intros name prices after F V;
    cbn [app GCP.methods_loop].
  - rewrite V.
    destruct prices as [|entry prices]; [discriminate V|].
    cbn [List.length Nat.eqb negb andb]. split; reflexivity.
  - inversion F as [|? ? F0 F']; subst. unfold GCP.fails in F0. cbn [snd] in F0.
    destruct (IH name prices after F' V) as [E1 E2].
    destruct o0 as [p0|e0].
    + rewrite F0, Bool.andb_false_r, E1.
      destruct (GCP.methods_loop (before ++ [(name, Ok prices)])) as [d t] eqn:L.
      rewrite E1 in E2. cbn [fst] in *. split; [reflexivity | exact E2].
    + rewrite E1.
      destruct (GCP.methods_loop (before ++ [(name, Ok prices)])) as [d t] eqn:L.
      rewrite E1 in E2. cbn [fst] in *. split; [reflexivity | exact E2].
Qed.

Lemma hyperbolic_first_plausible before :
  forall name prices after,
    Forall Hyperbolic.fails before ->
    Hyperbolic._validate_prices prices = true ->
    Hyperbolic.methods_loop (before ++ (name, Ok prices) :: after)
    = Hyperbolic.methods_loop (before ++ [(name, Ok prices)])
    /\ fst (Hyperbolic.methods_loop (before ++ (name, Ok prices) :: after))
       = Scraper.dict_update [] prices.
Proof.
  induction before as [|[n0 o0] before IH]; intros name prices after F V;
    cbn [app Hyperbolic.methods_loop].
  - rewrite V.
    destruct prices as [|entry prices]; [discriminate V|].
    cbn [List.length Nat.eqb negb andb]. split; reflexivity.
  - inversion F as [|? ? F0 F']; subst.
    unfold Hyperbolic.fails in F0. cbn [snd] in F0.
    destruct (IH name prices after F' V) as [E1 E2].
    destruct o0 as [p0|e0].
    + rewrite F0, Bool.andb_false_r, E1.
      destruct (Hyperbolic.methods_loop (before ++ [(name, Ok prices)]))
        as [d t] eqn:L.
      rewrite E1 in E2. cbn [fst] in *. split; [reflexivity | exact E2].
    + rewrite E1.
      destruct (Hyperbolic.methods_loop (before ++ [(name, Ok prices)]))
        as [d t] eqn:L.
      rewrite E1 in E2. cbn [fst] in *. split; [reflexivity | exact E2].
Qed.

(** X24: the method loops of the GCP and Hyperbolic scrapers stop at
    the first method whose result has a plausible price.  When every
    earlier method raised or returned nothing plausible, the dict
    collected is that method's result, and what the later methods
    would return changes neither the dict nor the lines printed. *)
Theorem the_first_plausible_method_is_the_result
  (before after : list (string * res Scraper.prices))
  (name : string) (prices : Scraper.prices) :
  (Forall GCP.fails before ->
   GCP._validate_prices prices = true ->
   GCP.methods_loop (before ++ (name, Ok prices) :: after)
   = GCP.methods_loop (before ++ [(name, Ok prices)])
   /\ fst (GCP.methods_loop (before ++ (name, Ok prices) :: after))
      = Scraper.dict_update [] prices)
  /\ (Forall Hyperbolic.fails before ->
      Hyperbolic._validate_prices prices = true ->
      Hyperbolic.methods_loop (before ++ (name, Ok prices) :: after)
      = Hyperbolic.methods_loop (before ++ [(name, Ok prices)])
      /\ fst (Hyperbolic.methods_loop (before ++ (name, Ok prices) :: after))
         = Scraper.dict_update [] prices).
Proof.
  split.
  - apply gcp_first_plausible.
  - apply hyperbolic_first_plausible.
Qed.

Lemma the_first_plausible_method_is_the_result_witness :
  let before :=
    [("first"%string, Raise ValueError);
     ("second"%string, Ok [("H200"%string, "$40.00/hr"%string)])] in
  let after := [("fourth"%string, Ok [("H200"%string, "$6.00/hr"%string)])] in
  let prices := [("H200"%string, "$7.50/hr"%string)] in
  (GCP.methods_loop (before ++ ("third"%string, Ok prices) :: after)
   = GCP.methods_loop (before ++ [("third"%string, Ok prices)])
   /\ fst (GCP.methods_loop (before ++ ("third"%string, Ok prices) :: after))
      = Scraper.dict_update [] prices)
  /\ (Hyperbolic.methods_loop (before ++ ("third"%string, Ok prices) :: after)
      = Hyperbolic.methods_loop (before ++ [("third"%string, Ok prices)])
      /\ fst (Hyperbolic.methods_loop
                (before ++ ("third"%string, Ok prices) :: after))
         = Scraper.dict_update [] prices).
Proof.
  intros before after prices.
  assert (G : Forall GCP.fails before)
    by (repeat constructor; vm_compute; reflexivity).
  assert (H : Forall Hyperbolic.fails before)
    by (repeat constructor; vm_compute; reflexivity).
  assert (VG : GCP._validate_prices prices = true)
    by (vm_compute; reflexivity).
  assert (VH : Hyperbolic._validate_prices prices = true)
    by (vm_compute; reflexivity).
  exact (conj
           (proj1 (the_first_plausible_method_is_the_result
                     before after "third" prices) G VG)
           (proj2 (the_first_plausible_method_is_the_result
                     before after "third" prices) H VH)).
Defined.
